(** * Windscribe desktop engine: connection orchestration

    A shallow embedding of the connection-related slots of
    [src/client/engine/engine/engine.cpp] (class [Engine]) and the
    properties the specification states about them.

    The [Engine] object owns a handful of plain members (settings, the
    current location, flags) and drives a set of collaborators whose code
    is outside the orchestrator: the ConnectionManager, the two
    ConnectStateControllers, the FirewallController, the Helper, the
    ApiResourcesManager and so on.  A slot is embedded as a program in a
    state monad over the Engine members whose leaves are the calls it makes
    on the collaborators.  A program is run against an arbitrary oracle
    that answers those calls; theorems quantify over every oracle, so they
    hold whatever the collaborators do.

    Not modelled: log output (qCDebug, with the getters it evaluates only to
    print), WS_ASSERT, and the mutex of the public methods.  Where C++
    leaves the order of evaluation of the arguments of a call open, they
    are evaluated from left to right.  The slots are run on an Engine whose
    collaborators exist; [helper_] and [apiResourcesManager_], which the
    source tests for null, are members of the state. *)

From Stdlib Require Import List String ZArith Bool Lia.
Import ListNotations.
Local Open Scope string_scope.
Local Open Scope list_scope.
Local Open Scope Z_scope.

(** ** Value types *)

Definition QString := string.
Definition QStringList := list string.

Definition isEmpty (s : QString) : bool :=
  match s with EmptyString => true | String _ _ => false end.

(** Which operating system the file is compiled for ([Q_OS_WIN],
    [Q_OS_MAC], [Q_OS_LINUX]). *)
Inductive Platform := Q_OS_WIN | Q_OS_MAC | Q_OS_LINUX.

Definition is_win (p : Platform) : bool :=
  match p with Q_OS_WIN => true | _ => false end.
Definition is_mac (p : Platform) : bool :=
  match p with Q_OS_MAC => true | _ => false end.
Definition is_posix (p : Platform) : bool :=
  match p with Q_OS_MAC | Q_OS_LINUX => true | Q_OS_WIN => false end.

(** Modelled from the spec: the enum [CONNECT_STATE] of the types header,
    "ConnectState - enum {Disconnected, Connecting, Connected,
    Disconnecting}", with the names engine.cpp uses. *)
Inductive CONNECT_STATE :=
| CONNECT_STATE_DISCONNECTED
| CONNECT_STATE_CONNECTED
| CONNECT_STATE_CONNECTING
| CONNECT_STATE_DISCONNECTING.

Definition CONNECT_STATE_eqb (a b : CONNECT_STATE) : bool :=
  match a, b with
  | CONNECT_STATE_DISCONNECTED, CONNECT_STATE_DISCONNECTED
  | CONNECT_STATE_CONNECTED, CONNECT_STATE_CONNECTED
  | CONNECT_STATE_CONNECTING, CONNECT_STATE_CONNECTING
  | CONNECT_STATE_DISCONNECTING, CONNECT_STATE_DISCONNECTING => true
  | _, _ => false
  end.

(** Modelled from the spec: the enum [DISCONNECT_REASON], "by user, by
    itself/internal, with error". *)
Inductive DISCONNECT_REASON :=
| DISCONNECTED_ITSELF
| DISCONNECTED_BY_USER
| DISCONNECTED_WITH_ERROR.

Definition DISCONNECT_REASON_eqb (a b : DISCONNECT_REASON) : bool :=
  match a, b with
  | DISCONNECTED_ITSELF, DISCONNECTED_ITSELF
  | DISCONNECTED_BY_USER, DISCONNECTED_BY_USER
  | DISCONNECTED_WITH_ERROR, DISCONNECTED_WITH_ERROR => true
  | _, _ => false
  end.

(** Modelled from the spec: the enum [CONNECT_ERROR].  The values
    engine.cpp names, and [DRIVER_ERROR] for the "protocol-specific driver
    errors" it only passes through. *)
Inductive CONNECT_ERROR :=
| NO_CONNECT_ERROR
| AUTH_ERROR
| PRIV_KEY_PASSWORD_ERROR
| NO_INSTALLED_TUN_TAP
| ALL_TAP_IN_USE
| WINTUN_FATAL_ERROR
| CONNECTION_BLOCKED
| LOCATION_NOT_EXIST
| LOCATION_NO_ACTIVE_NODES
| DRIVER_ERROR (code : nat).

(** Modelled from the spec: the firewall mode and timing of the settings,
    "all 4 combinations of mode x timing". *)
Inductive FIREWALL_MODE := FIREWALL_MODE_MANUAL | FIREWALL_MODE_AUTOMATIC.
Inductive FIREWALL_WHEN :=
| FIREWALL_WHEN_BEFORE_CONNECTION
| FIREWALL_WHEN_AFTER_CONNECTION.

Definition is_automatic (m : FIREWALL_MODE) : bool :=
  match m with FIREWALL_MODE_AUTOMATIC => true | _ => false end.
Definition is_before (t : FIREWALL_WHEN) : bool :=
  match t with FIREWALL_WHEN_BEFORE_CONNECTION => true | _ => false end.
Definition is_after (t : FIREWALL_WHEN) : bool :=
  match t with FIREWALL_WHEN_AFTER_CONNECTION => true | _ => false end.

Record FirewallSettings := {
  mode : FIREWALL_MODE;
  when : FIREWALL_WHEN
}.

(** Modelled from the spec: [types::Protocol], the protocols of the three
    backends (OpenVPN in its transports, IKEv2, WireGuard) and the
    [UNINITIALIZED] value engine.cpp names. *)
Inductive Protocol :=
| OPENVPN_UDP | OPENVPN_TCP | IKEV2 | WIREGUARD | STUNNEL | WSTUNNEL
| UNINITIALIZED.

Definition isWireGuardProtocol (p : Protocol) : bool :=
  match p with WIREGUARD => true | _ => false end.
Definition isIkev2Protocol (p : Protocol) : bool :=
  match p with IKEV2 => true | _ => false end.

(** Modelled from the spec: [types::ConnectionSettings], "chosen protocol
    + port + automatic flag". *)
Record ConnectionSettings := {
  cs_protocol : Protocol;
  cs_port : Z;
  cs_isAutomatic : bool
}.

(** [types::ConnectionSettings(types::Protocol(UNINITIALIZED), 0, true)]. *)
Definition ConnectionSettings_noOverride : ConnectionSettings :=
  {| cs_protocol := UNINITIALIZED; cs_port := 0; cs_isAutomatic := true |}.

(** Modelled from the spec: [types::PacketSize],
    "{isAutomatic: bool, mtu: int}". *)
Record PacketSize := {
  isAutomatic : bool;
  mtu : Z
}.

(** Modelled from the spec: [LocationID], "ordinary server node, best
    location alias, static-IP location, or custom-config location", with
    its predicates; [LOCATION_INVALID] is the default-constructed
    [LocationID()]. *)
Inductive LocationKind :=
| LOCATION_INVALID
| LOCATION_API
| LOCATION_BEST
| LOCATION_STATIC_IPS
| LOCATION_CUSTOM_CONFIGS.

Record LocationID := {
  loc_kind : LocationKind;
  loc_id : nat
}.

Definition LocationID_default : LocationID :=
  {| loc_kind := LOCATION_INVALID; loc_id := 0 |}.

Definition isCustomConfigsLocation (l : LocationID) : bool :=
  match loc_kind l with LOCATION_CUSTOM_CONFIGS => true | _ => false end.
Definition isStaticIpsLocation (l : LocationID) : bool :=
  match loc_kind l with LOCATION_STATIC_IPS => true | _ => false end.

(** Modelled from the spec: [types::NetworkInterface]; engine.cpp reads
    [networkOrSsid] and compares two values. *)
Record NetworkInterface := {
  networkOrSsid : QString;
  interfaceName : QString;
  interfaceIndex : Z
}.

Definition NetworkInterface_eqb (a b : NetworkInterface) : bool :=
  String.eqb (networkOrSsid a) (networkOrSsid b)
  && String.eqb (interfaceName a) (interfaceName b)
  && Z.eqb (interfaceIndex a) (interfaceIndex b).

Definition NetworkInterface_default : NetworkInterface :=
  {| networkOrSsid := ""; interfaceName := ""; interfaceIndex := 0 |}.

(** Modelled from the spec: [AdapterGatewayInfo], "default-adapter and
    VPN-adapter descriptors (name, index, DNS servers, gateway)". *)
Record AdapterGatewayInfo := {
  adapterName : QString;
  ifIndex : Z;
  dnsServers : QStringList;
  gateway : QString
}.

(** The default-constructed [AdapterGatewayInfo()]. *)
Definition AdapterGatewayInfo_empty : AdapterGatewayInfo :=
  {| adapterName := ""; ifIndex := 0; dnsServers := []; gateway := "" |}.

(** Modelled from the spec: the proxy settings, of which engine.cpp reads
    the address, the user name and the password. *)
Record ProxySettings := {
  curlAddress : QString;
  getUsername : QString;
  getPassword : QString
}.

Inductive CONNECTED_DNS_TYPE :=
| CONNECTED_DNS_TYPE_AUTO
| CONNECTED_DNS_TYPE_CUSTOM.

Inductive UPDATE_CHANNEL :=
| UPDATE_CHANNEL_RELEASE
| UPDATE_CHANNEL_BETA
| UPDATE_CHANNEL_GUINEA_PIG
| UPDATE_CHANNEL_INTERNAL.

(** Values the orchestrator only carries from one collaborator to another;
    the number stands for the content. *)
Inductive PortMap := PortMap_empty | PortMap_data (n : nat).
Inductive ServerCredentials :=
| ServerCredentials_empty | ServerCredentials_data (n : nat).
Inductive StaticIpPortsVector := StaticIpPorts (n : nat).
Inductive SessionStatus := SessionStatus_data (n : nat).
Inductive ApiLocations := ApiLocations_data (n : nat).
Inductive StaticIps := StaticIps_data (n : nat).
Inductive CustomConfigList := CustomConfigList_data (n : nat).
(** A [QSharedPointer<BaseLocationInfo>] that is not null. *)
Inductive BaseLocationInfo := LocationInfo (n : nat).

(** The result of a blocking DNS lookup: [isError()] and [ips()]. *)
Record DnsLookupResult := {
  isError : bool;
  ips : list QString
}.

(** Modelled from the spec: the part of [types::EngineSettings] the
    connection slots read, each field under the name of its getter. *)
Record EngineSettings := {
  firewallSettings : FirewallSettings;
  isAllowLanTraffic : bool;
  isTerminateSockets : bool;
  connectionSettingsForNetworkInterface : QString -> ConnectionSettings;
  networkLastKnownGoodProtocol : QString -> Protocol;
  customOvpnConfigsPath : QString;
  updateChannel : UPDATE_CHANNEL;
  packetSize : PacketSize
}.

(** ** The C++ [int]

    [mtu] and the MTU offsets are [int]; a subtraction wraps around on the
    32-bit two's complement representation. *)
Definition wrap_int (z : Z) : Z := (z + 2 ^ 31) mod 2 ^ 32 - 2 ^ 31.
Definition int_sub (a b : Z) : Z := wrap_int (a - b).
Definition is_int (z : Z) : Prop := - 2 ^ 31 <= z < 2 ^ 31.

(** ** Signals, queued slots and collaborator calls *)

(** The signals of [Engine] the modelled slots emit. *)
Inductive Signal :=
| firewallStateChanged (isEnabled : bool)
| helperSplitTunnelingStartFailed
| requestUsername
| requestPassword
| requestPrivKeyPassword
| emergencyDisconnected
| networkChanged (networkInterface : NetworkInterface)
| signOutFinished
| sessionStatusUpdated (sessionStatus : SessionStatus)
| loginFinished (isLoginFromSavedSettings : bool) (authHash : QString)
    (portMap : PortMap).

(** The slots the public methods hand to the Engine's event queue with
    [QMetaObject::invokeMethod]. *)
Inductive Slot :=
| Slot_connectClickImpl (locationId : LocationID)
    (connectionSettings : ConnectionSettings)
| Slot_disconnectClickImpl
| Slot_emergencyConnectClickImpl
| Slot_emergencyDisconnectClickImpl
| Slot_continueWithUsernameAndPasswordImpl (username password : QString)
    (bSave : bool)
| Slot_continueWithPasswordImpl (password : QString) (bSave : bool)
| Slot_continueWithPrivKeyPasswordImpl (password : QString) (bSave : bool).

(** The signals of the ApiResourcesManager the Engine connects to. *)
Inductive ApiSignal :=
| SIG_loginFailed
| SIG_sessionDeleted
| SIG_sessionUpdated
| SIG_locationsUpdated
| SIG_staticIpsUpdated
| SIG_notificationsUpdated
| SIG_readyForLogin
| SIG_serverCredentialsFetched.

Definition ApiSignal_eqb (a b : ApiSignal) : bool :=
  match a, b with
  | SIG_loginFailed, SIG_loginFailed
  | SIG_sessionDeleted, SIG_sessionDeleted
  | SIG_sessionUpdated, SIG_sessionUpdated
  | SIG_locationsUpdated, SIG_locationsUpdated
  | SIG_staticIpsUpdated, SIG_staticIpsUpdated
  | SIG_notificationsUpdated, SIG_notificationsUpdated
  | SIG_readyForLogin, SIG_readyForLogin
  | SIG_serverCredentialsFetched, SIG_serverCredentialsFetched => true
  | _, _ => false
  end.

(** [connectStateController_] or [emergencyConnectStateController_]. *)
Inductive Controller := Primary | Emergency.

(** A call on a collaborator, indexed by the type of what it returns.  An
    out-parameter ([bool &bChanged], [bool &success]) is part of the
    result. *)
Inductive Cmd : Type -> Type :=
(* ConnectionManager *)
| CM_isDisconnected : Cmd bool
| CM_clickConnect (ovpnConfig : QString) (serverCredentials : ServerCredentials)
    (bli : BaseLocationInfo) (connectionSettings : ConnectionSettings)
    (portMap : PortMap) (proxySettings : ProxySettings)
    (bEmitAuthError : bool) (customConfigPath : QString) : Cmd unit
| CM_clickDisconnect : Cmd unit
| CM_setLastKnownGoodProtocol (protocol : Protocol) : Cmd unit
| CM_updateConnectionSettings (connectionSettings : ConnectionSettings)
    (portMap : PortMap) (proxySettings : ProxySettings) : Cmd unit
| CM_getVpnAdapterInfo : Cmd AdapterGatewayInfo
| CM_getDefaultAdapterInfo : Cmd AdapterGatewayInfo
| CM_getLastConnectedIp : Cmd QString
| CM_currentProtocol : Cmd Protocol
| CM_isAllowFirewallAfterConnection : Cmd bool
| CM_connectedDnsInfo : Cmd CONNECTED_DNS_TYPE
| CM_isStaticIpsLocation : Cmd bool
| CM_getStatisIps : Cmd StaticIpPortsVector
| CM_startTunnelTests : Cmd unit
| CM_isCustomOvpnConfigCurrentConnection : Cmd bool
| CM_getCustomOvpnConfigFileName : Cmd QString
| CM_continueWithUsernameAndPassword (username password : QString)
    (bNeedReconnect : bool) : Cmd unit
| CM_continueWithPassword (password : QString) (bNeedReconnect : bool)
    : Cmd unit
| CM_continueWithPrivKeyPassword (password : QString) (bNeedReconnect : bool)
    : Cmd unit
(* ConnectStateController *)
| CSC_currentState (c : Controller) : Cmd CONNECT_STATE
| CSC_setConnectingState (c : Controller) (location : LocationID) : Cmd unit
| CSC_setConnectedState (c : Controller) (location : LocationID) : Cmd unit
| CSC_setDisconnectingState (c : Controller) : Cmd unit
| CSC_setDisconnectedState (c : Controller) (reason : DISCONNECT_REASON)
    (err : CONNECT_ERROR) : Cmd unit
(* FirewallController *)
| FW_firewallActualState : Cmd bool
| FW_firewallOn (connectingIp : QString) (ips : QStringList)
    (bAllowLanTraffic : bool) (bIsCustomConfig : bool) : Cmd unit
| FW_firewallOff : Cmd unit
| FW_whitelistPorts (ports : StaticIpPortsVector) : Cmd unit
| FW_deleteWhitelistPorts : Cmd unit
| FW_setInterfaceToSkip_posix (interfaceToSkip : QString) : Cmd unit
| FW_enableFirewallOnBoot (bEnable : bool) : Cmd unit
(* FirewallExceptions *)
| FE_connectingIp : Cmd QString
| FE_getIPAddressesForFirewall : Cmd QStringList
| FE_getIPAddressesForFirewallForConnectedState : Cmd QStringList
| FE_setConnectingIp (ip : QString) : Cmd bool
| FE_setDNSServers (ips : QStringList) : Cmd bool
| FE_setCustomRemoteIp (ip : QString) : Cmd bool
(* Helper *)
| H_sendConnectStatus (isConnected isTerminateSocket isKeepLocalSocket : bool)
    (defaultAdapter vpnAdapter : AdapterGatewayInfo)
    (connectedIp : QString) (protocol : Protocol) : Cmd bool
| H_changeMtu (adapter : QString) (mtu : Z) : Cmd unit
| HW_setCustomDnsWhileConnected (ifIndex : Z) (dns : option QString)
    : Cmd bool
| HW_setIPv6EnabledInFirewall (b : bool) : Cmd unit
| HW_closeAllTcpConnections (isKeepLocalSockets : bool) : Cmd unit
| HW_enableDohSettings : Cmd unit
(* platform utilities *)
| AdapterMetricsController_win_updateMetrics (adapterName : QString) : Cmd unit
| DnsInfo_win_outputDebugDnsInfo : Cmd unit
| WinUtils_isDohSupported : Cmd bool
| Ipv6Controller_mac_disableIpv6 : Cmd unit
| Ipv6Controller_mac_restoreIpv6 : Cmd unit
| AdapterGatewayInfo_detectAndCreateDefaultAdapterInfo : Cmd AdapterGatewayInfo
(* WSNet, DNS configuration, proxy, extra config, validation *)
| WSNet_setProxySettings_none : Cmd unit
| WSNet_setProxySettings (address username password : QString) : Cmd unit
| WSNet_lookupBlocked (host : QString) : Cmd DnsLookupResult
| DNS_setConnectedState (dnsServers : QStringList) : Cmd unit
| DNS_setDisconnectedState : Cmd unit
| PSC_getCurrentProxySettings : Cmd ProxySettings
| EC_getRemoteIpFromExtraConfig : Cmd QString
| EC_setDetectedIp (ip : QString) : Cmd unit
| EC_getMtuOffsetWireguard : Cmd (Z * bool)
| EC_getMtuOffsetIkev2 : Cmd (Z * bool)
| IpValidation_isIp (s : QString) : Cmd bool
| IpValidation_isDomain (s : QString) : Cmd bool
| Logger_startConnectionMode : Cmd unit
(* VpnShareController, MyIpManager, CheckUpdateManager *)
| VS_onConnectedToVPNEvent (adapterName : QString) : Cmd unit
| VS_onDisconnectedFromVPNEvent : Cmd unit
| MyIp_getIP (timeoutMs : Z) : Cmd unit
| CU_checkUpdate (channel : UPDATE_CHANNEL) : Cmd unit
(* ApiResourcesManager *)
| API_create : Cmd unit
| API_fetchSession : Cmd unit
| API_fetchServerCredentials : Cmd unit
| API_fetchAllWithAuthHash : Cmd unit
| API_loadFromSettings : Cmd bool
| API_login (username password code2fa : QString) : Cmd unit
| API_isLoggedIn : Cmd bool
| API_authHash : Cmd QString
| API_ovpnConfig : Cmd QString
| API_serverCredentials : Cmd ServerCredentials
| API_portMap : Cmd PortMap
| API_sessionStatus : Cmd SessionStatus
| API_locations : Cmd ApiLocations
| API_staticIps : Cmd StaticIps
| API_forceDisconnectNodes : Cmd QStringList
| API_removeFromSettings : Cmd unit
(* LocationsModel and the location info it hands out *)
| LM_getMutableLocationInfoById (locationId : LocationID)
    : Cmd (option BaseLocationInfo)
| LM_clear : Cmd unit
| LM_setApiLocations (locations : ApiLocations) (staticIps : StaticIps)
    : Cmd unit
| LM_setCustomConfigLocations (configs : CustomConfigList) : Cmd unit
| BLI_isExistSelectedNode (bli : BaseLocationInfo) : Cmd bool
| BLI_getName (bli : BaseLocationInfo) : Cmd QString
| BLI_locationId (bli : BaseLocationInfo) : Cmd LocationID
| CC_getConfigs : Cmd CustomConfigList
(* NetworkDetectionManager *)
| ND_getCurrentNetworkInterface : Cmd NetworkInterface
(* CustomOvpnAuthCredentialsStorage *)
| CRED_setAuthCredentials (ovpnFileName username password : QString)
    : Cmd unit
| CRED_setPrivKeyPassword (ovpnFileName password : QString) : Cmd unit
| CRED_removeCredentials (ovpnFileName : QString) : Cmd unit
| CRED_removePrivKeyPassword (ovpnFileName : QString) : Cmd unit
(* EmergencyController, SignOutHelper, GetWireGuardConfig *)
| EM_isDisconnected : Cmd bool
| EM_blockingDisconnect : Cmd unit
| EM_clickConnect (proxySettings : ProxySettings) : Cmd unit
| EM_clickDisconnect : Cmd unit
| SO_signOut (authHash : QString) : Cmd unit
| GetWireGuardConfig_removeWireGuardSettings : Cmd unit
(* the Engine's own signals and event queue *)
| Emit (s : Signal) : Cmd unit
| Q_invokeMethod (s : Slot) : Cmd unit.

(** One step of an execution: a call and what it returned. *)
Inductive Event := Ev (X : Type) (c : Cmd X) (x : X).
Arguments Ev {X} c x.

(** ** The members of [Engine] *)

Record Engine := {
  bInitialized_ : bool;
  helper_ : bool;                     (* helper_ != nullptr *)
  engineSettings_ : EngineSettings;
  packetSize_ : PacketSize;
  locationId_ : LocationID;
  locationName_ : QString;
  connectionSettingsOverride_ : ConnectionSettings;
  lastConnectingProtocol_ : Protocol;
  isBlockConnect_ : bool;
  isNeedReconnectAfterRequestAuth_ : bool;
  isIgnoreNoApiConnectivity_ : bool;
  apiResourcesManager_ : bool;        (* apiResourcesManager_ is not null *)
  apiConnections : list ApiSignal;    (* Qt connections from it to [this] *)
  signOutHelper_ : bool;              (* signOutHelper_ is not null *)
  senderSource : option QString;      (* connectionManager_'s dynamic
                                         property, None = invalid QVariant *)
  bPrevNetworkInterfaceInitialized_ : bool;
  prevNetworkInterface_ : NetworkInterface;
  overrideUpdateChannelWithInternal_ : bool
}.

Definition set_locationId_ (v : LocationID) (e : Engine) : Engine :=
  {| bInitialized_ := bInitialized_ e; helper_ := helper_ e;
     engineSettings_ := engineSettings_ e; packetSize_ := packetSize_ e;
     locationId_ := v; locationName_ := locationName_ e;
     connectionSettingsOverride_ := connectionSettingsOverride_ e;
     lastConnectingProtocol_ := lastConnectingProtocol_ e;
     isBlockConnect_ := isBlockConnect_ e;
     isNeedReconnectAfterRequestAuth_ := isNeedReconnectAfterRequestAuth_ e;
     isIgnoreNoApiConnectivity_ := isIgnoreNoApiConnectivity_ e;
     apiResourcesManager_ := apiResourcesManager_ e;
     apiConnections := apiConnections e; signOutHelper_ := signOutHelper_ e;
     senderSource := senderSource e;
     bPrevNetworkInterfaceInitialized_ := bPrevNetworkInterfaceInitialized_ e;
     prevNetworkInterface_ := prevNetworkInterface_ e;
     overrideUpdateChannelWithInternal_ :=
       overrideUpdateChannelWithInternal_ e |}.

Definition set_locationName_ (v : QString) (e : Engine) : Engine :=
  {| bInitialized_ := bInitialized_ e; helper_ := helper_ e;
     engineSettings_ := engineSettings_ e; packetSize_ := packetSize_ e;
     locationId_ := locationId_ e; locationName_ := v;
     connectionSettingsOverride_ := connectionSettingsOverride_ e;
     lastConnectingProtocol_ := lastConnectingProtocol_ e;
     isBlockConnect_ := isBlockConnect_ e;
     isNeedReconnectAfterRequestAuth_ := isNeedReconnectAfterRequestAuth_ e;
     isIgnoreNoApiConnectivity_ := isIgnoreNoApiConnectivity_ e;
     apiResourcesManager_ := apiResourcesManager_ e;
     apiConnections := apiConnections e; signOutHelper_ := signOutHelper_ e;
     senderSource := senderSource e;
     bPrevNetworkInterfaceInitialized_ := bPrevNetworkInterfaceInitialized_ e;
     prevNetworkInterface_ := prevNetworkInterface_ e;
     overrideUpdateChannelWithInternal_ :=
       overrideUpdateChannelWithInternal_ e |}.

Definition set_connectionSettingsOverride_ (v : ConnectionSettings)
    (e : Engine) : Engine :=
  {| bInitialized_ := bInitialized_ e; helper_ := helper_ e;
     engineSettings_ := engineSettings_ e; packetSize_ := packetSize_ e;
     locationId_ := locationId_ e; locationName_ := locationName_ e;
     connectionSettingsOverride_ := v;
     lastConnectingProtocol_ := lastConnectingProtocol_ e;
     isBlockConnect_ := isBlockConnect_ e;
     isNeedReconnectAfterRequestAuth_ := isNeedReconnectAfterRequestAuth_ e;
     isIgnoreNoApiConnectivity_ := isIgnoreNoApiConnectivity_ e;
     apiResourcesManager_ := apiResourcesManager_ e;
     apiConnections := apiConnections e; signOutHelper_ := signOutHelper_ e;
     senderSource := senderSource e;
     bPrevNetworkInterfaceInitialized_ := bPrevNetworkInterfaceInitialized_ e;
     prevNetworkInterface_ := prevNetworkInterface_ e;
     overrideUpdateChannelWithInternal_ :=
       overrideUpdateChannelWithInternal_ e |}.

Definition set_isBlockConnect_ (v : bool) (e : Engine) : Engine :=
  {| bInitialized_ := bInitialized_ e; helper_ := helper_ e;
     engineSettings_ := engineSettings_ e; packetSize_ := packetSize_ e;
     locationId_ := locationId_ e; locationName_ := locationName_ e;
     connectionSettingsOverride_ := connectionSettingsOverride_ e;
     lastConnectingProtocol_ := lastConnectingProtocol_ e;
     isBlockConnect_ := v;
     isNeedReconnectAfterRequestAuth_ := isNeedReconnectAfterRequestAuth_ e;
     isIgnoreNoApiConnectivity_ := isIgnoreNoApiConnectivity_ e;
     apiResourcesManager_ := apiResourcesManager_ e;
     apiConnections := apiConnections e; signOutHelper_ := signOutHelper_ e;
     senderSource := senderSource e;
     bPrevNetworkInterfaceInitialized_ := bPrevNetworkInterfaceInitialized_ e;
     prevNetworkInterface_ := prevNetworkInterface_ e;
     overrideUpdateChannelWithInternal_ :=
       overrideUpdateChannelWithInternal_ e |}.

Definition set_isNeedReconnectAfterRequestAuth_ (v : bool) (e : Engine)
    : Engine :=
  {| bInitialized_ := bInitialized_ e; helper_ := helper_ e;
     engineSettings_ := engineSettings_ e; packetSize_ := packetSize_ e;
     locationId_ := locationId_ e; locationName_ := locationName_ e;
     connectionSettingsOverride_ := connectionSettingsOverride_ e;
     lastConnectingProtocol_ := lastConnectingProtocol_ e;
     isBlockConnect_ := isBlockConnect_ e;
     isNeedReconnectAfterRequestAuth_ := v;
     isIgnoreNoApiConnectivity_ := isIgnoreNoApiConnectivity_ e;
     apiResourcesManager_ := apiResourcesManager_ e;
     apiConnections := apiConnections e; signOutHelper_ := signOutHelper_ e;
     senderSource := senderSource e;
     bPrevNetworkInterfaceInitialized_ := bPrevNetworkInterfaceInitialized_ e;
     prevNetworkInterface_ := prevNetworkInterface_ e;
     overrideUpdateChannelWithInternal_ :=
       overrideUpdateChannelWithInternal_ e |}.

(** [apiResourcesManager_.reset(...)]: the pointer changes and the
    connections of the object it held go with that object. *)
Definition set_apiResourcesManager_ (v : bool) (e : Engine) : Engine :=
  {| bInitialized_ := bInitialized_ e; helper_ := helper_ e;
     engineSettings_ := engineSettings_ e; packetSize_ := packetSize_ e;
     locationId_ := locationId_ e; locationName_ := locationName_ e;
     connectionSettingsOverride_ := connectionSettingsOverride_ e;
     lastConnectingProtocol_ := lastConnectingProtocol_ e;
     isBlockConnect_ := isBlockConnect_ e;
     isNeedReconnectAfterRequestAuth_ := isNeedReconnectAfterRequestAuth_ e;
     isIgnoreNoApiConnectivity_ := isIgnoreNoApiConnectivity_ e;
     apiResourcesManager_ := v;
     apiConnections := []; signOutHelper_ := signOutHelper_ e;
     senderSource := senderSource e;
     bPrevNetworkInterfaceInitialized_ := bPrevNetworkInterfaceInitialized_ e;
     prevNetworkInterface_ := prevNetworkInterface_ e;
     overrideUpdateChannelWithInternal_ :=
       overrideUpdateChannelWithInternal_ e |}.

Definition set_apiConnections (v : list ApiSignal) (e : Engine) : Engine :=
  {| bInitialized_ := bInitialized_ e; helper_ := helper_ e;
     engineSettings_ := engineSettings_ e; packetSize_ := packetSize_ e;
     locationId_ := locationId_ e; locationName_ := locationName_ e;
     connectionSettingsOverride_ := connectionSettingsOverride_ e;
     lastConnectingProtocol_ := lastConnectingProtocol_ e;
     isBlockConnect_ := isBlockConnect_ e;
     isNeedReconnectAfterRequestAuth_ := isNeedReconnectAfterRequestAuth_ e;
     isIgnoreNoApiConnectivity_ := isIgnoreNoApiConnectivity_ e;
     apiResourcesManager_ := apiResourcesManager_ e;
     apiConnections := v; signOutHelper_ := signOutHelper_ e;
     senderSource := senderSource e;
     bPrevNetworkInterfaceInitialized_ := bPrevNetworkInterfaceInitialized_ e;
     prevNetworkInterface_ := prevNetworkInterface_ e;
     overrideUpdateChannelWithInternal_ :=
       overrideUpdateChannelWithInternal_ e |}.

Definition set_signOutHelper_ (v : bool) (e : Engine) : Engine :=
  {| bInitialized_ := bInitialized_ e; helper_ := helper_ e;
     engineSettings_ := engineSettings_ e; packetSize_ := packetSize_ e;
     locationId_ := locationId_ e; locationName_ := locationName_ e;
     connectionSettingsOverride_ := connectionSettingsOverride_ e;
     lastConnectingProtocol_ := lastConnectingProtocol_ e;
     isBlockConnect_ := isBlockConnect_ e;
     isNeedReconnectAfterRequestAuth_ := isNeedReconnectAfterRequestAuth_ e;
     isIgnoreNoApiConnectivity_ := isIgnoreNoApiConnectivity_ e;
     apiResourcesManager_ := apiResourcesManager_ e;
     apiConnections := apiConnections e; signOutHelper_ := v;
     senderSource := senderSource e;
     bPrevNetworkInterfaceInitialized_ := bPrevNetworkInterfaceInitialized_ e;
     prevNetworkInterface_ := prevNetworkInterface_ e;
     overrideUpdateChannelWithInternal_ :=
       overrideUpdateChannelWithInternal_ e |}.

Definition set_senderSource (v : option QString) (e : Engine) : Engine :=
  {| bInitialized_ := bInitialized_ e; helper_ := helper_ e;
     engineSettings_ := engineSettings_ e; packetSize_ := packetSize_ e;
     locationId_ := locationId_ e; locationName_ := locationName_ e;
     connectionSettingsOverride_ := connectionSettingsOverride_ e;
     lastConnectingProtocol_ := lastConnectingProtocol_ e;
     isBlockConnect_ := isBlockConnect_ e;
     isNeedReconnectAfterRequestAuth_ := isNeedReconnectAfterRequestAuth_ e;
     isIgnoreNoApiConnectivity_ := isIgnoreNoApiConnectivity_ e;
     apiResourcesManager_ := apiResourcesManager_ e;
     apiConnections := apiConnections e; signOutHelper_ := signOutHelper_ e;
     senderSource := v;
     bPrevNetworkInterfaceInitialized_ := bPrevNetworkInterfaceInitialized_ e;
     prevNetworkInterface_ := prevNetworkInterface_ e;
     overrideUpdateChannelWithInternal_ :=
       overrideUpdateChannelWithInternal_ e |}.

Definition set_prevNetworkInterface_ (v : NetworkInterface) (e : Engine)
    : Engine :=
  {| bInitialized_ := bInitialized_ e; helper_ := helper_ e;
     engineSettings_ := engineSettings_ e; packetSize_ := packetSize_ e;
     locationId_ := locationId_ e; locationName_ := locationName_ e;
     connectionSettingsOverride_ := connectionSettingsOverride_ e;
     lastConnectingProtocol_ := lastConnectingProtocol_ e;
     isBlockConnect_ := isBlockConnect_ e;
     isNeedReconnectAfterRequestAuth_ := isNeedReconnectAfterRequestAuth_ e;
     isIgnoreNoApiConnectivity_ := isIgnoreNoApiConnectivity_ e;
     apiResourcesManager_ := apiResourcesManager_ e;
     apiConnections := apiConnections e; signOutHelper_ := signOutHelper_ e;
     senderSource := senderSource e;
     bPrevNetworkInterfaceInitialized_ := true;
     prevNetworkInterface_ := v;
     overrideUpdateChannelWithInternal_ :=
       overrideUpdateChannelWithInternal_ e |}.

(** ** Programs

    [Free A] is a program that makes collaborator calls and returns an
    [A]; [M A] additionally reads and writes the members of [Engine]. *)

Inductive Free (A : Type) : Type :=
| Pure (a : A)
| Call (X : Type) (c : Cmd X) (k : X -> Free A).
Arguments Pure {A} a.
Arguments Call {A X} c k.

Fixpoint Free_bind {A B} (t : Free A) (f : A -> Free B) : Free B :=
  match t with
  | Pure a => f a
  | Call c k => Call c (fun x => Free_bind (k x) f)
  end.

Definition M (A : Type) : Type := Engine -> Free (A * Engine).

Definition ret {A} (a : A) : M A := fun s => Pure (a, s).
Definition bind {A B} (m : M A) (f : A -> M B) : M B :=
  fun s => Free_bind (m s) (fun r => f (fst r) (snd r)).
Definition call {X} (c : Cmd X) : M X := fun s => Call c (fun x => Pure (x, s)).
Definition get {A} (f : Engine -> A) : M A := fun s => Pure (f s, s).
Definition modify (f : Engine -> Engine) : M unit := fun s => Pure (tt, f s).
Definition emit (sig : Signal) : M unit := call (Emit sig).
Definition skip : M unit := ret tt.

Declare Scope engine_scope.
Delimit Scope engine_scope with engine.
Notation "x <- m ;; k" := (bind m (fun x => k))
  (at level 61, m at next level, right associativity) : engine_scope.
Notation "m ;; k" := (bind m (fun _ => k))
  (at level 61, right associativity) : engine_scope.
Notation "'ifM' b 'then' m" := (if b then m else skip)
  (at level 60, b at level 9, m at level 60) : engine_scope.
Local Open Scope engine_scope.

(** ** Running a program against the collaborators

    An oracle answers each call and may keep a state of its own of any
    type [W]. *)

Definition Oracle (W : Type) : Type := forall X, Cmd X -> W -> X * W.

Fixpoint run {W A} (h : Oracle W) (t : Free A) (w : W)
    : A * W * list Event :=
  match t with
  | Pure a => (a, w, [])
  | Call c k =>
      let r := h _ c w in
      let r' := run h (k (fst r)) (snd r) in
      (fst (fst r'), snd (fst r'), Ev c (fst r) :: snd r')
  end.

Section Exec.
Context {W A : Type} (h : Oracle W) (m : M A) (s : Engine) (w : W).

(** What the slot returns, the members after it, the oracle after it and
    the calls it made, in order. *)
Definition value : A := fst (fst (fst (run h (m s) w))).
Definition after : Engine := snd (fst (fst (run h (m s) w))).
Definition world : W := snd (fst (run h (m s) w)).
Definition trace : list Event := snd (run h (m s) w).
End Exec.

(** [answers h c x]: the oracle answers the call [c] with [x] whenever it
    is asked. *)
Definition answers {W X} (h : Oracle W) (c : Cmd X) (x : X) : Prop :=
  forall w, fst (h _ c w) = x.

(** An oracle without a state of its own. *)
Definition stateless (f : forall X, Cmd X -> X) : Oracle unit :=
  fun X c w => (f X c, w).

(** [disconnect(apiResourcesManager_.get(), &serverCredentialsFetched, this,
    slot)] on a list of connections. *)
Definition withoutServerCredentialsFetched (l : list ApiSignal)
    : list ApiSignal :=
  filter (fun g => negb (ApiSignal_eqb g SIG_serverCredentialsFetched)) l.

(** ** The slots of [Engine] *)

Section EngineSlots.

(** The compile-time platform and the two constants of
    [types/global_consts.h]. *)
Variable platform : Platform.
Variables MTU_OFFSET_WG MTU_OFFSET_IKEV2 : Z.

(** [firewallController_->firewallOn(firewallExceptions_.connectingIp(),
    firewallExceptions_.getIPAddressesForFirewall(),
    engineSettings_.isAllowLanTraffic(),
    locationId_.isCustomConfigsLocation())], the call as it is written
    for every state but Connected. *)
Definition firewallOn_connecting : M unit :=
  ip <- call FE_connectingIp ;;
  allowed <- call FE_getIPAddressesForFirewall ;;
  lan <- get (fun e => isAllowLanTraffic (engineSettings_ e)) ;;
  custom <- get (fun e => isCustomConfigsLocation (locationId_ e)) ;;
  call (FW_firewallOn ip allowed lan custom).

(** The same call as it is written for the Connected state, with
    [connectionManager_->getLastConnectedIp()] and
    [getIPAddressesForFirewallForConnectedState()]. *)
Definition firewallOn_connected : M unit :=
  ip <- call CM_getLastConnectedIp ;;
  allowed <- call FE_getIPAddressesForFirewallForConnectedState ;;
  lan <- get (fun e => isAllowLanTraffic (engineSettings_ e)) ;;
  custom <- get (fun e => isCustomConfigsLocation (locationId_ e)) ;;
  call (FW_firewallOn ip allowed lan custom).

(** [helper_->sendConnectStatus(false, ..., detectAndCreateDefaultAdapterInfo(),
    AdapterGatewayInfo(), QString(), types::Protocol())]. *)
Definition sendConnectStatus_disconnected : M bool :=
  ts <- get (fun e => isTerminateSockets (engineSettings_ e)) ;;
  lan <- get (fun e => isAllowLanTraffic (engineSettings_ e)) ;;
  def <- call AdapterGatewayInfo_detectAndCreateDefaultAdapterInfo ;;
  call (H_sendConnectStatus false ts lan def AdapterGatewayInfo_empty ""
          UNINITIALIZED).

Definition stopFetchingServerCredentials : M unit :=
  api <- get apiResourcesManager_ ;;
  ifM api then
    modify (fun e =>
      set_apiConnections
        (withoutServerCredentialsFetched (apiConnections e)) e).

Definition updateFirewallSettings : M unit :=
  on <- call FW_firewallActualState ;;
  ifM on then
    (st <- call (CSC_currentState Primary) ;;
     if negb (CONNECT_STATE_eqb st CONNECT_STATE_CONNECTED)
     then firewallOn_connecting
     else firewallOn_connected).

Definition addCustomRemoteIpToFirewallIfNeed : M unit :=
  strHost <- call EC_getRemoteIpFromExtraConfig ;;
  ifM (negb (isEmpty strHost)) then
    (ip <- (isip <- call (IpValidation_isIp strHost) ;;
            if isip then ret strHost
            else
              isdom <- call (IpValidation_isDomain strHost) ;;
              if isdom then
                res <- call (WSNet_lookupBlocked strHost) ;;
                match isError res, ips res with
                | false, first :: _ =>
                    call (EC_setDetectedIp first) ;; ret first
                | _, _ => call (EC_setDetectedIp "") ;; ret ""
                end
              else call (EC_setDetectedIp "") ;; ret "") ;;
     ifM (negb (isEmpty ip)) then
       (bChanged <- call (FE_setCustomRemoteIp ip) ;;
        ifM bChanged then updateFirewallSettings)).

Definition doConnect (bEmitAuthError : bool) : M unit :=
  loc <- get locationId_ ;;
  found <- call (LM_getMutableLocationInfoById loc) ;;
  match found with
  | None =>
      call (CSC_setDisconnectedState Primary DISCONNECTED_WITH_ERROR
              LOCATION_NOT_EXIST) ;;
      call (MyIp_getIP 1)
  | Some bli =>
      hasNode <- call (BLI_isExistSelectedNode bli) ;;
      if negb hasNode then
        call (CSC_setDisconnectedState Primary DISCONNECTED_WITH_ERROR
                LOCATION_NO_ACTIVE_NODES) ;;
        call (MyIp_getIP 1)
      else
        name <- call (BLI_getName bli) ;;
        modify (set_locationName_ name) ;;
        networkInterface <- call ND_getCurrentNetworkInterface ;;
        api <- get apiResourcesManager_ ;;
        settings <- get engineSettings_ ;;
        if api then
          l1 <- call (BLI_locationId bli) ;;
          (ifM (negb (isCustomConfigsLocation l1)) then
             (l2 <- call (BLI_locationId bli) ;; skip)) ;;
          call Logger_startConnectionMode ;;
          override <- get connectionSettingsOverride_ ;;
          let connectionSettings :=
            if negb (cs_isAutomatic override) then override
            else connectionSettingsForNetworkInterface settings
                   (networkOrSsid networkInterface) in
          call (CM_setLastKnownGoodProtocol
                  (networkLastKnownGoodProtocol settings
                     (networkOrSsid networkInterface))) ;;
          ovpn <- call API_ovpnConfig ;;
          creds <- call API_serverCredentials ;;
          portMap <- call API_portMap ;;
          proxy <- call PSC_getCurrentProxySettings ;;
          call (CM_clickConnect ovpn creds bli connectionSettings portMap
                  proxy bEmitAuthError (customOvpnConfigsPath settings))
        else
          call Logger_startConnectionMode ;;
          proxy <- call PSC_getCurrentProxySettings ;;
          call (CM_clickConnect "" ServerCredentials_empty bli
                  (connectionSettingsForNetworkInterface settings
                     (networkOrSsid networkInterface))
                  PortMap_empty proxy bEmitAuthError
                  (customOvpnConfigsPath settings))
  end.

(** Lines 981-993 of [connectClickImpl]: the automatic "firewall on
    before connection" policy. *)
Definition connectClickImpl_firewallBefore : M unit :=
  fs <- get (fun e => firewallSettings (engineSettings_ e)) ;;
  ifM (is_automatic (mode fs) && is_before (when fs)) then
    (bFirewallStateOn <- call FW_firewallActualState ;;
     ifM (negb bFirewallStateOn) then
       (firewallOn_connecting ;;
        emit (firewallStateChanged true))).

(** Lines 971-994 of [connectClickImpl]: what the connect sequence does
    once the ConnectionManager is disconnected and the connection is not
    blocked. *)
Definition connectClickImpl_proceed : M unit :=
  addCustomRemoteIpToFirewallIfNeed ;;
  match platform with
  | Q_OS_WIN => call DnsInfo_win_outputDebugDnsInfo
  | Q_OS_MAC => call Ipv6Controller_mac_disableIpv6
  | Q_OS_LINUX => skip
  end ;;
  stopFetchingServerCredentials ;;
  connectClickImpl_firewallBefore ;;
  doConnect true.

Definition connectClickImpl (locationId : LocationID)
    (connectionSettings : ConnectionSettings) : M unit :=
  modify (set_locationId_ locationId) ;;
  modify (set_connectionSettingsOverride_ connectionSettings) ;;
  disconnected <- call CM_isDisconnected ;;
  if negb disconnected then
    modify (set_senderSource (Some "reconnect")) ;;
    call CM_clickDisconnect
  else
    blocked <- get isBlockConnect_ ;;
    loc <- get locationId_ ;;
    if blocked && negb (isCustomConfigsLocation loc) then
      call (CSC_setDisconnectedState Primary DISCONNECTED_WITH_ERROR
              CONNECTION_BLOCKED) ;;
      call (MyIp_getIP 1)
    else
      connectClickImpl_proceed.

Definition disconnectClickImpl : M unit :=
  stopFetchingServerCredentials ;;
  modify (set_senderSource None) ;;
  call CM_clickDisconnect.

Definition checkForceDisconnectNode (forceDisconnectNodes : QStringList)
    : M unit :=
  disconnected <- call CM_isDisconnected ;;
  ifM (negb disconnected) then skip.

Definition updateServerLocations : M unit :=
  api <- get apiResourcesManager_ ;;
  (ifM api then
     (locations <- call API_locations ;;
      staticIps <- call API_staticIps ;;
      call (LM_setApiLocations locations staticIps))) ;;
  configs <- call CC_getConfigs ;;
  call (LM_setCustomConfigLocations configs) ;;
  ifM api then
    (nodes <- call API_forceDisconnectNodes ;;
     checkForceDisconnectNode nodes).

Definition doCheckUpdate : M unit :=
  channel <- get (fun e => updateChannel (engineSettings_ e)) ;;
  override <- get overrideUpdateChannelWithInternal_ ;;
  call (CU_checkUpdate (if override then UPDATE_CHANNEL_INTERNAL
                        else channel)).

Definition updateCurrentNetworkInterfaceImpl : M unit :=
  networkInterface <- call ND_getCurrentNetworkInterface ;;
  initialized <- get bPrevNetworkInterfaceInitialized_ ;;
  prev <- get prevNetworkInterface_ ;;
  ifM (negb initialized || negb (NetworkInterface_eqb networkInterface prev))
  then
    (modify (set_prevNetworkInterface_ networkInterface) ;;
     hasHelper <- get helper_ ;;
     (ifM hasHelper then
        (st <- call (CSC_currentState Primary) ;;
         ifM (CONNECT_STATE_eqb st CONNECT_STATE_DISCONNECTED) then
           (sendConnectStatus_disconnected ;; skip))) ;;
     emit (networkChanged networkInterface)).

(** [connect(apiResourcesManager_.get(), signal, this, slot)]. *)
Definition connectApiSignal (g : ApiSignal) : M unit :=
  modify (fun e => set_apiConnections (apiConnections e ++ [g]) e).

(** The emergency connection is torn down once the API resources are
    there (in [loginImpl] and in [onApiResourcesManagerReadyForLogin]). *)
Definition finishEmergencyConnection : M unit :=
  emDisconnected <- call EM_isDisconnected ;;
  ifM (negb emDisconnected) then
    (call EM_blockingDisconnect ;;
     call (CSC_setDisconnectedState Emergency DISCONNECTED_ITSELF
             NO_CONNECT_ERROR) ;;
     emit emergencyDisconnected).

Definition loginImpl (isUseAuthHash : bool)
    (username password code2fa : QString) : M unit :=
  modify (set_signOutHelper_ false) ;;
  call API_create ;;
  modify (set_apiResourcesManager_ true) ;;
  connectApiSignal SIG_loginFailed ;;
  connectApiSignal SIG_sessionDeleted ;;
  connectApiSignal SIG_sessionUpdated ;;
  connectApiSignal SIG_locationsUpdated ;;
  connectApiSignal SIG_staticIpsUpdated ;;
  connectApiSignal SIG_notificationsUpdated ;;
  if isUseAuthHash then
    call API_fetchAllWithAuthHash ;;
    loaded <- call API_loadFromSettings ;;
    if loaded then
      finishEmergencyConnection ;;
      status <- call API_sessionStatus ;;
      emit (sessionStatusUpdated status) ;;
      updateServerLocations ;;
      call (MyIp_getIP 1) ;;
      doCheckUpdate ;;
      updateCurrentNetworkInterfaceImpl ;;
      authHash <- call API_authHash ;;
      portMap <- call API_portMap ;;
      emit (loginFinished true authHash portMap)
    else
      connectApiSignal SIG_readyForLogin
  else
    connectApiSignal SIG_readyForLogin ;;
    call (API_login username password code2fa).

Definition doDisconnectRestoreStuff : M unit :=
  call VS_onDisconnectedFromVPNEvent ;;
  proxySettings <- call PSC_getCurrentProxySettings ;;
  call (WSNet_setProxySettings (curlAddress proxySettings)
          (getUsername proxySettings) (getPassword proxySettings)) ;;
  call DNS_setDisconnectedState ;;
  (ifM (is_posix platform) then call (FW_setInterfaceToSkip_posix "")) ;;
  call (FE_setConnectingIp "") ;;
  call (FE_setDNSServers []) ;;
  on <- call FW_firewallActualState ;;
  (ifM on then firewallOn_connecting) ;;
  (ifM (is_win platform) then call (HW_setIPv6EnabledInFirewall true)) ;;
  (ifM (is_mac platform) then call Ipv6Controller_mac_restoreIpv6) ;;
  ignore <- get isIgnoreNoApiConnectivity_ ;;
  api <- get apiResourcesManager_ ;;
  ifM (negb ignore && api) then
    (loggedIn <- call API_isLoggedIn ;;
     ifM (negb loggedIn) then loginImpl true "" "" "").

Definition signOutImplAfterDisconnect (keepFirewallOn : bool) : M unit :=
  call LM_clear ;;
  (ifM (is_posix platform) then call (FW_enableFirewallOnBoot false)) ;;
  api <- get apiResourcesManager_ ;;
  (ifM api then
     (modify (set_signOutHelper_ true) ;;
      authHash <- call API_authHash ;;
      call (SO_signOut authHash) ;;
      modify (set_apiResourcesManager_ false) ;;
      call API_removeFromSettings)) ;;
  call GetWireGuardConfig_removeWireGuardSettings ;;
  (ifM (negb keepFirewallOn) then
     (call FW_firewallOff ;;
      emit (firewallStateChanged false))) ;;
  emit signOutFinished.

Definition enableDohSettings : M unit :=
  supported <- call WinUtils_isDohSupported ;;
  ifM supported then call HW_enableDohSettings.

(** Lines 1447-1453 of [onConnectionManagerDisconnected]: read the
    [senderSource] property and reset it; an invalid property reads as
    the empty string. *)
Definition takeSenderSource : M QString :=
  tag <- get senderSource ;;
  match tag with
  | Some source => modify (set_senderSource None) ;; ret source
  | None => ret ""
  end.

(** Lines 1461-1488 of [onConnectionManagerDisconnected]: what follows
    the disconnect, by the tag it was requested with. *)
Definition onDisconnected_followUp (reason : DISCONNECT_REASON)
    (source : QString) : M unit :=
  let settle :=
    modify (set_connectionSettingsOverride_ ConnectionSettings_noOverride) ;;
    call (CSC_setDisconnectedState Primary reason NO_CONNECT_ERROR) in
  if String.eqb source "signOutImpl" then
    signOutImplAfterDisconnect false ;;
    settle
  else if String.eqb source "signOutImplKeepFirewallOn" then
    signOutImplAfterDisconnect true ;;
    settle
  else if String.eqb source "reconnect" then
    loc <- get locationId_ ;;
    override <- get connectionSettingsOverride_ ;;
    connectClickImpl loc override
  else
    call (MyIp_getIP 1) ;;
    automatic <- get (fun e =>
      is_automatic (mode (firewallSettings (engineSettings_ e)))) ;;
    (ifM (DISCONNECT_REASON_eqb reason DISCONNECTED_BY_USER && automatic)
     then
       (on <- call FW_firewallActualState ;;
        ifM on then
          (call FW_firewallOff ;;
           emit (firewallStateChanged false)))) ;;
    settle.

Definition onConnectionManagerDisconnected (reason : DISCONNECT_REASON)
    : M unit :=
  (ifM (is_win platform) then enableDohSettings) ;;
  static <- call CM_isStaticIpsLocation ;;
  (ifM static then call FW_deleteWhitelistPorts) ;;
  source <- takeSenderSource ;;
  doDisconnectRestoreStuff ;;
  (ifM (is_win platform) then call DnsInfo_win_outputDebugDnsInfo) ;;
  onDisconnected_followUp reason source.

Definition onApiResourcesManagerServerCredentialsFetched : M unit :=
  stopFetchingServerCredentials ;;
  doConnect false.

Definition onConnectionManagerError (err : CONNECT_ERROR) : M unit :=
  match err with
  | AUTH_ERROR =>
      call CM_isCustomOvpnConfigCurrentConnection ;;
      doDisconnectRestoreStuff ;;
      custom <- call CM_isCustomOvpnConfigCurrentConnection ;;
      if custom then
        file <- call CM_getCustomOvpnConfigFileName ;;
        call (CRED_removeCredentials file) ;;
        modify (set_isNeedReconnectAfterRequestAuth_ true) ;;
        emit requestUsername
      else
        api <- get apiResourcesManager_ ;;
        ifM api then
          (call API_fetchSession ;;
           connectApiSignal SIG_serverCredentialsFetched ;;
           call API_fetchServerCredentials)
  | PRIV_KEY_PASSWORD_ERROR =>
      doDisconnectRestoreStuff ;;
      file <- call CM_getCustomOvpnConfigFileName ;;
      call (CRED_removePrivKeyPassword file) ;;
      modify (set_isNeedReconnectAfterRequestAuth_ true) ;;
      emit requestPrivKeyPassword
  | _ =>
      match platform, err with
      | Q_OS_WIN, NO_INSTALLED_TUN_TAP
      | Q_OS_WIN, WINTUN_FATAL_ERROR =>
          call (CSC_setDisconnectedState Primary DISCONNECTED_WITH_ERROR
                  WINTUN_FATAL_ERROR)
      | Q_OS_WIN, ALL_TAP_IN_USE => skip
      | _, _ =>
          (ifM (is_mac platform) then call Ipv6Controller_mac_restoreIpv6) ;;
          call (CSC_setDisconnectedState Primary DISCONNECTED_WITH_ERROR err)
      end
  end.

(** *** [onConnectionManagerConnected], in the order of the source *)

(** Lines 1292-1299: adapter metrics (Windows) or the interface the
    firewall skips (macOS, Linux). *)
Definition onConnected_adapter (adapterName : QString) : M unit :=
  match platform with
  | Q_OS_WIN =>
      protocol <- call CM_currentProtocol ;;
      ifM (negb (isWireGuardProtocol protocol)) then
        call (AdapterMetricsController_win_updateMetrics adapterName)
  | _ => call (FW_setInterfaceToSkip_posix adapterName)
  end.

(** Lines 1301-1331: the automatic firewall policy after the
    connection; returns [isFirewallAlreadyEnabled]. *)
Definition onConnected_firewallAfter : M bool :=
  fs <- get (fun e => firewallSettings (engineSettings_ e)) ;;
  if is_automatic (mode fs) then
    isAllowFirewallAfterConnection <- call CM_isAllowFirewallAfterConnection ;;
    if isAllowFirewallAfterConnection && is_after (when fs) then
      on <- call FW_firewallActualState ;;
      if negb on then
        firewallOn_connected ;;
        emit (firewallStateChanged true) ;;
        ret true
      else ret false
    else if negb isAllowFirewallAfterConnection && is_before (when fs) then
      on <- call FW_firewallActualState ;;
      (ifM on then
         (call FW_firewallOff ;;
          emit (firewallStateChanged false))) ;;
      ret false
    else ret false
  else ret false.

(** Lines 1333-1338. *)
Definition onConnected_sendConnectStatus : M unit :=
  settings <- get engineSettings_ ;;
  def <- call CM_getDefaultAdapterInfo ;;
  vpn <- call CM_getVpnAdapterInfo ;;
  ip <- call CM_getLastConnectedIp ;;
  protocol <- get lastConnectingProtocol_ ;;
  result <- call (H_sendConnectStatus true (isTerminateSockets settings)
                    (isAllowLanTraffic settings) def vpn ip protocol) ;;
  ifM (negb result) then emit helperSplitTunnelingStartFailed.

(** Lines 1340-1347: the rules of a firewall that is already on are
    rewritten for the connected state. *)
Definition onConnected_refreshFirewall (isFirewallAlreadyEnabled : bool)
    : M unit :=
  on <- call FW_firewallActualState ;;
  ifM (on && negb isFirewallAlreadyEnabled) then firewallOn_connected.

(** Lines 1350-1362, Windows only. *)
Definition onConnected_customDns : M unit :=
  ifM (is_win platform) then
    (dnsType <- call CM_connectedDnsInfo ;;
     (match dnsType with
      | CONNECTED_DNS_TYPE_CUSTOM =>
          protocol <- call CM_currentProtocol ;;
          ifM (negb (isWireGuardProtocol protocol)) then
            (vpn1 <- call CM_getVpnAdapterInfo ;;
             vpn2 <- call CM_getVpnAdapterInfo ;;
             call (HW_setCustomDnsWhileConnected (ifIndex vpn1)
                     (hd_error (dnsServers vpn2))) ;;
             skip)
      | _ => skip
      end) ;;
     call (HW_setIPv6EnabledInFirewall false)).

(** Lines 1364-1400: the MTU of the VPN adapter. *)
Definition onConnected_mtu (adapterName : QString) : M unit :=
  p1 <- call CM_currentProtocol ;;
  tunnel <- (if isIkev2Protocol p1 then ret true
             else p2 <- call CM_currentProtocol ;;
                  ret (isWireGuardProtocol p2)) ;;
  ifM tunnel then
    (packet <- get packetSize_ ;;
     ifM (negb (isAutomatic packet)) then
       (p3 <- call CM_currentProtocol ;;
        mtuForProtocol <-
          (if isWireGuardProtocol p3 then
             r <- call EC_getMtuOffsetWireguard ;;
             let wgoffset := if negb (snd r) then MTU_OFFSET_WG else fst r in
             ret (int_sub (mtu packet) wgoffset)
           else
             r <- call EC_getMtuOffsetIkev2 ;;
             let ikev2offset :=
               if negb (snd r) then MTU_OFFSET_IKEV2 else fst r in
             ret (int_sub (mtu packet) ikev2offset)) ;;
        ifM (0 <? mtuForProtocol) then
          call (H_changeMtu adapterName mtuForProtocol))).

(** Lines 1402-1430. *)
Definition onConnected_finish (adapterName : QString) : M unit :=
  static <- call CM_isStaticIpsLocation ;;
  (ifM static then
     (ports <- call CM_getStatisIps ;;
      call (FW_whitelistPorts ports))) ;;
  call WSNet_setProxySettings_none ;;
  vpn <- call CM_getVpnAdapterInfo ;;
  call (DNS_setConnectedState (dnsServers vpn)) ;;
  settings <- get engineSettings_ ;;
  (ifM (isTerminateSockets settings && is_win platform) then
     call (HW_closeAllTcpConnections (isAllowLanTraffic settings))) ;;
  call (VS_onConnectedToVPNEvent adapterName) ;;
  loc <- get locationId_ ;;
  call (CSC_setConnectedState Primary loc) ;;
  call CM_startTunnelTests ;;
  api <- get apiResourcesManager_ ;;
  ifM api then
    (loggedIn <- call API_isLoggedIn ;;
     ifM (negb loggedIn) then loginImpl true "" "" "").

Definition onConnectionManagerConnected : M unit :=
  vpn <- call CM_getVpnAdapterInfo ;;
  let adapterName := adapterName vpn in
  onConnected_adapter adapterName ;;
  isFirewallAlreadyEnabled <- onConnected_firewallAfter ;;
  onConnected_sendConnectStatus ;;
  onConnected_refreshFirewall isFirewallAlreadyEnabled ;;
  onConnected_customDns ;;
  onConnected_mtu adapterName ;;
  onConnected_finish adapterName.

(** *** Credentials, network change *)

Definition continueWithUsernameAndPasswordImpl (username password : QString)
    (bSave : bool) : M unit :=
  if isEmpty username && isEmpty password then
    call CM_clickDisconnect
  else
    (ifM bSave then
       (file <- call CM_getCustomOvpnConfigFileName ;;
        call (CRED_setAuthCredentials file username password))) ;;
    need <- get isNeedReconnectAfterRequestAuth_ ;;
    call (CM_continueWithUsernameAndPassword username password need).

Definition continueWithPasswordImpl (password : QString) (bSave : bool)
    : M unit :=
  if isEmpty password then
    call CM_clickDisconnect
  else
    (ifM bSave then
       (file <- call CM_getCustomOvpnConfigFileName ;;
        call (CRED_setAuthCredentials file "" password))) ;;
    need <- get isNeedReconnectAfterRequestAuth_ ;;
    call (CM_continueWithPassword password need).

Definition continueWithPrivKeyPasswordImpl (password : QString)
    (bSave : bool) : M unit :=
  if isEmpty password then
    call CM_clickDisconnect
  else
    (ifM bSave then
       (file <- call CM_getCustomOvpnConfigFileName ;;
        call (CRED_setPrivKeyPassword file password))) ;;
    need <- get isNeedReconnectAfterRequestAuth_ ;;
    call (CM_continueWithPrivKeyPassword password need).

Definition onNetworkChange (networkInterface : NetworkInterface) : M unit :=
  (ifM (negb (isEmpty (networkOrSsid networkInterface))) then
     (api <- get apiResourcesManager_ ;;
      settings <- get engineSettings_ ;;
      let connectionSettings :=
        connectionSettingsForNetworkInterface settings
          (networkOrSsid networkInterface) in
      (if api then
         portMap <- call API_portMap ;;
         proxy <- call PSC_getCurrentProxySettings ;;
         call (CM_updateConnectionSettings connectionSettings portMap proxy)
       else
         proxy <- call PSC_getCurrentProxySettings ;;
         call (CM_updateConnectionSettings connectionSettings PortMap_empty
                 proxy)) ;;
      hasHelper <- get helper_ ;;
      ifM hasHelper then
        (st <- call (CSC_currentState Primary) ;;
         ifM (CONNECT_STATE_eqb st CONNECT_STATE_DISCONNECTED) then
           (sendConnectStatus_disconnected ;; skip)))) ;;
  emit (networkChanged networkInterface).

Definition emergencyConnectClickImpl : M unit :=
  proxy <- call PSC_getCurrentProxySettings ;;
  call (EM_clickConnect proxy).

Definition emergencyDisconnectClickImpl : M unit :=
  call EM_clickDisconnect.

(** *** The public methods, called from the thread of the caller *)

Definition connectClick (locationId : LocationID)
    (connectionSettings : ConnectionSettings) : M unit :=
  initialized <- get bInitialized_ ;;
  ifM initialized then
    (modify (set_locationId_ locationId) ;;
     loc <- get locationId_ ;;
     call (CSC_setConnectingState Primary loc) ;;
     call (Q_invokeMethod
             (Slot_connectClickImpl locationId connectionSettings))).

Definition disconnectClick : M unit :=
  initialized <- get bInitialized_ ;;
  ifM initialized then
    (st1 <- call (CSC_currentState Primary) ;;
     connectedOrConnecting <-
       (if CONNECT_STATE_eqb st1 CONNECT_STATE_CONNECTED then ret true
        else st2 <- call (CSC_currentState Primary) ;;
             ret (CONNECT_STATE_eqb st2 CONNECT_STATE_CONNECTING)) ;;
     ifM connectedOrConnecting then
       (call (CSC_setDisconnectingState Primary) ;;
        call (Q_invokeMethod Slot_disconnectClickImpl))).

Definition setBlockConnect (isBlockConnect : bool) : M unit :=
  modify (set_isBlockConnect_ isBlockConnect).

Definition emergencyConnectClick : M unit :=
  initialized <- get bInitialized_ ;;
  if initialized then
    call (CSC_setConnectingState Emergency LocationID_default) ;;
    call (Q_invokeMethod Slot_emergencyConnectClickImpl)
  else
    call (CSC_setDisconnectedState Emergency DISCONNECTED_ITSELF
            NO_CONNECT_ERROR) ;;
    emit emergencyDisconnected.

Definition emergencyDisconnectClick : M unit :=
  initialized <- get bInitialized_ ;;
  if initialized then
    call (CSC_setDisconnectingState Emergency) ;;
    call (Q_invokeMethod Slot_emergencyDisconnectClickImpl)
  else
    call (CSC_setDisconnectedState Emergency DISCONNECTED_ITSELF
            NO_CONNECT_ERROR) ;;
    emit emergencyDisconnected.

Definition continueWithUsernameAndPassword (username password : QString)
    (bSave : bool) : M unit :=
  call (Q_invokeMethod
          (Slot_continueWithUsernameAndPasswordImpl username password bSave)).

Definition continueWithPassword (password : QString) (bSave : bool)
    : M unit :=
  call (Q_invokeMethod (Slot_continueWithPasswordImpl password bSave)).

Definition continueWithPrivKeyPassword (password : QString) (bSave : bool)
    : M unit :=
  call (Q_invokeMethod (Slot_continueWithPrivKeyPasswordImpl password bSave)).

(** *** The event queue

    What the Engine's thread runs when it takes a queued slot from its
    event queue. *)
Definition invoke (slot : Slot) : M unit :=
  match slot with
  | Slot_connectClickImpl locationId connectionSettings =>
      connectClickImpl locationId connectionSettings
  | Slot_disconnectClickImpl => disconnectClickImpl
  | Slot_emergencyConnectClickImpl => emergencyConnectClickImpl
  | Slot_emergencyDisconnectClickImpl => emergencyDisconnectClickImpl
  | Slot_continueWithUsernameAndPasswordImpl username password bSave =>
      continueWithUsernameAndPasswordImpl username password bSave
  | Slot_continueWithPasswordImpl password bSave =>
      continueWithPasswordImpl password bSave
  | Slot_continueWithPrivKeyPasswordImpl password bSave =>
      continueWithPrivKeyPasswordImpl password bSave
  end.

(** The ApiResourcesManager emits [serverCredentialsFetched]: the slot
    runs for a connection made with [connect] and not yet removed by
    [disconnect]; the slot removes every such connection first, so the
    ones after the first are gone when their turn comes. *)
Definition serverCredentialsFetched : M unit :=
  connections <- get apiConnections ;;
  ifM (existsb (ApiSignal_eqb SIG_serverCredentialsFetched) connections)
  then onApiResourcesManagerServerCredentialsFetched.

End EngineSlots.

(** The overhead [onConnectionManagerConnected] subtracts from the MTU for
    the protocol [p], given what the two advanced parameters answer: the
    value of the parameter when there is one, the constant otherwise. *)
Definition mtuOverhead (MTU_OFFSET_WG MTU_OFFSET_IKEV2 : Z) (p : Protocol)
    (wg ik : Z * bool) : Z :=
  if isWireGuardProtocol p
  then (if snd wg then fst wg else MTU_OFFSET_WG)
  else (if snd ik then fst ik else MTU_OFFSET_IKEV2).

(** ** Observing a trace *)

Definition is_clickConnect (e : Event) : bool :=
  match e with
  | Ev c _ => match c with CM_clickConnect _ _ _ _ _ _ _ _ => true | _ => false end
  end.



Definition is_changeMtu (e : Event) : bool :=
  match e with
  | Ev c _ => match c with H_changeMtu _ _ => true | _ => false end
  end.

(** [emit firewallStateChanged(true)]: the Engine reports that it has
    switched the firewall on. *)
Definition is_firewallEnabled (e : Event) : bool :=
  match e with
  | Ev c _ => match c with Emit (firewallStateChanged true) => true | _ => false end
  end.

(** A transition requested from a ConnectStateController. *)
Definition is_stateTransition (e : Event) : bool :=
  match e with
  | Ev c _ =>
      match c with
      | CSC_setConnectingState _ _ | CSC_setConnectedState _ _
      | CSC_setDisconnectingState _ | CSC_setDisconnectedState _ _ _ => true
      | _ => false
      end
  end.



(** A command to the ConnectionManager that starts, stops or resumes a
    connection. *)
Definition is_connectionControl (e : Event) : bool :=
  match e with
  | Ev c _ =>
      match c with
      | CM_clickConnect _ _ _ _ _ _ _ _ | CM_clickDisconnect
      | CM_continueWithUsernameAndPassword _ _ _
      | CM_continueWithPassword _ _
      | CM_continueWithPrivKeyPassword _ _ => true
      | _ => false
      end
  end.

(** A change of the OS firewall. *)
Definition is_firewallMutation (e : Event) : bool :=
  match e with
  | Ev c _ =>
      match c with
      | FW_firewallOn _ _ _ _ | FW_firewallOff | FW_whitelistPorts _
      | FW_deleteWhitelistPorts | FW_setInterfaceToSkip_posix _
      | FW_enableFirewallOnBoot _ => true
      | _ => false
      end
  end.

(** A change of the DNS configuration. *)
Definition is_dnsMutation (e : Event) : bool :=
  match e with
  | Ev c _ =>
      match c with
      | DNS_setConnectedState _ | DNS_setDisconnectedState
      | HW_setCustomDnsWhileConnected _ _ | HW_enableDohSettings
      | FE_setDNSServers _ => true
      | _ => false
      end
  end.

(** A slot handed to the event queue. *)
Definition is_queued (e : Event) : bool :=
  match e with
  | Ev c _ => match c with Q_invokeMethod _ => true | _ => false end
  end.

Definition count (f : Event -> bool) (tr : list Event) : nat :=
  List.length (filter f tr).

(** [tr] ends with [tail], and what comes before it has no call that [f]
    selects. *)
Definition preceded_quietly (f : Event -> bool) (tr tail : list Event)
    : Prop :=
  exists pre, tr = pre ++ tail /\ count f pre = 0%nat.

(** The two automatic firewall actions as they show in a trace: the
    firewall is found off, switched on with the rules of the phase, and the
    UI is told. *)
Definition enableBeforeAction (tr : list Event) : Prop :=
  exists pre post ip allowed lan custom,
    tr = pre
         ++ [Ev FW_firewallActualState false;
             Ev FE_connectingIp ip;
             Ev FE_getIPAddressesForFirewall allowed;
             Ev (FW_firewallOn ip allowed lan custom) tt;
             Ev (Emit (firewallStateChanged true)) tt]
         ++ post.

Definition enableAfterAction (tr : list Event) : Prop :=
  exists pre post ip allowed lan custom,
    tr = pre
         ++ [Ev CM_isAllowFirewallAfterConnection true;
             Ev FW_firewallActualState false;
             Ev CM_getLastConnectedIp ip;
             Ev FE_getIPAddressesForFirewallForConnectedState allowed;
             Ev (FW_firewallOn ip allowed lan custom) tt;
             Ev (Emit (firewallStateChanged true)) tt]
         ++ post.

(** ** Three judgements on programs

    [silent f m]: no run of [m] makes a call that [f] selects.
    [keeps I m]: [m] preserves the invariant [I] of the members.
    [frame R m]: run from two states related by [R], [m] makes the same
    calls, returns the same value and ends in related states. *)

Definition silent {A} (f : Event -> bool) (m : M A) : Prop :=
  forall W (h : Oracle W) s w, filter f (trace h m s w) = [].

Definition keeps {A} (I : Engine -> Prop) (m : M A) : Prop :=
  forall W (h : Oracle W) s w, I s -> I (after h m s w).

Definition frame {A} (R : Engine -> Engine -> Prop) (m : M A) : Prop :=
  forall W (h : Oracle W) s1 s2 w,
    R s1 s2 ->
    value h m s1 w = value h m s2 w /\
    world h m s1 w = world h m s2 w /\
    trace h m s1 w = trace h m s2 w /\
    R (after h m s1 w) (after h m s2 w).

(** ** A concrete oracle

    [idle] answers every call with the default value of its type: the
    ConnectionManager is not disconnected, the firewall is off, nothing is
    configured.  [stateless idle] is the oracle the examples start from. *)
Definition idle (X : Type) (c : Cmd X) : X :=
  match c in Cmd T return T with
  | CM_isDisconnected => false
  | CM_clickConnect _ _ _ _ _ _ _ _ => tt
  | CM_clickDisconnect => tt
  | CM_setLastKnownGoodProtocol _ => tt
  | CM_updateConnectionSettings _ _ _ => tt
  | CM_getVpnAdapterInfo => AdapterGatewayInfo_empty
  | CM_getDefaultAdapterInfo => AdapterGatewayInfo_empty
  | CM_getLastConnectedIp => ""
  | CM_currentProtocol => UNINITIALIZED
  | CM_isAllowFirewallAfterConnection => false
  | CM_connectedDnsInfo => CONNECTED_DNS_TYPE_AUTO
  | CM_isStaticIpsLocation => false
  | CM_getStatisIps => StaticIpPorts 0
  | CM_startTunnelTests => tt
  | CM_isCustomOvpnConfigCurrentConnection => false
  | CM_getCustomOvpnConfigFileName => ""
  | CM_continueWithUsernameAndPassword _ _ _ => tt
  | CM_continueWithPassword _ _ => tt
  | CM_continueWithPrivKeyPassword _ _ => tt
  | CSC_currentState _ => CONNECT_STATE_DISCONNECTED
  | CSC_setConnectingState _ _ => tt
  | CSC_setConnectedState _ _ => tt
  | CSC_setDisconnectingState _ => tt
  | CSC_setDisconnectedState _ _ _ => tt
  | FW_firewallActualState => false
  | FW_firewallOn _ _ _ _ => tt
  | FW_firewallOff => tt
  | FW_whitelistPorts _ => tt
  | FW_deleteWhitelistPorts => tt
  | FW_setInterfaceToSkip_posix _ => tt
  | FW_enableFirewallOnBoot _ => tt
  | FE_connectingIp => ""
  | FE_getIPAddressesForFirewall => []
  | FE_getIPAddressesForFirewallForConnectedState => []
  | FE_setConnectingIp _ => false
  | FE_setDNSServers _ => false
  | FE_setCustomRemoteIp _ => false
  | H_sendConnectStatus _ _ _ _ _ _ _ => false
  | H_changeMtu _ _ => tt
  | HW_setCustomDnsWhileConnected _ _ => false
  | HW_setIPv6EnabledInFirewall _ => tt
  | HW_closeAllTcpConnections _ => tt
  | HW_enableDohSettings => tt
  | AdapterMetricsController_win_updateMetrics _ => tt
  | DnsInfo_win_outputDebugDnsInfo => tt
  | WinUtils_isDohSupported => false
  | Ipv6Controller_mac_disableIpv6 => tt
  | Ipv6Controller_mac_restoreIpv6 => tt
  | AdapterGatewayInfo_detectAndCreateDefaultAdapterInfo => AdapterGatewayInfo_empty
  | WSNet_setProxySettings_none => tt
  | WSNet_setProxySettings _ _ _ => tt
  | WSNet_lookupBlocked _ => {| isError := true; ips := [] |}
  | DNS_setConnectedState _ => tt
  | DNS_setDisconnectedState => tt
  | PSC_getCurrentProxySettings => {| curlAddress := ""; getUsername := ""; getPassword := "" |}
  | EC_getRemoteIpFromExtraConfig => ""
  | EC_setDetectedIp _ => tt
  | EC_getMtuOffsetWireguard => (0, false)
  | EC_getMtuOffsetIkev2 => (0, false)
  | IpValidation_isIp _ => false
  | IpValidation_isDomain _ => false
  | Logger_startConnectionMode => tt
  | VS_onConnectedToVPNEvent _ => tt
  | VS_onDisconnectedFromVPNEvent => tt
  | MyIp_getIP _ => tt
  | CU_checkUpdate _ => tt
  | API_create => tt
  | API_fetchSession => tt
  | API_fetchServerCredentials => tt
  | API_fetchAllWithAuthHash => tt
  | API_loadFromSettings => false
  | API_login _ _ _ => tt
  | API_isLoggedIn => false
  | API_authHash => ""
  | API_ovpnConfig => ""
  | API_serverCredentials => ServerCredentials_empty
  | API_portMap => PortMap_empty
  | API_sessionStatus => SessionStatus_data 0
  | API_locations => ApiLocations_data 0
  | API_staticIps => StaticIps_data 0
  | API_forceDisconnectNodes => []
  | API_removeFromSettings => tt
  | LM_getMutableLocationInfoById _ => None
  | LM_clear => tt
  | LM_setApiLocations _ _ => tt
  | LM_setCustomConfigLocations _ => tt
  | BLI_isExistSelectedNode _ => false
  | BLI_getName _ => ""
  | BLI_locationId _ => LocationID_default
  | CC_getConfigs => CustomConfigList_data 0
  | ND_getCurrentNetworkInterface => NetworkInterface_default
  | CRED_setAuthCredentials _ _ _ => tt
  | CRED_setPrivKeyPassword _ _ => tt
  | CRED_removeCredentials _ => tt
  | CRED_removePrivKeyPassword _ => tt
  | EM_isDisconnected => false
  | EM_blockingDisconnect => tt
  | EM_clickConnect _ => tt
  | EM_clickDisconnect => tt
  | SO_signOut _ => tt
  | GetWireGuardConfig_removeWireGuardSettings => tt
  | Emit _ => tt
  | Q_invokeMethod _ => tt
  end.

(** ** Concrete collaborators and states

    Oracles that override [idle] where a scenario needs it, and the states
    of the Engine the examples run from. *)

(** The ConnectionManager has finished disconnecting, every location
    resolves to an info with a selected node, the account is logged in and
    the tunnel is a WireGuard one on the adapter utun420. *)
Definition ready (X : Type) (c : Cmd X) : X :=
  match c in Cmd T return T -> T with
  | CM_isDisconnected => fun _ => true
  | LM_getMutableLocationInfoById _ => fun _ => Some (LocationInfo 7)
  | BLI_isExistSelectedNode _ => fun _ => true
  | API_isLoggedIn => fun _ => true
  | CM_isAllowFirewallAfterConnection => fun _ => true
  | CM_currentProtocol => fun _ => WIREGUARD
  | CM_getVpnAdapterInfo =>
      fun _ => {| adapterName := "utun420"; ifIndex := 7;
                  dnsServers := ["10.255.255.1"]; gateway := "10.255.255.1" |}
  | _ => fun d => d
  end (idle X c).

(** The locations resolve but have no node to connect to. *)
Definition noActiveNodes (X : Type) (c : Cmd X) : X :=
  match c in Cmd T return T -> T with
  | CM_isDisconnected => fun _ => true
  | LM_getMutableLocationInfoById _ => fun _ => Some (LocationInfo 7)
  | BLI_isExistSelectedNode _ => fun _ => false
  | _ => fun d => d
  end (idle X c).

(** The current connection is a custom OpenVPN config. *)
Definition customConfig (X : Type) (c : Cmd X) : X :=
  match c in Cmd T return T -> T with
  | CM_isCustomOvpnConfigCurrentConnection => fun _ => true
  | CM_getCustomOvpnConfigFileName => fun _ => "office.ovpn"
  | API_isLoggedIn => fun _ => true
  | _ => fun d => d
  end (idle X c).

(** An account connection whose session is logged in. *)
Definition account (X : Type) (c : Cmd X) : X :=
  match c in Cmd T return T -> T with
  | API_isLoggedIn => fun _ => true
  | _ => fun d => d
  end (idle X c).

Definition wireGuard443 : ConnectionSettings :=
  {| cs_protocol := WIREGUARD; cs_port := 443; cs_isAutomatic := false |}.

Definition settings0 : EngineSettings :=
  {| firewallSettings := {| mode := FIREWALL_MODE_AUTOMATIC;
                            when := FIREWALL_WHEN_BEFORE_CONNECTION |};
     isAllowLanTraffic := false;
     isTerminateSockets := false;
     connectionSettingsForNetworkInterface := fun _ => wireGuard443;
     networkLastKnownGoodProtocol := fun _ => WIREGUARD;
     customOvpnConfigsPath := "";
     updateChannel := UPDATE_CHANNEL_RELEASE;
     packetSize := {| isAutomatic := false; mtu := 1500 |} |}.

Definition settingsAfter : EngineSettings :=
  {| firewallSettings := {| mode := FIREWALL_MODE_AUTOMATIC;
                            when := FIREWALL_WHEN_AFTER_CONNECTION |};
     isAllowLanTraffic := false;
     isTerminateSockets := false;
     connectionSettingsForNetworkInterface := fun _ => wireGuard443;
     networkLastKnownGoodProtocol := fun _ => WIREGUARD;
     customOvpnConfigsPath := "";
     updateChannel := UPDATE_CHANNEL_RELEASE;
     packetSize := {| isAutomatic := false; mtu := 1500 |} |}.

Definition toronto : LocationID := {| loc_kind := LOCATION_API; loc_id := 1 |}.
Definition zurich : LocationID := {| loc_kind := LOCATION_API; loc_id := 2 |}.
Definition officeConfig : LocationID :=
  {| loc_kind := LOCATION_CUSTOM_CONFIGS; loc_id := 3 |}.

(** The Engine after initialisation and login, connected to no one yet. *)
Definition engine0 : Engine :=
  {| bInitialized_ := true;
     helper_ := true;
     engineSettings_ := settings0;
     packetSize_ := {| isAutomatic := false; mtu := 1500 |};
     locationId_ := toronto;
     locationName_ := "";
     connectionSettingsOverride_ := ConnectionSettings_noOverride;
     lastConnectingProtocol_ := WIREGUARD;
     isBlockConnect_ := false;
     isNeedReconnectAfterRequestAuth_ := false;
     isIgnoreNoApiConnectivity_ := false;
     apiResourcesManager_ := true;
     apiConnections := [SIG_loginFailed; SIG_sessionDeleted; SIG_sessionUpdated;
                        SIG_locationsUpdated; SIG_staticIpsUpdated;
                        SIG_notificationsUpdated];
     signOutHelper_ := false;
     senderSource := None;
     bPrevNetworkInterfaceInitialized_ := false;
     prevNetworkInterface_ := NetworkInterface_default;
     overrideUpdateChannelWithInternal_ := false |}.

(** The same with the firewall timing "after connection". *)
Definition engineAfter : Engine :=
  {| bInitialized_ := true;
     helper_ := true;
     engineSettings_ := settingsAfter;
     packetSize_ := {| isAutomatic := false; mtu := 1500 |};
     locationId_ := toronto;
     locationName_ := "";
     connectionSettingsOverride_ := ConnectionSettings_noOverride;
     lastConnectingProtocol_ := WIREGUARD;
     isBlockConnect_ := false;
     isNeedReconnectAfterRequestAuth_ := false;
     isIgnoreNoApiConnectivity_ := false;
     apiResourcesManager_ := true;
     apiConnections := [SIG_loginFailed; SIG_sessionDeleted; SIG_sessionUpdated;
                        SIG_locationsUpdated; SIG_staticIpsUpdated;
                        SIG_notificationsUpdated];
     signOutHelper_ := false;
     senderSource := None;
     bPrevNetworkInterfaceInitialized_ := false;
     prevNetworkInterface_ := NetworkInterface_default;
     overrideUpdateChannelWithInternal_ := false |}.

(** The Engine as its constructor leaves it. *)
Definition engineCreated : Engine :=
  {| bInitialized_ := false;
     helper_ := false;
     engineSettings_ := settings0;
     packetSize_ := {| isAutomatic := true; mtu := 0 |};
     locationId_ := LocationID_default;
     locationName_ := "";
     connectionSettingsOverride_ := ConnectionSettings_noOverride;
     lastConnectingProtocol_ := UNINITIALIZED;
     isBlockConnect_ := false;
     isNeedReconnectAfterRequestAuth_ := false;
     isIgnoreNoApiConnectivity_ := false;
     apiResourcesManager_ := false;
     apiConnections := [];
     signOutHelper_ := false;
     senderSource := None;
     bPrevNetworkInterfaceInitialized_ := false;
     prevNetworkInterface_ := NetworkInterface_default;
     overrideUpdateChannelWithInternal_ := false |}.

Definition officeWifi : NetworkInterface :=
  {| networkOrSsid := "office-wifi"; interfaceName := "en0";
     interfaceIndex := 4 |}.

Definition utun420 : AdapterGatewayInfo :=
  {| adapterName := "utun420"; ifIndex := 7;
     dnsServers := ["10.255.255.1"]; gateway := "10.255.255.1" |}.

Definition noProxy : ProxySettings :=
  {| curlAddress := ""; getUsername := ""; getPassword := "" |}.

(** ** More slots of [Engine]

    The slots around the connect sequence that the calls above can
    express: sign-out, the manual firewall switch, the reconnecting event,
    the end of the emergency connection and the end of a login. *)

Section MoreSlots.
Variable platform : Platform.

(** [signOutImpl]: "function consists of two parts (first - disconnect if
    need, second - do other signout stuff)". *)
Definition signOutImpl (keepFirewallOn : bool) : M unit :=
  disconnected <- call CM_isDisconnected ;;
  if negb disconnected then
    modify (set_senderSource
              (Some (if keepFirewallOn then "signOutImplKeepFirewallOn"
                     else "signOutImpl"))) ;;
    call CM_clickDisconnect
  else
    signOutImplAfterDisconnect platform keepFirewallOn.

Definition firewallOnImpl : M unit :=
  st <- call (CSC_currentState Primary) ;;
  (if negb (CONNECT_STATE_eqb st CONNECT_STATE_CONNECTED)
   then firewallOn_connecting
   else firewallOn_connected) ;;
  emit (firewallStateChanged true).

Definition firewallOffImpl : M unit :=
  call FW_firewallOff ;;
  emit (firewallStateChanged false).

Definition onConnectionManagerReconnecting : M unit :=
  call DNS_setDisconnectedState ;;
  on <- call FW_firewallActualState ;;
  (ifM on then firewallOn_connecting) ;;
  call (CSC_setConnectingState Primary LocationID_default).

Definition onEmergencyControllerDisconnected (reason : DISCONNECT_REASON)
    : M unit :=
  proxySettings <- call PSC_getCurrentProxySettings ;;
  call (WSNet_setProxySettings (curlAddress proxySettings)
          (getUsername proxySettings) (getPassword proxySettings)) ;;
  call DNS_setDisconnectedState ;;
  call (CSC_setDisconnectedState Emergency reason NO_CONNECT_ERROR) ;;
  emit emergencyDisconnected.

(** [disconnect(apiResourcesManager_.get(), &readyForLogin, this, nullptr)]
    on a list of connections. *)
Definition withoutReadyForLogin (l : list ApiSignal) : list ApiSignal :=
  filter (fun g => negb (ApiSignal_eqb g SIG_readyForLogin)) l.

Definition onApiResourcesManagerReadyForLogin : M unit :=
  modify (fun e =>
    set_apiConnections (withoutReadyForLogin (apiConnections e)) e) ;;
  finishEmergencyConnection ;;
  call (MyIp_getIP 1) ;;
  doCheckUpdate ;;
  updateCurrentNetworkInterfaceImpl ;;
  authHash <- call API_authHash ;;
  portMap <- call API_portMap ;;
  emit (loginFinished false authHash portMap).

(** The ApiResourcesManager emits [readyForLogin]: the slot runs if a
    connection made with [connect] is still there; the slot removes the
    connections of the signal first. *)
Definition readyForLogin : M unit :=
  connections <- get apiConnections ;;
  ifM (existsb (ApiSignal_eqb SIG_readyForLogin) connections)
  then onApiResourcesManagerReadyForLogin.

Definition onApiResourcesManagerStaticIpsUpdated : M unit :=
  updateServerLocations.

Definition onCustomConfigsChanged : M unit :=
  updateServerLocations.

End MoreSlots.

(** ** More observations of a trace *)

Definition is_firewallOn (e : Event) : bool :=
  match e with
  | Ev c _ => match c with FW_firewallOn _ _ _ _ => true | _ => false end
  end.

Definition is_firewallOff (e : Event) : bool :=
  match e with
  | Ev c _ => match c with FW_firewallOff => true | _ => false end
  end.

(** A command to the ConnectionManager, or the firewall switched off. *)
Definition is_controlOrFirewallOff (e : Event) : bool :=
  is_connectionControl e || is_firewallOff e.

(** [emit firewallStateChanged(...)], switched on or off. *)
Definition is_firewallSignal (e : Event) : bool :=
  match e with
  | Ev c _ => match c with Emit (firewallStateChanged _) => true | _ => false end
  end.

Definition is_loginFinished (e : Event) : bool :=
  match e with
  | Ev c _ => match c with Emit (loginFinished _ _ _) => true | _ => false end
  end.

Definition is_apiLogin (e : Event) : bool :=
  match e with
  | Ev c _ => match c with API_login _ _ _ => true | _ => false end
  end.

(** A new ApiResourcesManager is created. *)
Definition is_apiCreate (e : Event) : bool :=
  match e with
  | Ev c _ => match c with API_create => true | _ => false end
  end.

(** A transition requested from the primary ConnectStateController. *)
Definition is_primaryTransition (e : Event) : bool :=
  match e with
  | Ev c _ =>
      match c with
      | CSC_setConnectingState Primary _ | CSC_setConnectedState Primary _
      | CSC_setDisconnectingState Primary
      | CSC_setDisconnectedState Primary _ _ => true
      | _ => false
      end
  end.

Definition is_whitelistPorts (e : Event) : bool :=
  match e with
  | Ev c _ => match c with FW_whitelistPorts _ => true | _ => false end
  end.

Definition is_deleteWhitelistPorts (e : Event) : bool :=
  match e with
  | Ev c _ => match c with FW_deleteWhitelistPorts => true | _ => false end
  end.

(** A transition requested from the primary ConnectStateController, or
    the start of the tunnel tests. *)
Definition is_primaryOrTests (e : Event) : bool :=
  match e with
  | Ev c _ =>
      match c with
      | CSC_setConnectingState Primary _ | CSC_setConnectedState Primary _
      | CSC_setDisconnectingState Primary
      | CSC_setDisconnectedState Primary _ _
      | CM_startTunnelTests => true
      | _ => false
      end
  end.

(** [mid] occurs in [tr], and no call before or after it is one [f]
    selects. *)
Definition surrounded_quietly (f : Event -> bool) (tr mid : list Event)
    : Prop :=
  exists pre post,
    tr = pre ++ mid ++ post /\ count f pre = 0%nat /\ count f post = 0%nat.

Definition is_setCustomRemoteIp (e : Event) : bool :=
  match e with
  | Ev c _ => match c with FE_setCustomRemoteIp _ => true | _ => false end
  end.

(** The custom remote IP is set to the empty string. *)
Definition is_setCustomRemoteIpEmpty (e : Event) : bool :=
  match e with
  | Ev c _ =>
      match c with
      | FE_setCustomRemoteIp ip => isEmpty ip
      | _ => false
      end
  end.

Definition is_networkChanged (e : Event) : bool :=
  match e with
  | Ev c _ => match c with Emit (networkChanged _) => true | _ => false end
  end.

(** Any call on the ConnectionManager, queries included. *)
Definition is_connectionManagerCall (e : Event) : bool :=
  match e with
  | Ev c _ =>
      match c with
      | CM_isDisconnected | CM_clickConnect _ _ _ _ _ _ _ _
      | CM_clickDisconnect | CM_setLastKnownGoodProtocol _
      | CM_updateConnectionSettings _ _ _ | CM_getVpnAdapterInfo
      | CM_getDefaultAdapterInfo | CM_getLastConnectedIp
      | CM_currentProtocol | CM_isAllowFirewallAfterConnection
      | CM_connectedDnsInfo | CM_isStaticIpsLocation | CM_getStatisIps
      | CM_startTunnelTests | CM_isCustomOvpnConfigCurrentConnection
      | CM_getCustomOvpnConfigFileName
      | CM_continueWithUsernameAndPassword _ _ _
      | CM_continueWithPassword _ _
      | CM_continueWithPrivKeyPassword _ _ => true
      | _ => false
      end
  end.

(** [firewallController_->firewallActualState()]. *)
Definition is_firewallStateQuery (e : Event) : bool :=
  match e with
  | Ev c _ => match c with FW_firewallActualState => true | _ => false end
  end.

(** The locations model is given a new list. *)
Definition is_setLocations (e : Event) : bool :=
  match e with
  | Ev c _ =>
      match c with
      | LM_setApiLocations _ _ | LM_setCustomConfigLocations _ => true
      | _ => false
      end
  end.

Definition is_dnsLookup (e : Event) : bool :=
  match e with
  | Ev c _ => match c with WSNet_lookupBlocked _ => true | _ => false end
  end.

(** ** More concrete collaborators *)

(** The firewall is on and the tunnel is up. *)
Definition connectedFirewalled (X : Type) (c : Cmd X) : X :=
  match c in Cmd T return T -> T with
  | FW_firewallActualState => fun _ => true
  | CSC_currentState _ => fun _ => CONNECT_STATE_CONNECTED
  | CM_getLastConnectedIp => fun _ => "185.232.22.58"
  | API_isLoggedIn => fun _ => true
  | _ => fun d => d
  end (idle X c).

(** The remote host of the extra config is a name that does not
    resolve. *)
Definition unresolvedHost (X : Type) (c : Cmd X) : X :=
  match c in Cmd T return T -> T with
  | CM_isDisconnected => fun _ => true
  | EC_getRemoteIpFromExtraConfig => fun _ => "vpn.example.org"
  | IpValidation_isDomain _ => fun _ => true
  | _ => fun d => d
  end (idle X c).

(** The static-IP location of the account. *)
Definition staticIpLocation (X : Type) (c : Cmd X) : X :=
  match c in Cmd T return T -> T with
  | CM_isStaticIpsLocation => fun _ => true
  | CM_getStatisIps => fun _ => StaticIpPorts 3
  | API_isLoggedIn => fun _ => true
  | _ => fun d => d
  end (idle X c).

(** ** How runs compose *)

Lemma run_Free_bind {W A B} (h : Oracle W) (t : Free A) (f : A -> Free B) w :
  run h (Free_bind t f) w =
  (fst (fst (run h (f (fst (fst (run h t w)))) (snd (fst (run h t w))))),
   snd (fst (run h (f (fst (fst (run h t w)))) (snd (fst (run h t w))))),
   snd (run h t w)
   ++ snd (run h (f (fst (fst (run h t w)))) (snd (fst (run h t w))))).
Proof.
  revert w. induction t as [a | X c k IH]; intro w; cbn.
  - now destruct (run h (f a) w) as [[b w'] tr].
  - rewrite IH. reflexivity.
Qed.

Section Compose.
Context {W A B : Type} (h : Oracle W) (m : M A) (f : A -> M B).
Variables (s : Engine) (w : W).

Let a := value h m s w.
Let s1 := after h m s w.
Let w1 := world h m s w.

Lemma trace_bind :
  trace h (bind m f) s w = trace h m s w ++ trace h (f a) s1 w1.
Proof. unfold trace, bind. now rewrite run_Free_bind. Qed.

Lemma after_bind : after h (bind m f) s w = after h (f a) s1 w1.
Proof. unfold after, bind. now rewrite run_Free_bind. Qed.

Lemma value_bind : value h (bind m f) s w = value h (f a) s1 w1.
Proof. unfold value, bind. now rewrite run_Free_bind. Qed.

Lemma world_bind : world h (bind m f) s w = world h (f a) s1 w1.
Proof. unfold world, bind. now rewrite run_Free_bind. Qed.
End Compose.

(** The calls of a [unit] type all return [tt]. *)
Lemma unit_answer (u : unit) : u = tt.
Proof. now destruct u. Qed.

Lemma count_app f tr1 tr2 : count f (tr1 ++ tr2) = (count f tr1 + count f tr2)%nat.
Proof. unfold count. now rewrite filter_app, length_app. Qed.

Section Judgements.
Context {A B : Type}.

Lemma silent_ret f (a : A) : silent f (ret a).
Proof. now intros W h s w. Qed.

Lemma silent_get f (g : Engine -> A) : silent f (get g).
Proof. now intros W h s w. Qed.

Lemma silent_modify f g : silent f (modify g).
Proof. now intros W h s w. Qed.

Lemma silent_call f (c : Cmd A) :
  (forall x, f (Ev c x) = false) -> silent f (call c).
Proof. intros Hc W h s w. unfold trace; cbn. now rewrite Hc. Qed.

Lemma silent_bind f (m : M A) (k : A -> M B) :
  silent f m -> (forall a, silent f (k a)) -> silent f (bind m k).
Proof.
  intros Hm Hk W h s w. rewrite trace_bind, filter_app, Hm, Hk. reflexivity.
Qed.

Lemma keeps_ret I (a : A) : keeps I (ret a).
Proof. now intros W h s w. Qed.

Lemma keeps_get I (g : Engine -> A) : keeps I (get g).
Proof. now intros W h s w. Qed.

Lemma keeps_modify I g : (forall s, I s -> I (g s)) -> keeps I (modify g).
Proof. intros Hg W h s w. apply Hg. Qed.

Lemma keeps_call I (c : Cmd A) : keeps I (call c).
Proof. now intros W h s w. Qed.

Lemma keeps_bind I (m : M A) (k : A -> M B) :
  keeps I m -> (forall a, keeps I (k a)) -> keeps I (bind m k).
Proof.
  intros Hm Hk W h s w Hs. rewrite after_bind. apply Hk, Hm, Hs.
Qed.

Lemma frame_ret R (a : A) : frame R (ret a).
Proof. intros W h s1 s2 w HR. now repeat split. Qed.

Lemma frame_get R (g : Engine -> A) :
  (forall s1 s2, R s1 s2 -> g s1 = g s2) -> frame R (get g).
Proof.
  intros Hg W h s1 s2 w HR. repeat split; trivial.
  unfold value; cbn. now apply Hg.
Qed.

Lemma frame_modify R g :
  (forall s1 s2, R s1 s2 -> R (g s1) (g s2)) -> frame R (modify g).
Proof. intros Hg W h s1 s2 w HR. repeat split. now apply Hg. Qed.

Lemma frame_call R (c : Cmd A) : frame R (call c).
Proof. intros W h s1 s2 w HR. now repeat split. Qed.

Lemma frame_bind R (m : M A) (k : A -> M B) :
  frame R m -> (forall a, frame R (k a)) -> frame R (bind m k).
Proof.
  intros Hm Hk W h s1 s2 w HR.
  destruct (Hm W h s1 s2 w HR) as (Hv & Hw & Ht & HR').
  rewrite !value_bind, !world_bind, !trace_bind, !after_bind.
  rewrite Hv, Hw, Ht.
  destruct (Hk (value h m s2 w) W h _ _ (world h m s2 w) HR')
    as (Hv' & Hw' & Ht' & HR'').
  rewrite Hv', Hw', Ht'. now repeat split.
Qed.
End Judgements.

Create HintDb engine discriminated.

(** Walks a program along its binds and branches; calls are settled by
    [leaf], sub-programs by the lemmas of the [engine] database. *)
Ltac walk_silent :=
  repeat first
    [ solve [auto with engine]
    | apply silent_ret | apply silent_get | apply silent_modify
    | apply silent_call; intros; reflexivity
    | apply silent_bind; [ | intros ? ]
    | match goal with
      | |- silent _ (if ?b then _ else _) => destruct b
      | |- silent _ (match ?x with _ => _ end) => destruct x
      end
    | progress cbv zeta ].

Ltac walk_keeps leaf :=
  repeat first
    [ solve [auto with engine]
    | apply keeps_ret | apply keeps_get | apply keeps_call
    | apply keeps_modify; leaf
    | apply keeps_bind; [ | intros ? ]
    | match goal with
      | |- keeps _ (if ?b then _ else _) => destruct b
      | |- keeps _ (match ?x with _ => _ end) => destruct x
      end
    | progress cbv zeta ].

Ltac walk_frame leaf :=
  repeat first
    [ solve [auto with engine]
    | apply frame_ret | apply frame_call
    | apply frame_get; leaf
    | apply frame_modify; leaf
    | apply frame_bind; [ | intros ? ]
    | match goal with
      | |- frame _ (if ?b then _ else _) => destruct b
      | |- frame _ (match ?x with _ => _ end) => destruct x
      end
    | progress cbv zeta ].

(** ** Stepping through a run

    [run_cbn] computes a run through binds, calls and accesses to the
    members and stops at the named blocks of a slot; [refold] puts the
    runs of those blocks back in terms of [trace], [after], [value] and
    [world]. *)
Ltac run_cbn :=
  cbn [trace after value world run bind Free_bind ret call get modify emit
       skip fst snd app negb andb orb connectApiSignal
       set_locationId_ set_locationName_ set_connectionSettingsOverride_
       set_isBlockConnect_ set_isNeedReconnectAfterRequestAuth_
       set_apiResourcesManager_ set_apiConnections set_signOutHelper_
       set_senderSource set_prevNetworkInterface_
       bInitialized_ helper_ engineSettings_ packetSize_ locationId_
       locationName_ connectionSettingsOverride_ lastConnectingProtocol_
       isBlockConnect_ isNeedReconnectAfterRequestAuth_
       isIgnoreNoApiConnectivity_ apiResourcesManager_ apiConnections
       signOutHelper_ senderSource bPrevNetworkInterfaceInitialized_
       prevNetworkInterface_ overrideUpdateChannelWithInternal_].

Ltac refold :=
  repeat match goal with
    | |- context [snd (fst (fst (run ?h (?m ?s) ?w)))] =>
        change (snd (fst (fst (run h (m s) w)))) with (after h m s w)
    | |- context [fst (fst (fst (run ?h (?m ?s) ?w)))] =>
        change (fst (fst (fst (run h (m s) w)))) with (value h m s w)
    | |- context [snd (fst (run ?h (?m ?s) ?w))] =>
        change (snd (fst (run h (m s) w))) with (world h m s w)
    | |- context [snd (run ?h (?m ?s) ?w)] =>
        change (snd (run h (m s) w)) with (trace h m s w)
    end.

Ltac step := unfold trace, after, value, world; run_cbn; refold.

(** A program that keeps every invariant [eq s0] does not write the
    members. *)
Lemma keeps_eq_after {A} (m : M A) :
  (forall s0, keeps (eq s0) m) ->
  forall W (h : Oracle W) s w, after h m s w = s.
Proof. intros Hm W h s w. symmetry. now apply Hm. Qed.

Lemma trace_call {W X} (h : Oracle W) (c : Cmd X) s w :
  trace h (call c) s w = [Ev c (fst (h _ c w))].
Proof. reflexivity. Qed.

Lemma value_call {W X} (h : Oracle W) (c : Cmd X) s w :
  value h (call c) s w = fst (h _ c w).
Proof. reflexivity. Qed.

Lemma after_call {W X} (h : Oracle W) (c : Cmd X) s w :
  after h (call c) s w = s.
Proof. reflexivity. Qed.

Lemma preceded_quietly_refl f tail : preceded_quietly f tail tail.
Proof. now exists []. Qed.

Lemma preceded_quietly_cons f e tr tail :
  f e = false -> preceded_quietly f tr tail -> preceded_quietly f (e :: tr) tail.
Proof.
  intros He (pre & -> & Hpre). exists (e :: pre). split; [ reflexivity | ].
  unfold count in *. cbn. now rewrite He.
Qed.

Lemma preceded_quietly_app f tr0 tr tail :
  filter f tr0 = [] ->
  preceded_quietly f tr tail -> preceded_quietly f (tr0 ++ tr) tail.
Proof.
  intros H0 (pre & -> & Hpre). exists (tr0 ++ pre).
  split; [ now rewrite app_assoc | ].
  rewrite count_app, Hpre. unfold count. now rewrite H0.
Qed.

Lemma preceded_quietly_count f tr tail :
  preceded_quietly f tr tail -> count f tr = count f tail.
Proof. intros (pre & -> & Hpre). now rewrite count_app, Hpre. Qed.

Lemma silent_count {A W} f (m : M A) (h : Oracle W) s w :
  silent f m -> count f (trace h m s w) = 0%nat.
Proof. intros Hm. unfold count. now rewrite Hm. Qed.

Lemma count_cons_false f e tr : f e = false -> count f (e :: tr) = count f tr.
Proof. intros He. unfold count. cbn. now rewrite He. Qed.

Lemma count_zero_weaken (f g : Event -> bool) tr :
  (forall e, g e = true -> f e = true) ->
  count f tr = 0%nat -> count g tr = 0%nat.
Proof.
  intros Hgf. unfold count. induction tr as [ | e tr IH ]; cbn; trivial.
  destruct (g e) eqn:Hg.
  - now rewrite (Hgf e Hg).
  - destruct (f e); [ discriminate | exact IH ].
Qed.



(** ** Running a slot by hand *)

(** Unfolds a run into the list of its calls; the answers of the oracle
    stay as they are until a hypothesis fixes them. *)
Ltac by_run := unfold trace, after, value, world; cbn.

(** Replaces what a call of type [unit] returned by [tt]. *)
Ltac units :=
  repeat match goal with
         | |- context [fst (?h unit ?c ?w)] => destruct (fst (h unit c w))
         end.

(** ** Disconnect when nothing is connected *)

(** C7.  [disconnectClick] while the primary ConnectStateController
    reports a state that is neither Connected nor Connecting leaves the
    members of the Engine as they are and does nothing but read that state:
    no transition is requested, no slot is queued, the firewall and the
    DNS configuration are not touched and the ConnectionManager gets no
    command. *)
Theorem disconnectClick_idle_is_noop :
  forall W (h : Oracle W) (s : Engine) (w : W) (st : CONNECT_STATE),
    answers h (CSC_currentState Primary) st ->
    st <> CONNECT_STATE_CONNECTED ->
    st <> CONNECT_STATE_CONNECTING ->
    let tr := trace h disconnectClick s w in
    after h disconnectClick s w = s /\
    tr = (if bInitialized_ s
          then [Ev (CSC_currentState Primary) st;
                Ev (CSC_currentState Primary) st]
          else []) /\
    count is_stateTransition tr = 0%nat /\
    count is_queued tr = 0%nat /\
    count is_firewallMutation tr = 0%nat /\
    count is_dnsMutation tr = 0%nat /\
    count is_connectionControl tr = 0%nat.
Proof.
  intros W h s w st Hst Hconnected Hconnecting tr.
  assert (Htr : tr = if bInitialized_ s
                     then [Ev (CSC_currentState Primary) st;
                           Ev (CSC_currentState Primary) st]
                     else []).
  { subst tr. by_run. destruct (bInitialized_ s); cbn; [ | reflexivity ].
    rewrite Hst.
    destruct st; try congruence; cbn; now rewrite Hst. }
  split.
  - by_run. destruct (bInitialized_ s); cbn; [ | reflexivity ].
    rewrite Hst.
    destruct st; try congruence; cbn; now rewrite Hst.
  - split; [ exact Htr | ].
    rewrite Htr. destruct (bInitialized_ s); now repeat split.
Qed.

(** ** Emergency connect before initialisation *)

(** C10.  Before the Engine is initialised, [emergencyConnectClick] and
    [emergencyDisconnectClick] only set the emergency controller to
    Disconnected (by itself, no error) and emit [emergencyDisconnected];
    no slot is queued and the EmergencyController gets no command. *)
Theorem emergency_click_before_init :
  forall W (h : Oracle W) (s : Engine) (w : W),
    bInitialized_ s = false ->
    let settled :=
      [Ev (CSC_setDisconnectedState Emergency DISCONNECTED_ITSELF
             NO_CONNECT_ERROR) tt;
       Ev (Emit emergencyDisconnected) tt] in
    trace h emergencyConnectClick s w = settled /\
    after h emergencyConnectClick s w = s /\
    trace h emergencyDisconnectClick s w = settled /\
    after h emergencyDisconnectClick s w = s /\
    count is_queued settled = 0%nat.
Proof.
  intros W h s w Hinit settled. subst settled.
  repeat split; by_run; rewrite Hinit; cbn; units; reflexivity.
Qed.

(** ** Continuing with credentials *)

(** C8.  Each of the three continuation slots asks the ConnectionManager
    to disconnect, and does nothing else, when the credential it is given
    is empty (for the user name and password: when both are); otherwise it
    stores the credential first if [bSave] is set and then resumes the
    attempt with [isNeedReconnectAfterRequestAuth_]. *)
Theorem continueWith_empty_cancels :
  forall W (h : Oracle W) (s : Engine) (w : W)
         (username password file : QString) (bSave : bool),
    answers h CM_getCustomOvpnConfigFileName file ->
    let need := isNeedReconnectAfterRequestAuth_ s in
    let cancel := [Ev CM_clickDisconnect tt] in
    let ask := Ev CM_getCustomOvpnConfigFileName file in
    (* continueWithUsernameAndPassword *)
    trace h (continueWithUsernameAndPasswordImpl username password bSave) s w =
      (if isEmpty username && isEmpty password then cancel
       else (if bSave
             then [ask; Ev (CRED_setAuthCredentials file username password) tt]
             else [])
            ++ [Ev (CM_continueWithUsernameAndPassword username password need)
                  tt]) /\
    (* continueWithPassword *)
    trace h (continueWithPasswordImpl password bSave) s w =
      (if isEmpty password then cancel
       else (if bSave
             then [ask; Ev (CRED_setAuthCredentials file "" password) tt]
             else [])
            ++ [Ev (CM_continueWithPassword password need) tt]) /\
    (* continueWithPrivKeyPassword *)
    trace h (continueWithPrivKeyPasswordImpl password bSave) s w =
      (if isEmpty password then cancel
       else (if bSave
             then [ask; Ev (CRED_setPrivKeyPassword file password) tt]
             else [])
            ++ [Ev (CM_continueWithPrivKeyPassword password need) tt]).
Proof.
  intros W h s w username password file bSave Hfile need cancel ask.
  subst need cancel ask.
  unfold continueWithUsernameAndPasswordImpl, continueWithPasswordImpl,
    continueWithPrivKeyPasswordImpl.
  repeat split; by_run.
  - destruct (isEmpty username && isEmpty password); cbn.
    + units. reflexivity.
    + destruct bSave; cbn; rewrite ?Hfile; units; reflexivity.
  - destruct (isEmpty password); cbn.
    + units. reflexivity.
    + destruct bSave; cbn; rewrite ?Hfile; units; reflexivity.
  - destruct (isEmpty password); cbn.
    + units. reflexivity.
    + destruct bSave; cbn; rewrite ?Hfile; units; reflexivity.
Qed.

(** ** Locations that cannot be connected to *)

(** C5.  [doConnect] on a location the LocationsModel does not know sets
    the state to Disconnected with [LOCATION_NOT_EXIST]; on a location
    without a selected node, with [LOCATION_NO_ACTIVE_NODES].  Either way
    it asks for the external IP and stops: [clickConnect] is not called,
    nothing is queued and the members are as before, so no retry is
    armed. *)
Theorem doConnect_location_errors :
  forall W (h : Oracle W) (s : Engine) (w : W) (bEmitAuthError : bool),
    let loc := locationId_ s in
    let tr := trace h (doConnect bEmitAuthError) s w in
    let fail err :=
      [Ev (CSC_setDisconnectedState Primary DISCONNECTED_WITH_ERROR err) tt;
       Ev (MyIp_getIP 1) tt] in
    (answers h (LM_getMutableLocationInfoById loc) None ->
     tr = Ev (LM_getMutableLocationInfoById loc) None
          :: fail LOCATION_NOT_EXIST /\
     after h (doConnect bEmitAuthError) s w = s /\
     count is_clickConnect tr = 0%nat /\ count is_queued tr = 0%nat) /\
    (forall bli,
        answers h (LM_getMutableLocationInfoById loc) (Some bli) ->
        answers h (BLI_isExistSelectedNode bli) false ->
        tr = Ev (LM_getMutableLocationInfoById loc) (Some bli)
             :: Ev (BLI_isExistSelectedNode bli) false
             :: fail LOCATION_NO_ACTIVE_NODES /\
        after h (doConnect bEmitAuthError) s w = s /\
        count is_clickConnect tr = 0%nat /\ count is_queued tr = 0%nat).
Proof.
  intros W h s w bEmitAuthError loc tr fail. subst loc tr fail. split.
  - intros Hnone.
    assert (Htr : trace h (doConnect bEmitAuthError) s w =
                  [Ev (LM_getMutableLocationInfoById (locationId_ s)) None;
                   Ev (CSC_setDisconnectedState Primary DISCONNECTED_WITH_ERROR
                         LOCATION_NOT_EXIST) tt;
                   Ev (MyIp_getIP 1) tt]).
    { unfold doConnect. by_run. rewrite Hnone. cbn. units. reflexivity. }
    rewrite Htr. repeat split.
    unfold doConnect. by_run. rewrite Hnone. reflexivity.
  - intros bli Hsome Hnode.
    assert (Htr : trace h (doConnect bEmitAuthError) s w =
                  [Ev (LM_getMutableLocationInfoById (locationId_ s)) (Some bli);
                   Ev (BLI_isExistSelectedNode bli) false;
                   Ev (CSC_setDisconnectedState Primary DISCONNECTED_WITH_ERROR
                         LOCATION_NO_ACTIVE_NODES) tt;
                   Ev (MyIp_getIP 1) tt]).
    { unfold doConnect. by_run. rewrite Hsome. cbn. rewrite Hnode. cbn.
      units. reflexivity. }
    rewrite Htr. repeat split.
    unfold doConnect. by_run. rewrite Hsome. cbn. rewrite Hnode. reflexivity.
Qed.

(** ** The block-connect flag *)

(** Past the check of the flag, the connect sequence does not look at
    [isBlockConnect_]. *)
Lemma connectClickImpl_proceed_ignores_block platform b :
  frame (fun s1 s2 => s1 = set_isBlockConnect_ b s2)
        (connectClickImpl_proceed platform).
Proof.
  unfold connectClickImpl_proceed.
  walk_frame ltac:(intros ? ? ->; reflexivity).
Qed.

(** C3.  With the ConnectionManager disconnected and [isBlockConnect_]
    set, the connect sequence for a location that is not a custom config
    only sets the state to Disconnected with [CONNECTION_BLOCKED] and asks
    once for the external IP; for a custom-config location it runs exactly
    as it does with the flag cleared. *)
Theorem connectClickImpl_blocked :
  forall platform W (h : Oracle W) (s : Engine) (w : W)
         (loc : LocationID) (cs : ConnectionSettings),
    answers h CM_isDisconnected true ->
    isBlockConnect_ s = true ->
    let tr := trace h (connectClickImpl platform loc cs) s w in
    (isCustomConfigsLocation loc = false ->
     tr = [Ev CM_isDisconnected true;
           Ev (CSC_setDisconnectedState Primary DISCONNECTED_WITH_ERROR
                 CONNECTION_BLOCKED) tt;
           Ev (MyIp_getIP 1) tt] /\
     after h (connectClickImpl platform loc cs) s w =
       set_connectionSettingsOverride_ cs (set_locationId_ loc s)) /\
    (isCustomConfigsLocation loc = true ->
     let unblocked := set_isBlockConnect_ false s in
     tr = trace h (connectClickImpl platform loc cs) unblocked w /\
     after h (connectClickImpl platform loc cs) s w =
       set_isBlockConnect_ true
         (after h (connectClickImpl platform loc cs) unblocked w)).
Proof.
  intros platform W h s w loc cs Hdisc Hblock tr. subst tr. split.
  - intros Hcustom. unfold connectClickImpl. step.
    rewrite Hdisc. step. rewrite Hblock, Hcustom. step.
    units. split; reflexivity.
  - intros Hcustom unblocked. subst unblocked. unfold connectClickImpl. step.
    rewrite Hdisc. step. rewrite Hcustom, !andb_false_r.
    destruct (connectClickImpl_proceed_ignores_block platform true W h
                (set_connectionSettingsOverride_ cs (set_locationId_ loc s))
                (set_connectionSettingsOverride_ cs
                   (set_locationId_ loc (set_isBlockConnect_ false s)))
                (snd (h bool CM_isDisconnected w)))
      as (_ & _ & Ht & Hs).
    + destruct s; cbn in Hblock; subst; reflexivity.
    + rewrite Ht. split; [ reflexivity | exact Hs ].
Qed.

(** ** A change of the network interface *)

(** C9.  On a network change with a network name, [onNetworkChange] hands
    the connection settings of that network to the ConnectionManager,
    sends the helper the default-adapter snapshot only if the helper is
    there and the connect state is Disconnected, and tells the UI that the
    network changed.  It requests no state transition, gives the
    ConnectionManager no connect or disconnect command, does not touch the
    firewall and leaves the members as they are. *)
Theorem onNetworkChange_only_updates_settings :
  forall W (h : Oracle W) (s : Engine) (w : W) (ni : NetworkInterface)
         (pm : PortMap) (proxy : ProxySettings) (st : CONNECT_STATE)
         (def : AdapterGatewayInfo),
    isEmpty (networkOrSsid ni) = false ->
    answers h API_portMap pm ->
    answers h PSC_getCurrentProxySettings proxy ->
    answers h (CSC_currentState Primary) st ->
    answers h AdapterGatewayInfo_detectAndCreateDefaultAdapterInfo def ->
    let settings := engineSettings_ s in
    let cs := connectionSettingsForNetworkInterface settings (networkOrSsid ni) in
    let tr := trace h (onNetworkChange ni) s w in
    (exists accepted : bool,
        tr =
        (if apiResourcesManager_ s
         then [Ev API_portMap pm; Ev PSC_getCurrentProxySettings proxy;
               Ev (CM_updateConnectionSettings cs pm proxy) tt]
         else [Ev PSC_getCurrentProxySettings proxy;
               Ev (CM_updateConnectionSettings cs PortMap_empty proxy) tt])
        ++ (if helper_ s
            then Ev (CSC_currentState Primary) st
                 :: (if CONNECT_STATE_eqb st CONNECT_STATE_DISCONNECTED
                     then [Ev AdapterGatewayInfo_detectAndCreateDefaultAdapterInfo
                             def;
                           Ev (H_sendConnectStatus false
                                 (isTerminateSockets settings)
                                 (isAllowLanTraffic settings) def
                                 AdapterGatewayInfo_empty "" UNINITIALIZED)
                              accepted]
                     else [])
            else [])
        ++ [Ev (Emit (networkChanged ni)) tt]) /\
    after h (onNetworkChange ni) s w = s /\
    count is_stateTransition tr = 0%nat /\
    count is_connectionControl tr = 0%nat /\
    count is_firewallMutation tr = 0%nat.
Proof.
  intros W h s w ni pm proxy st def Hssid Hpm Hproxy Hst Hdef settings cs tr.
  subst settings cs tr. unfold onNetworkChange. rewrite Hssid.
  unfold sendConnectStatus_disconnected. unfold answers in *.
  destruct s as [init hasHelper settings packet loc name override protocol
                 blocked need ignore api conns signOut source prevInit prev
                 channel].
  destruct api, hasHelper; by_run;
    rewrite ?Hpm, ?Hproxy; cbn; rewrite ?Hproxy, ?Hst; cbn;
    try (destruct (CONNECT_STATE_eqb st CONNECT_STATE_DISCONNECTED); cbn);
    rewrite ?Hdef; cbn; units.
  all: split; [ first [ eexists; reflexivity | exists true; reflexivity ]
              | repeat split ].
Qed.

(** ** The connected event: MTU *)

Section ConnectedMtu.
Variable platform : Platform.
Variables MTU_OFFSET_WG MTU_OFFSET_IKEV2 : Z.

(** Only the MTU block of [onConnectionManagerConnected] calls
    [changeMtu]. *)
Lemma onConnected_adapter_no_mtu name :
  silent is_changeMtu (onConnected_adapter platform name).
Proof. unfold onConnected_adapter. walk_silent. Qed.

Lemma onConnected_firewallAfter_no_mtu :
  silent is_changeMtu onConnected_firewallAfter.
Proof. unfold onConnected_firewallAfter. walk_silent. Qed.

Lemma onConnected_sendConnectStatus_no_mtu :
  silent is_changeMtu onConnected_sendConnectStatus.
Proof. unfold onConnected_sendConnectStatus. walk_silent. Qed.

Lemma onConnected_refreshFirewall_no_mtu flag :
  silent is_changeMtu (onConnected_refreshFirewall flag).
Proof. unfold onConnected_refreshFirewall. walk_silent. Qed.

Lemma onConnected_customDns_no_mtu :
  silent is_changeMtu (onConnected_customDns platform).
Proof. unfold onConnected_customDns. walk_silent. Qed.

Lemma onConnected_finish_no_mtu name :
  silent is_changeMtu (onConnected_finish platform name).
Proof. unfold onConnected_finish. walk_silent. Qed.

(** The blocks before the MTU block do not write the members. *)
Lemma onConnected_adapter_after W (h : Oracle W) name s w :
  after h (onConnected_adapter platform name) s w = s.
Proof.
  apply keeps_eq_after. intro s0. unfold onConnected_adapter.
  walk_keeps fail.
Qed.

Lemma onConnected_firewallAfter_after W (h : Oracle W) s w :
  after h onConnected_firewallAfter s w = s.
Proof.
  apply keeps_eq_after. intro s0. unfold onConnected_firewallAfter.
  walk_keeps fail.
Qed.

Lemma onConnected_sendConnectStatus_after W (h : Oracle W) s w :
  after h onConnected_sendConnectStatus s w = s.
Proof.
  apply keeps_eq_after. intro s0. unfold onConnected_sendConnectStatus.
  walk_keeps fail.
Qed.

Lemma onConnected_refreshFirewall_after W (h : Oracle W) flag s w :
  after h (onConnected_refreshFirewall flag) s w = s.
Proof.
  apply keeps_eq_after. intro s0. unfold onConnected_refreshFirewall.
  walk_keeps fail.
Qed.

Lemma onConnected_customDns_after W (h : Oracle W) s w :
  after h (onConnected_customDns platform) s w = s.
Proof.
  apply keeps_eq_after. intro s0. unfold onConnected_customDns.
  walk_keeps fail.
Qed.

Lemma onConnected_mtu_trace W (h : Oracle W) name s w p wg ik :
  answers h CM_currentProtocol p ->
  answers h EC_getMtuOffsetWireguard wg ->
  answers h EC_getMtuOffsetIkev2 ik ->
  let mtuForProtocol := int_sub (mtu (packetSize_ s)) (mtuOverhead MTU_OFFSET_WG MTU_OFFSET_IKEV2 p wg ik) in
  filter is_changeMtu
    (trace h (onConnected_mtu MTU_OFFSET_WG MTU_OFFSET_IKEV2 name) s w) =
  if (isIkev2Protocol p || isWireGuardProtocol p)
     && negb (isAutomatic (packetSize_ s))
     && (0 <? mtuForProtocol)
  then [Ev (H_changeMtu name mtuForProtocol) tt]
  else [].
Proof.
  intros Hp Hwg Hik mtuForProtocol. subst mtuForProtocol.
  unfold answers in *. unfold onConnected_mtu, mtuOverhead. by_run.
  rewrite Hp.
  destruct p; cbn; rewrite ?Hp; cbn;
    destruct (isAutomatic (packetSize_ s)); cbn; trivial;
    rewrite ?Hp; cbn; rewrite ?Hwg, ?Hik; cbn;
    destruct (snd wg), (snd ik); cbn;
    match goal with
    | |- context [0 <? ?x] => destruct (0 <? x); cbn
    end; units; reflexivity.
Qed.

Lemma int_sub_exact a b : is_int (a - b) -> int_sub a b = a - b.
Proof.
  unfold is_int, int_sub, wrap_int. intros Hrange.
  rewrite Z.mod_small by lia. lia.
Qed.

(** C6.  In a run of [onConnectionManagerConnected], [changeMtu] is
    called exactly when the protocol is IKEv2 or WireGuard, the packet
    size is not automatic and the configured MTU minus the overhead of
    the protocol is positive; it is then called once, on the VPN adapter,
    with that difference.  The overhead is the WireGuard offset for
    WireGuard and the IKEv2 offset for IKEv2, and the difference is the
    mathematical one whenever it fits an [int]. *)
Theorem connected_applies_protocol_mtu :
  forall W (h : Oracle W) (s : Engine) (w : W) (vpn : AdapterGatewayInfo)
         (p : Protocol) (wg ik : Z * bool),
    answers h CM_getVpnAdapterInfo vpn ->
    answers h CM_currentProtocol p ->
    answers h EC_getMtuOffsetWireguard wg ->
    answers h EC_getMtuOffsetIkev2 ik ->
    let packet := packetSize_ s in
    let overhead := mtuOverhead MTU_OFFSET_WG MTU_OFFSET_IKEV2 p wg ik in
    let mtuForProtocol := int_sub (mtu packet) overhead in
    filter is_changeMtu
      (trace h (onConnectionManagerConnected platform MTU_OFFSET_WG
                  MTU_OFFSET_IKEV2) s w) =
      (if (isIkev2Protocol p || isWireGuardProtocol p)
          && negb (isAutomatic packet)
          && (0 <? mtuForProtocol)
       then [Ev (H_changeMtu (adapterName vpn) mtuForProtocol) tt]
       else []) /\
    (is_int (mtu packet - overhead) ->
     mtuForProtocol = mtu packet - overhead) /\
    (isAutomatic packet = true ->
     count is_changeMtu
       (trace h (onConnectionManagerConnected platform MTU_OFFSET_WG
                   MTU_OFFSET_IKEV2) s w) = 0%nat).
Proof.
  intros W h s w vpn p wg ik Hvpn Hp Hwg Hik packet overhead mtuForProtocol.
  assert (Hfilter :
    filter is_changeMtu
      (trace h (onConnectionManagerConnected platform MTU_OFFSET_WG
                  MTU_OFFSET_IKEV2) s w) =
      (if (isIkev2Protocol p || isWireGuardProtocol p)
          && negb (isAutomatic packet)
          && (0 <? mtuForProtocol)
       then [Ev (H_changeMtu (adapterName vpn) mtuForProtocol) tt]
       else [])).
  { unfold onConnectionManagerConnected.
    rewrite !trace_bind, !filter_app.
    rewrite onConnected_adapter_no_mtu, onConnected_firewallAfter_no_mtu,
      onConnected_sendConnectStatus_no_mtu,
      onConnected_refreshFirewall_no_mtu, onConnected_customDns_no_mtu,
      onConnected_finish_no_mtu.
    rewrite onConnected_customDns_after, onConnected_refreshFirewall_after,
      onConnected_sendConnectStatus_after, onConnected_firewallAfter_after,
      onConnected_adapter_after.
    rewrite value_call, after_call, trace_call, Hvpn. cbn [filter is_changeMtu].
    rewrite app_nil_r. cbn [app].
    now apply onConnected_mtu_trace. }
  split; [ exact Hfilter | split ].
  - apply int_sub_exact.
  - intros Hauto. unfold count. rewrite Hfilter, Hauto.
    now rewrite andb_false_r.
Qed.
End ConnectedMtu.

(** ** The automatic firewall, before or after the connection *)

Section FirewallPolicy.
Variable platform : Platform.
Variables MTU_OFFSET_WG MTU_OFFSET_IKEV2 : Z.

(** The block of [connectClickImpl] that may switch the firewall on. *)
Lemma firewallBefore_cases W (h : Oracle W) s w :
  let fs := firewallSettings (engineSettings_ s) in
  let tr := trace h connectClickImpl_firewallBefore s w in
  (count is_firewallEnabled tr = 1%nat /\
   mode fs = FIREWALL_MODE_AUTOMATIC /\
   when fs = FIREWALL_WHEN_BEFORE_CONNECTION /\
   fst (h _ FW_firewallActualState w) = false /\
   enableBeforeAction tr) \/
  (count is_firewallEnabled tr = 0%nat /\
   (mode fs = FIREWALL_MODE_AUTOMATIC ->
    when fs = FIREWALL_WHEN_BEFORE_CONNECTION ->
    fst (h _ FW_firewallActualState w) = true)).
Proof.
  intros fs tr. subst fs tr.
  unfold connectClickImpl_firewallBefore, firewallOn_connecting. by_run.
  destruct (mode (firewallSettings (engineSettings_ s)));
    [ right; split; [ reflexivity | discriminate ] | ].
  destruct (when (firewallSettings (engineSettings_ s))); cbn;
    [ | right; split; [ reflexivity | discriminate ] ].
  destruct (fst (h bool FW_firewallActualState w)) eqn:Hon; cbn.
  - right. split; [ reflexivity | trivial ].
  - left. units. repeat split.
    exists [], []. do 4 eexists. reflexivity.
Qed.

(** The block of [onConnectionManagerConnected] that may. *)
Lemma firewallAfter_cases W (h : Oracle W) s w :
  let fs := firewallSettings (engineSettings_ s) in
  let tr := trace h onConnected_firewallAfter s w in
  (count is_firewallEnabled tr = 1%nat /\
   mode fs = FIREWALL_MODE_AUTOMATIC /\
   when fs = FIREWALL_WHEN_AFTER_CONNECTION /\
   enableAfterAction tr) \/
  (count is_firewallEnabled tr = 0%nat /\
   (mode fs = FIREWALL_MODE_AUTOMATIC ->
    when fs = FIREWALL_WHEN_AFTER_CONNECTION ->
    answers h CM_isAllowFirewallAfterConnection true ->
    answers h FW_firewallActualState false -> False)).
Proof.
  intros fs tr. subst fs tr.
  unfold onConnected_firewallAfter, firewallOn_connected. by_run.
  destruct (mode (firewallSettings (engineSettings_ s)));
    [ right; split; [ reflexivity | discriminate ] | ].
  cbn.
  destruct (fst (h bool CM_isAllowFirewallAfterConnection w)) eqn:Hallow;
    destruct (when (firewallSettings (engineSettings_ s))); cbn.
  - right. split; [ reflexivity | discriminate ].
  - destruct (fst (h bool FW_firewallActualState
                     (snd (h bool CM_isAllowFirewallAfterConnection w))))
      eqn:Hon; cbn.
    + right. split; [ reflexivity | ].
      intros _ _ _ Hoff. rewrite Hoff in Hon. discriminate.
    + left. units. repeat split.
      exists [], []. do 4 eexists. reflexivity.
  - right. split.
    + destruct (fst (h bool FW_firewallActualState
                       (snd (h bool CM_isAllowFirewallAfterConnection w))));
        cbn; units; reflexivity.
    + discriminate.
  - right. split; [ reflexivity | ].
    intros _ _ Hyes. rewrite Hyes in Hallow. discriminate.
Qed.

Lemma enableBeforeAction_within pre tr post :
  enableBeforeAction tr -> enableBeforeAction (pre ++ tr ++ post).
Proof.
  intros (pre0 & post0 & ip & allowed & lan & custom & ->).
  exists (pre ++ pre0), (post0 ++ post), ip, allowed, lan, custom.
  now rewrite <- !app_assoc.
Qed.

Lemma enableAfterAction_within pre tr post :
  enableAfterAction tr -> enableAfterAction (pre ++ tr ++ post).
Proof.
  intros (pre0 & post0 & ip & allowed & lan & custom & ->).
  exists (pre ++ pre0), (post0 ++ post), ip, allowed, lan, custom.
  now rewrite <- !app_assoc.
Qed.

(** Nothing else in the two slots reports the firewall as switched
    on. *)
Lemma addCustomRemoteIp_not_enabled :
  silent is_firewallEnabled addCustomRemoteIpToFirewallIfNeed.
Proof. unfold addCustomRemoteIpToFirewallIfNeed. walk_silent. Qed.

Lemma stopFetching_not_enabled :
  silent is_firewallEnabled stopFetchingServerCredentials.
Proof. unfold stopFetchingServerCredentials. walk_silent. Qed.

Lemma doConnect_not_enabled b : silent is_firewallEnabled (doConnect b).
Proof. unfold doConnect. walk_silent. Qed.

Lemma onConnected_adapter_not_enabled name :
  silent is_firewallEnabled (onConnected_adapter platform name).
Proof. unfold onConnected_adapter. walk_silent. Qed.

Lemma onConnected_rest_not_enabled flag name :
  silent is_firewallEnabled
    (onConnected_sendConnectStatus ;;
     onConnected_refreshFirewall flag ;;
     onConnected_customDns platform ;;
     onConnected_mtu MTU_OFFSET_WG MTU_OFFSET_IKEV2 name ;;
     onConnected_finish platform name).
Proof.
  unfold onConnected_sendConnectStatus, onConnected_refreshFirewall,
    onConnected_customDns, onConnected_mtu, onConnected_finish.
  walk_silent.
Qed.

(** The settings are the same when the firewall block of the connect
    sequence is reached. *)
Lemma addCustomRemoteIp_after W (h : Oracle W) s w :
  after h addCustomRemoteIpToFirewallIfNeed s w = s.
Proof.
  apply keeps_eq_after. intro s0. unfold addCustomRemoteIpToFirewallIfNeed.
  walk_keeps fail.
Qed.

Lemma stopFetching_keeps_settings es :
  keeps (fun e => engineSettings_ e = es) stopFetchingServerCredentials.
Proof.
  unfold stopFetchingServerCredentials. walk_keeps ltac:(intros ? H; exact H).
Qed.

Lemma connectClickImpl_proceed_split W (h : Oracle W) s w :
  exists pre post s' w',
    trace h (connectClickImpl_proceed platform) s w =
      pre ++ trace h connectClickImpl_firewallBefore s' w' ++ post /\
    count is_firewallEnabled pre = 0%nat /\
    count is_firewallEnabled post = 0%nat /\
    engineSettings_ s' = engineSettings_ s.
Proof.
  unfold connectClickImpl_proceed. rewrite !trace_bind.
  rewrite !addCustomRemoteIp_after.
  match goal with
  | |- context [trace h connectClickImpl_firewallBefore ?s' ?w'] =>
      match goal with
      | |- exists _ _ _ _, ?a ++ ?b ++ ?c ++ _ ++ ?d = _ /\ _ =>
          exists (a ++ b ++ c), d, s', w'
      end
  end.
  repeat split.
  - now rewrite <- !app_assoc.
  - rewrite !count_app. unfold count.
    rewrite addCustomRemoteIp_not_enabled, stopFetching_not_enabled.
    destruct platform; reflexivity.
  - unfold count. now rewrite doConnect_not_enabled.
  - apply stopFetching_keeps_settings. destruct platform; reflexivity.
Qed.

(** [connectClickImpl] either stops early, without the firewall, or
    reaches the firewall block with the settings it started with. *)
Lemma connectClickImpl_split W (h : Oracle W) s w loc cs :
  let tr := trace h (connectClickImpl platform loc cs) s w in
  let proceeds :=
    fst (h _ CM_isDisconnected w) = true /\
    isBlockConnect_ s && negb (isCustomConfigsLocation loc) = false in
  (proceeds /\
   exists pre post s' w',
     tr = pre ++ trace h connectClickImpl_firewallBefore s' w' ++ post /\
     count is_firewallEnabled pre = 0%nat /\
     count is_firewallEnabled post = 0%nat /\
     engineSettings_ s' = engineSettings_ s) \/
  (~ proceeds /\ count is_firewallEnabled tr = 0%nat).
Proof.
  intros tr proceeds. subst tr proceeds. unfold connectClickImpl. step.
  destruct (fst (h bool CM_isDisconnected w)) eqn:Hdisc; step.
  - destruct (isBlockConnect_ s && negb (isCustomConfigsLocation loc))
      eqn:Hblock; step.
    + right. split; [ intros [_ H]; discriminate | reflexivity ].
    + left. split; [ now split | ].
      destruct (connectClickImpl_proceed_split W h
                  (set_connectionSettingsOverride_ cs (set_locationId_ loc s))
                  (snd (h bool CM_isDisconnected w)))
        as (pre & post & s' & w' & Htr & Hpre & Hpost & Hsettings).
      exists (Ev CM_isDisconnected true :: pre), post, s', w'.
      rewrite Htr. repeat split; trivial.
  - right. split; [ intros [H _]; discriminate | reflexivity ].
Qed.

Lemma onConnected_split W (h : Oracle W) s w :
  exists pre post w',
    trace h (onConnectionManagerConnected platform MTU_OFFSET_WG
               MTU_OFFSET_IKEV2) s w =
      pre ++ trace h onConnected_firewallAfter s w' ++ post /\
    count is_firewallEnabled pre = 0%nat /\
    count is_firewallEnabled post = 0%nat.
Proof.
  unfold onConnectionManagerConnected.
  rewrite trace_bind. cbv zeta. rewrite trace_bind.
  rewrite (trace_bind h onConnected_firewallAfter).
  rewrite after_call, onConnected_adapter_after.
  do 3 eexists. split; [ rewrite app_assoc; reflexivity | split ].
  - rewrite count_app. unfold count.
    now rewrite onConnected_adapter_not_enabled.
  - unfold count. now rewrite onConnected_rest_not_enabled.
Qed.

(** C2.  For a connect sequence and the connected event that follows it
    under the same firewall settings, the Engine switches the firewall on
    at most once: before the connection only in automatic mode with the
    timing "before connection" and the firewall found off, after the
    connection only in automatic mode with the timing "after connection",
    a backend that allows it and the firewall found off.  Under those
    conditions the action does fire. *)
Theorem firewall_policy_exclusive :
  forall W1 W2 (h1 : Oracle W1) (h2 : Oracle W2) (s1 s2 : Engine)
         (w1 : W1) (w2 : W2) (loc : LocationID) (cs : ConnectionSettings),
    firewallSettings (engineSettings_ s2) =
    firewallSettings (engineSettings_ s1) ->
    let fs := firewallSettings (engineSettings_ s1) in
    let connecting := trace h1 (connectClickImpl platform loc cs) s1 w1 in
    let connected :=
      trace h2 (onConnectionManagerConnected platform MTU_OFFSET_WG
                  MTU_OFFSET_IKEV2) s2 w2 in
    let before := count is_firewallEnabled connecting in
    let afterwards := count is_firewallEnabled connected in
    (before + afterwards <= 1)%nat /\
    (before = 1%nat ->
     mode fs = FIREWALL_MODE_AUTOMATIC /\
     when fs = FIREWALL_WHEN_BEFORE_CONNECTION /\
     enableBeforeAction connecting) /\
    (afterwards = 1%nat ->
     mode fs = FIREWALL_MODE_AUTOMATIC /\
     when fs = FIREWALL_WHEN_AFTER_CONNECTION /\
     enableAfterAction connected) /\
    (mode fs = FIREWALL_MODE_AUTOMATIC ->
     when fs = FIREWALL_WHEN_BEFORE_CONNECTION ->
     answers h1 CM_isDisconnected true ->
     isBlockConnect_ s1 && negb (isCustomConfigsLocation loc) = false ->
     answers h1 FW_firewallActualState false ->
     before = 1%nat) /\
    (mode fs = FIREWALL_MODE_AUTOMATIC ->
     when fs = FIREWALL_WHEN_AFTER_CONNECTION ->
     answers h2 CM_isAllowFirewallAfterConnection true ->
     answers h2 FW_firewallActualState false ->
     afterwards = 1%nat).
Proof.
  intros W1 W2 h1 h2 s1 s2 w1 w2 loc cs Hsame fs connecting connected
    before afterwards.
  (* the connect sequence *)
  assert (Hbefore :
    (before = 1%nat /\
     mode fs = FIREWALL_MODE_AUTOMATIC /\
     when fs = FIREWALL_WHEN_BEFORE_CONNECTION /\
     enableBeforeAction connecting) \/
    (before = 0%nat /\
     (mode fs = FIREWALL_MODE_AUTOMATIC ->
      when fs = FIREWALL_WHEN_BEFORE_CONNECTION ->
      answers h1 CM_isDisconnected true ->
      isBlockConnect_ s1 && negb (isCustomConfigsLocation loc) = false ->
      answers h1 FW_firewallActualState false -> False))).
  { subst before connecting fs.
    destruct (connectClickImpl_split W1 h1 s1 w1 loc cs)
      as [[Hgo (pre & post & s' & w' & Htr & Hpre & Hpost & Hset)]
         | [Hstop Hnone]].
    - rewrite Htr, !count_app, Hpre, Hpost, Nat.add_0_r. cbn [Nat.add].
      destruct (firewallBefore_cases W1 h1 s' w')
        as [(Hone & Hmode & Hwhen & _ & Haction) | (Hzero & Hwhy)];
        rewrite Hset in *.
      + left. repeat split; trivial.
        now apply enableBeforeAction_within.
      + right. split; [ exact Hzero | ].
        intros Hmode Hwhen _ _ Hoff.
        rewrite Hoff in Hwhy. specialize (Hwhy Hmode Hwhen). discriminate.
    - right. split; [ exact Hnone | ].
      intros _ _ Hdisc Hblock _. apply Hstop. split; [ apply Hdisc | exact Hblock ]. }
  (* the connected event *)
  assert (Hafter :
    (afterwards = 1%nat /\
     mode fs = FIREWALL_MODE_AUTOMATIC /\
     when fs = FIREWALL_WHEN_AFTER_CONNECTION /\
     enableAfterAction connected) \/
    (afterwards = 0%nat /\
     (mode fs = FIREWALL_MODE_AUTOMATIC ->
      when fs = FIREWALL_WHEN_AFTER_CONNECTION ->
      answers h2 CM_isAllowFirewallAfterConnection true ->
      answers h2 FW_firewallActualState false -> False))).
  { subst afterwards connected fs.
    destruct (onConnected_split W2 h2 s2 w2)
      as (pre & post & w' & Htr & Hpre & Hpost).
    rewrite Htr, !count_app, Hpre, Hpost, Nat.add_0_r. cbn [Nat.add].
    destruct (firewallAfter_cases W2 h2 s2 w')
      as [(Hone & Hmode & Hwhen & Haction) | (Hzero & Hwhy)];
      rewrite Hsame in *.
    - left. repeat split; trivial.
      now apply enableAfterAction_within.
    - right. split; [ exact Hzero | exact Hwhy ]. }
  destruct Hbefore as [(Hb & Hbm & Hbw & Hba) | (Hb & Hbn)];
    destruct Hafter as [(Ha & Ham & Haw & Haa) | (Ha & Han)];
    rewrite Hb, Ha.
  - rewrite Hbw in Haw. discriminate.
  - repeat split; trivial; try discriminate; try lia.
    intros Hm Hw Hallow Hoff. exfalso. now apply Han.
  - repeat split; trivial; try discriminate; try lia.
    intros Hm Hw Hdisc Hblock Hoff. exfalso. now apply Hbn.
  - repeat split; try discriminate; try lia.
    + intros Hm Hw Hdisc Hblock Hoff. exfalso. now apply Hbn.
    + intros Hm Hw Hallow Hoff. exfalso. now apply Han.
Qed.
End FirewallPolicy.

(** ** Authentication errors *)

Section AuthError.
Variable platform : Platform.








Lemma disconnected_signal_gone l :
  existsb (ApiSignal_eqb SIG_serverCredentialsFetched)
          (withoutServerCredentialsFetched l) = false.
Proof.
  induction l as [ | g l IH ]; [ reflexivity | ].
  destruct g; cbn; exact IH.
Qed.


(** What [doDisconnectRestoreStuff] starts with: the VPN-share
    controller is told of the disconnect, the proxy settings go back to
    the network manager, the DNS configuration and (macOS, Linux) the
    interface the firewall skips are reset, and the connecting IP and the
    DNS servers leave the firewall exceptions. *)
Lemma restore_resets W (h : Oracle W) s w proxy :
  answers h PSC_getCurrentProxySettings proxy ->
  exists changedIp changedDns tail,
    trace h (doDisconnectRestoreStuff platform) s w =
      [Ev VS_onDisconnectedFromVPNEvent tt;
       Ev PSC_getCurrentProxySettings proxy;
       Ev (WSNet_setProxySettings (curlAddress proxy) (getUsername proxy)
             (getPassword proxy)) tt;
       Ev DNS_setDisconnectedState tt]
      ++ (if is_posix platform
          then [Ev (FW_setInterfaceToSkip_posix "") tt] else [])
      ++ [Ev (FE_setConnectingIp "") changedIp;
          Ev (FE_setDNSServers []) changedDns]
      ++ tail.
Proof.
  intros Hproxy. unfold answers in Hproxy. unfold doDisconnectRestoreStuff.
  destruct platform; cbn [is_posix is_win is_mac]; step; rewrite !Hproxy;
    units; cbn [app]; do 3 eexists; reflexivity.
Qed.

End AuthError.

(** ** Connecting while connected *)

Section Reconnect.
Variable platform : Platform.


Lemma restore_keeps_senderSource tag :
  keeps (fun e => senderSource e = tag) (doDisconnectRestoreStuff platform).
Proof.
  unfold doDisconnectRestoreStuff. walk_keeps ltac:(intros ? H; exact H).
Qed.


Lemma restore_no_control :
  silent is_connectionControl (doDisconnectRestoreStuff platform).
Proof. unfold doDisconnectRestoreStuff. walk_silent. Qed.

(** The blocks of [onConnectionManagerDisconnected] around it. *)
Lemma doh_after W (h : Oracle W) s w :
  after h (ifM (is_win platform) then enableDohSettings) s w = s.
Proof.
  apply keeps_eq_after. intro s0. unfold enableDohSettings. walk_keeps fail.
Qed.

Lemma doh_no_control :
  silent is_connectionControl (ifM (is_win platform) then enableDohSettings).
Proof. unfold enableDohSettings. walk_silent. Qed.


Lemma followUp_no_control reason source :
  String.eqb source "reconnect" = false ->
  silent is_connectionControl (onDisconnected_followUp platform reason source).
Proof.
  intros Hsource. unfold onDisconnected_followUp. rewrite Hsource.
  unfold signOutImplAfterDisconnect. walk_silent.
Qed.

Lemma optional_call_after W (h : Oracle W) (b : bool) (c : Cmd unit) s w :
  after h (ifM b then call c) s w = s.
Proof. destruct b; reflexivity. Qed.

Lemma optional_call_no_control (b : bool) (c : Cmd unit) :
  (forall x, is_connectionControl (Ev c x) = false) ->
  silent is_connectionControl (ifM b then call c).
Proof. intros Hc. destruct b; walk_silent. now apply silent_call. Qed.

Lemma takeSenderSource_tagged W (h : Oracle W) s w tag :
  senderSource s = Some tag ->
  value h takeSenderSource s w = tag /\
  after h takeSenderSource s w = set_senderSource None s /\
  trace h takeSenderSource s w = [] /\
  world h takeSenderSource s w = w.
Proof.
  intros Htag. unfold takeSenderSource, value, after, trace, world. cbn.
  rewrite Htag. repeat split.
Qed.

Lemma takeSenderSource_untagged W (h : Oracle W) s w :
  senderSource s = None ->
  value h takeSenderSource s w = "" /\
  after h takeSenderSource s w = s /\
  trace h takeSenderSource s w = [] /\
  world h takeSenderSource s w = w.
Proof.
  intros Htag. unfold takeSenderSource, value, after, trace, world. cbn.
  rewrite Htag. repeat split.
Qed.










(** A disconnect that carries no tag gives the ConnectionManager no
    command. *)
Lemma onDisconnected_untagged W (h : Oracle W) st w reason :
  senderSource st = None ->
  count is_connectionControl
    (trace h (onConnectionManagerDisconnected platform reason) st w) = 0%nat.
Proof.
  intros Htag. unfold onConnectionManagerDisconnected.
  rewrite !trace_bind. rewrite !doh_after.
  rewrite !after_call, !value_call, !optional_call_after.
  match goal with
  | |- context [value h takeSenderSource st ?w3] =>
      destruct (takeSenderSource_untagged W h st w3 Htag)
        as (Hv & Ha & Ht & Hw)
  end.
  rewrite Hv, Ha, Ht, Hw. rewrite !count_app.
  rewrite !silent_count;
    first [ reflexivity
          | apply doh_no_control
          | apply restore_no_control
          | now apply optional_call_no_control
          | now apply followUp_no_control
          | now apply silent_call ].
Qed.


End Reconnect.

(** ** From the public method to the slot *)

(** [connectClick] announces the Connecting state for the new location
    and queues [connectClickImpl]; the event queue then runs that slot. *)
Example connectClick_queues_the_slot :
  trace (stateless idle) (connectClick zurich wireGuard443) engine0 tt =
  [Ev (CSC_setConnectingState Primary zurich) tt;
   Ev (Q_invokeMethod (Slot_connectClickImpl zurich wireGuard443)) tt].
Proof. reflexivity. Qed.

Example invoke_runs_connectClickImpl :
  invoke Q_OS_LINUX (Slot_connectClickImpl zurich wireGuard443) =
  connectClickImpl Q_OS_LINUX zurich wireGuard443.
Proof. reflexivity. Qed.

(** [disconnectClick] on a connected Engine announces Disconnecting and
    queues [disconnectClickImpl], which clears the tag and asks the
    ConnectionManager to disconnect. *)
Example disconnectClick_when_connected :
  trace (stateless (fun X c =>
           match c in Cmd T return T -> T with
           | CSC_currentState _ => fun _ => CONNECT_STATE_CONNECTED
           | _ => fun d => d
           end (idle X c)))
    disconnectClick engine0 tt =
  [Ev (CSC_currentState Primary) CONNECT_STATE_CONNECTED;
   Ev (CSC_setDisconnectingState Primary) tt;
   Ev (Q_invokeMethod Slot_disconnectClickImpl) tt] /\
  trace (stateless idle) (invoke Q_OS_LINUX Slot_disconnectClickImpl)
    engine0 tt =
  [Ev CM_clickDisconnect tt].
Proof. split; reflexivity. Qed.

(** ** The theorems at concrete inputs *)

(** A disconnect click on the initialised, disconnected Engine. *)
Lemma disconnectClick_idle_is_noop_witness :
  trace (stateless idle) disconnectClick engine0 tt =
    [Ev (CSC_currentState Primary) CONNECT_STATE_DISCONNECTED;
     Ev (CSC_currentState Primary) CONNECT_STATE_DISCONNECTED] /\
  after (stateless idle) disconnectClick engine0 tt = engine0.
Proof.
  destruct (disconnectClick_idle_is_noop unit (stateless idle) engine0 tt
              CONNECT_STATE_DISCONNECTED) as (Hafter & Htrace & _).
  - intro w. reflexivity.
  - discriminate.
  - discriminate.
  - split; [ exact Htrace | exact Hafter ].
Defined.

(** An emergency connect click on the Engine as constructed. *)
Lemma emergency_click_before_init_witness :
  trace (stateless idle) emergencyConnectClick engineCreated tt =
    [Ev (CSC_setDisconnectedState Emergency DISCONNECTED_ITSELF
           NO_CONNECT_ERROR) tt;
     Ev (Emit emergencyDisconnected) tt] /\
  trace (stateless idle) emergencyDisconnectClick engineCreated tt =
    [Ev (CSC_setDisconnectedState Emergency DISCONNECTED_ITSELF
           NO_CONNECT_ERROR) tt;
     Ev (Emit emergencyDisconnected) tt].
Proof.
  destruct (emergency_click_before_init unit (stateless idle) engineCreated tt)
    as (Hconnect & _ & Hdisconnect & _).
  - reflexivity.
  - split; [ exact Hconnect | exact Hdisconnect ].
Defined.

(** The user cancels the password prompt; the user enters a password and
    asks to save it. *)
Lemma continueWith_empty_cancels_witness :
  trace (stateless customConfig) (continueWithPasswordImpl "" true) engine0 tt =
    [Ev CM_clickDisconnect tt] /\
  trace (stateless customConfig) (continueWithPasswordImpl "hunter2" true)
    engine0 tt =
    [Ev CM_getCustomOvpnConfigFileName "office.ovpn";
     Ev (CRED_setAuthCredentials "office.ovpn" "" "hunter2") tt;
     Ev (CM_continueWithPassword "hunter2" false) tt].
Proof.
  split.
  - destruct (continueWith_empty_cancels unit (stateless customConfig) engine0
                tt "" "" "office.ovpn" true) as (_ & Hpassword & _).
    + intro w. reflexivity.
    + exact Hpassword.
  - destruct (continueWith_empty_cancels unit (stateless customConfig) engine0
                tt "" "hunter2" "office.ovpn" true) as (_ & Hpassword & _).
    + intro w. reflexivity.
    + exact Hpassword.
Defined.

(** A location the model does not know; a location without nodes. *)
Lemma doConnect_location_errors_witness :
  trace (stateless idle) (doConnect true) engine0 tt =
    [Ev (LM_getMutableLocationInfoById toronto) None;
     Ev (CSC_setDisconnectedState Primary DISCONNECTED_WITH_ERROR
           LOCATION_NOT_EXIST) tt;
     Ev (MyIp_getIP 1) tt] /\
  trace (stateless noActiveNodes) (doConnect true) engine0 tt =
    [Ev (LM_getMutableLocationInfoById toronto) (Some (LocationInfo 7));
     Ev (BLI_isExistSelectedNode (LocationInfo 7)) false;
     Ev (CSC_setDisconnectedState Primary DISCONNECTED_WITH_ERROR
           LOCATION_NO_ACTIVE_NODES) tt;
     Ev (MyIp_getIP 1) tt].
Proof.
  split.
  - destruct (doConnect_location_errors unit (stateless idle) engine0 tt true)
      as (Hmissing & _).
    destruct Hmissing as (Htrace & _).
    + intro w. reflexivity.
    + exact Htrace.
  - destruct (doConnect_location_errors unit (stateless noActiveNodes) engine0
                tt true) as (_ & Hempty).
    destruct (Hempty (LocationInfo 7)) as (Htrace & _).
    + intro w. reflexivity.
    + intro w. reflexivity.
    + exact Htrace.
Defined.

(** Connect to Zurich with the block flag set; connect to a custom
    config with the flag set. *)
Lemma connectClickImpl_blocked_witness :
  trace (stateless ready) (connectClickImpl Q_OS_LINUX zurich wireGuard443)
    (set_isBlockConnect_ true engine0) tt =
    [Ev CM_isDisconnected true;
     Ev (CSC_setDisconnectedState Primary DISCONNECTED_WITH_ERROR
           CONNECTION_BLOCKED) tt;
     Ev (MyIp_getIP 1) tt] /\
  trace (stateless ready)
    (connectClickImpl Q_OS_LINUX officeConfig wireGuard443)
    (set_isBlockConnect_ true engine0) tt =
  trace (stateless ready)
    (connectClickImpl Q_OS_LINUX officeConfig wireGuard443)
    (set_isBlockConnect_ false (set_isBlockConnect_ true engine0)) tt.
Proof.
  split.
  - destruct (connectClickImpl_blocked Q_OS_LINUX unit (stateless ready)
                (set_isBlockConnect_ true engine0) tt zurich wireGuard443)
      as (Hblocked & _).
    + intro w. reflexivity.
    + reflexivity.
    + destruct Hblocked as (Htrace & _); [ reflexivity | exact Htrace ].
  - destruct (connectClickImpl_blocked Q_OS_LINUX unit (stateless ready)
                (set_isBlockConnect_ true engine0) tt officeConfig wireGuard443)
      as (_ & Hcustom).
    + intro w. reflexivity.
    + reflexivity.
    + destruct Hcustom as (Htrace & _); [ reflexivity | exact Htrace ].
Defined.

(** The network changes to the office Wi-Fi while disconnected. *)
Lemma onNetworkChange_only_updates_settings_witness :
  after (stateless idle) (onNetworkChange officeWifi) engine0 tt = engine0 /\
  count is_stateTransition
    (trace (stateless idle) (onNetworkChange officeWifi) engine0 tt) = 0%nat /\
  count is_connectionControl
    (trace (stateless idle) (onNetworkChange officeWifi) engine0 tt) = 0%nat.
Proof.
  destruct (onNetworkChange_only_updates_settings unit (stateless idle) engine0
              tt officeWifi PortMap_empty noProxy CONNECT_STATE_DISCONNECTED
              AdapterGatewayInfo_empty)
    as (_ & Hafter & Hstate & Hcontrol & _).
  - reflexivity.
  - intro w. reflexivity.
  - intro w. reflexivity.
  - intro w. reflexivity.
  - intro w. reflexivity.
  - split; [ exact Hafter | split; [ exact Hstate | exact Hcontrol ] ].
Defined.

(** A WireGuard tunnel with an MTU of 1500 and the offset 80. *)
Lemma connected_applies_protocol_mtu_witness :
  filter is_changeMtu
    (trace (stateless ready) (onConnectionManagerConnected Q_OS_LINUX 80 80)
       engine0 tt) =
  [Ev (H_changeMtu "utun420" (int_sub 1500 80)) tt] /\
  int_sub 1500 80 = 1420.
Proof.
  destruct (connected_applies_protocol_mtu Q_OS_LINUX 80 80 unit
              (stateless ready) engine0 tt utun420 WIREGUARD (0, false)
              (0, false)) as (Hmtu & Hexact & _).
  - intro w. reflexivity.
  - intro w. reflexivity.
  - intro w. reflexivity.
  - intro w. reflexivity.
  - split; [ exact Hmtu | ].
    apply Hexact. unfold is_int. cbn. lia.
Defined.

(** Timing "before connection": the firewall goes on in the connect
    sequence and not again in the connected event.  Timing "after
    connection": it goes on in the connected event. *)
Lemma firewall_policy_exclusive_witness :
  count is_firewallEnabled
    (trace (stateless ready) (connectClickImpl Q_OS_LINUX zurich wireGuard443)
       engine0 tt) = 1%nat /\
  (count is_firewallEnabled
     (trace (stateless ready) (connectClickImpl Q_OS_LINUX zurich wireGuard443)
        engine0 tt)
   + count is_firewallEnabled
       (trace (stateless ready) (onConnectionManagerConnected Q_OS_LINUX 80 80)
          engine0 tt) <= 1)%nat /\
  count is_firewallEnabled
    (trace (stateless ready) (onConnectionManagerConnected Q_OS_LINUX 80 80)
       engineAfter tt) = 1%nat.
Proof.
  split; [ | split ].
  - destruct (firewall_policy_exclusive Q_OS_LINUX 80 80 unit unit
                (stateless ready) (stateless ready) engine0 engine0 tt tt
                zurich wireGuard443) as (_ & _ & _ & Hfires & _).
    + reflexivity.
    + apply Hfires.
      * reflexivity.
      * reflexivity.
      * intro w. reflexivity.
      * reflexivity.
      * intro w. reflexivity.
  - destruct (firewall_policy_exclusive Q_OS_LINUX 80 80 unit unit
                (stateless ready) (stateless ready) engine0 engine0 tt tt
                zurich wireGuard443) as (Hmost & _).
    + reflexivity.
    + exact Hmost.
  - destruct (firewall_policy_exclusive Q_OS_LINUX 80 80 unit unit
                (stateless ready) (stateless ready) engineAfter engineAfter
                tt tt zurich wireGuard443) as (_ & _ & _ & _ & Hfires).
    + reflexivity.
    + apply Hfires.
      * reflexivity.
      * reflexivity.
      * intro w. reflexivity.
      * intro w. reflexivity.
Defined.



(** ** Where the specification says more than the code does *)



(** * Further properties of the slots *)

(** ** Rewriting the firewall rules *)

(** X1.  [updateFirewallSettings] only rewrites the rules of a firewall
    that is on: found off, it does nothing but that query.  Found on, it
    calls [firewallOn] once, with the rules of the connected state exactly
    when the primary state is Connected.  It never switches the firewall
    off, reports no firewall change and leaves the members as they are. *)
Theorem updateFirewallSettings_only_refreshes :
  forall W (h : Oracle W) (s : Engine) (w : W) (on : bool)
         (st : CONNECT_STATE) (ip ipConnected : QString)
         (allowed allowedConnected : QStringList),
    answers h FW_firewallActualState on ->
    answers h (CSC_currentState Primary) st ->
    answers h FE_connectingIp ip ->
    answers h FE_getIPAddressesForFirewall allowed ->
    answers h CM_getLastConnectedIp ipConnected ->
    answers h FE_getIPAddressesForFirewallForConnectedState allowedConnected ->
    let lan := isAllowLanTraffic (engineSettings_ s) in
    let custom := isCustomConfigsLocation (locationId_ s) in
    let tr := trace h updateFirewallSettings s w in
    tr = Ev FW_firewallActualState on
         :: (if on
             then Ev (CSC_currentState Primary) st
                  :: (if CONNECT_STATE_eqb st CONNECT_STATE_CONNECTED
                      then [Ev CM_getLastConnectedIp ipConnected;
                            Ev FE_getIPAddressesForFirewallForConnectedState
                               allowedConnected;
                            Ev (FW_firewallOn ipConnected allowedConnected lan
                                  custom) tt]
                      else [Ev FE_connectingIp ip;
                            Ev FE_getIPAddressesForFirewall allowed;
                            Ev (FW_firewallOn ip allowed lan custom) tt])
             else []) /\
    after h updateFirewallSettings s w = s /\
    count is_firewallOn tr = (if on then 1 else 0)%nat /\
    count is_firewallOff tr = 0%nat /\
    count is_firewallSignal tr = 0%nat.
Proof.
  intros W h s w on st ip ipConnected allowed allowedConnected
    Hon Hst Hip Hallowed HipC HallowedC lan custom tr.
  subst lan custom tr. unfold answers in *.
  unfold updateFirewallSettings, firewallOn_connecting, firewallOn_connected.
  by_run. rewrite Hon.
  destruct on; cbn; [ | now repeat split ].
  rewrite Hst.
  destruct (CONNECT_STATE_eqb st CONNECT_STATE_CONNECTED); cbn;
    rewrite ?Hip, ?Hallowed, ?HipC, ?HallowedC; units; now repeat split.
Qed.

(** ** The reconnecting event *)

(** X2.  [onConnectionManagerReconnecting] puts the DNS configuration back
    to the disconnected state, rewrites the rules of the firewall for the
    connecting phase only if the firewall is on, and asks for the
    Connecting state with the default [LocationID()].  It reports no
    firewall change, never switches the firewall off, gives the
    ConnectionManager no command and leaves the members as they are. *)
Theorem reconnecting_keeps_firewall_state :
  forall W (h : Oracle W) (s : Engine) (w : W) (on : bool) (ip : QString)
         (allowed : QStringList),
    answers h FW_firewallActualState on ->
    answers h FE_connectingIp ip ->
    answers h FE_getIPAddressesForFirewall allowed ->
    let tr := trace h onConnectionManagerReconnecting s w in
    tr = [Ev DNS_setDisconnectedState tt; Ev FW_firewallActualState on]
         ++ (if on
             then [Ev FE_connectingIp ip;
                   Ev FE_getIPAddressesForFirewall allowed;
                   Ev (FW_firewallOn ip allowed
                         (isAllowLanTraffic (engineSettings_ s))
                         (isCustomConfigsLocation (locationId_ s))) tt]
             else [])
         ++ [Ev (CSC_setConnectingState Primary LocationID_default) tt] /\
    after h onConnectionManagerReconnecting s w = s /\
    count is_firewallSignal tr = 0%nat /\
    count is_firewallOff tr = 0%nat /\
    count is_connectionControl tr = 0%nat.
Proof.
  intros W h s w on ip allowed Hon Hip Hallowed tr. subst tr.
  unfold answers in *.
  unfold onConnectionManagerReconnecting, firewallOn_connecting. by_run.
  rewrite Hon.
  destruct on; cbn; rewrite ?Hip, ?Hallowed; units; now repeat split.
Qed.

(** ** Connection errors other than credential errors *)

(** X3.  For an error that is neither [AUTH_ERROR] nor
    [PRIV_KEY_PASSWORD_ERROR], [onConnectionManagerError] does not restore
    the disconnect side and leaves the members as they are.  On macOS and
    Linux it sets the primary state to Disconnected with that very error
    (after restoring IPv6 on macOS).  On Windows a missing or unusable
    tunnel adapter is reported as [WINTUN_FATAL_ERROR], [ALL_TAP_IN_USE]
    does nothing at all, and every other error is reported as it is. *)
Theorem other_errors_are_terminal :
  forall platform W (h : Oracle W) (s : Engine) (w : W) (err : CONNECT_ERROR),
    err <> AUTH_ERROR ->
    err <> PRIV_KEY_PASSWORD_ERROR ->
    let tr := trace h (onConnectionManagerError platform err) s w in
    let failed e :=
      Ev (CSC_setDisconnectedState Primary DISCONNECTED_WITH_ERROR e) tt in
    after h (onConnectionManagerError platform err) s w = s /\
    count is_dnsMutation tr = 0%nat /\
    count is_firewallMutation tr = 0%nat /\
    (platform = Q_OS_LINUX -> tr = [failed err]) /\
    (platform = Q_OS_MAC ->
     tr = [Ev Ipv6Controller_mac_restoreIpv6 tt; failed err]) /\
    (platform = Q_OS_WIN ->
     tr = match err with
          | NO_INSTALLED_TUN_TAP | WINTUN_FATAL_ERROR =>
              [failed WINTUN_FATAL_ERROR]
          | ALL_TAP_IN_USE => []
          | _ => [failed err]
          end).
Proof.
  intros platform W h s w err Hauth Hkey tr failed. subst tr failed.
  unfold onConnectionManagerError.
  destruct err; try congruence; destruct platform; by_run; units;
    repeat split; intros; try discriminate; reflexivity.
Qed.

(** ** Signing out *)

(** X4.  [signOutImplAfterDisconnect] switches the firewall off, and says
    so, exactly when it is not asked to keep it on; it signs the session
    out only if there is an ApiResourcesManager, leaves none behind with no
    connection to it, gives the ConnectionManager no command and ends by
    emitting [signOutFinished]. *)
Theorem signOut_keeps_firewall_when_asked :
  forall platform W (h : Oracle W) (s : Engine) (w : W)
         (keepFirewallOn : bool) (authHash : QString),
    answers h API_authHash authHash ->
    let tr := trace h (signOutImplAfterDisconnect platform keepFirewallOn) s w in
    let left := after h (signOutImplAfterDisconnect platform keepFirewallOn) s w in
    tr = [Ev LM_clear tt]
         ++ (if is_posix platform
             then [Ev (FW_enableFirewallOnBoot false) tt] else [])
         ++ (if apiResourcesManager_ s
             then [Ev API_authHash authHash; Ev (SO_signOut authHash) tt;
                   Ev API_removeFromSettings tt]
             else [])
         ++ [Ev GetWireGuardConfig_removeWireGuardSettings tt]
         ++ (if keepFirewallOn then []
             else [Ev FW_firewallOff tt;
                   Ev (Emit (firewallStateChanged false)) tt])
         ++ [Ev (Emit signOutFinished) tt] /\
    apiResourcesManager_ left = false /\
    (apiResourcesManager_ s = true -> apiConnections left = []) /\
    count is_firewallOff tr = (if keepFirewallOn then 0 else 1)%nat /\
    count is_firewallSignal tr = (if keepFirewallOn then 0 else 1)%nat /\
    count is_connectionControl tr = 0%nat.
Proof.
  intros platform W h s w keepFirewallOn authHash Hhash tr left.
  subst tr left. unfold answers in *. unfold signOutImplAfterDisconnect.
  destruct s as [init hasHelper settings packet loc name override protocol
                 blocked need ignore api conns signOut source prevInit prev
                 channel].
  destruct platform, api, keepFirewallOn; by_run; rewrite ?Hhash; units;
    repeat split; intros; try discriminate; reflexivity.
Qed.

(** ** What follows a disconnect *)

Section AfterDisconnect.
Variable platform : Platform.

Lemma restore_keeps_settings es :
  keeps (fun e => engineSettings_ e = es) (doDisconnectRestoreStuff platform).
Proof.
  unfold doDisconnectRestoreStuff. walk_keeps ltac:(intros ? H; exact H).
Qed.

Lemma restore_no_firewallOff :
  silent is_firewallOff (doDisconnectRestoreStuff platform).
Proof. unfold doDisconnectRestoreStuff. walk_silent. Qed.

Lemma restore_no_primaryTransition :
  silent is_primaryTransition (doDisconnectRestoreStuff platform).
Proof. unfold doDisconnectRestoreStuff. walk_silent. Qed.

Lemma doh_silent f :
  (forall x, f (Ev WinUtils_isDohSupported x) = false) ->
  (forall x, f (Ev HW_enableDohSettings x) = false) ->
  silent f (ifM (is_win platform) then enableDohSettings).
Proof.
  intros H1 H2. unfold enableDohSettings.
  destruct (is_win platform); [ | apply silent_ret ].
  apply silent_bind; [ now apply silent_call | intros [ | ] ].
  - now apply silent_call.
  - apply silent_ret.
Qed.

Lemma optional_call_silent f (b : bool) (c : Cmd unit) :
  (forall x, f (Ev c x) = false) -> silent f (ifM b then call c).
Proof.
  intros Hc. destruct b; [ now apply silent_call | apply silent_ret ].
Qed.

(** The part of [onConnectionManagerDisconnected] before the follow-up,
    for a tag [tag] (["" ] when there is none): what it calls is quiet
    for [f] as soon as the restore is. *)
Lemma onDisconnected_split W (h : Oracle W) st w reason f tag :
  (senderSource st = Some tag \/ (senderSource st = None /\ tag = "")) ->
  silent f (doDisconnectRestoreStuff platform) ->
  (forall X (c : Cmd X) x,
      match c with
      | WinUtils_isDohSupported | HW_enableDohSettings
      | CM_isStaticIpsLocation | FW_deleteWhitelistPorts
      | DnsInfo_win_outputDebugDnsInfo => f (Ev c x) = false
      | _ => True
      end) ->
  exists s' w',
    preceded_quietly f
      (trace h (onConnectionManagerDisconnected platform reason) st w)
      (trace h (onDisconnected_followUp platform reason tag) s' w') /\
    after h (onConnectionManagerDisconnected platform reason) st w =
      after h (onDisconnected_followUp platform reason tag) s' w' /\
    s' = after h (doDisconnectRestoreStuff platform)
           (set_senderSource None st) (world h takeSenderSource st
              (world h (ifM (value h (call CM_isStaticIpsLocation) st
                               (world h (ifM (is_win platform)
                                         then enableDohSettings) st w))
                        then call FW_deleteWhitelistPorts) st
                 (world h (call CM_isStaticIpsLocation) st
                    (world h (ifM (is_win platform) then enableDohSettings)
                       st w)))).
Proof.
  intros Htag Hrestore Hf. unfold onConnectionManagerDisconnected.
  rewrite !trace_bind, !after_bind. rewrite !doh_after.
  rewrite !after_call, !optional_call_after.
  assert (Htake :
    forall w3,
      value h takeSenderSource st w3 = tag /\
      after h takeSenderSource st w3 = set_senderSource None st /\
      trace h takeSenderSource st w3 = []).
  { intros w3. destruct Htag as [Htag | [Htag ->]].
    - destruct (takeSenderSource_tagged W h st w3 tag Htag)
        as (Hv & Ha & Ht & _). now repeat split.
    - destruct (takeSenderSource_untagged W h st w3 Htag)
        as (Hv & Ha & Ht & _). repeat split; trivial.
      rewrite Ha. destruct st; cbn in *; now subst. }
  match goal with
  | |- context [value h takeSenderSource st ?w3] =>
      destruct (Htake w3) as (Hv & Ha & Ht)
  end.
  rewrite Hv, Ha, Ht, ?optional_call_after.
  do 2 eexists. split; [ | split; reflexivity ].
  apply preceded_quietly_app;
    [ apply doh_silent; intro x;
      [ apply (Hf _ WinUtils_isDohSupported x)
      | apply (Hf _ HW_enableDohSettings x) ] | ].
  apply preceded_quietly_app;
    [ apply silent_call; intro x; apply (Hf _ CM_isStaticIpsLocation x) | ].
  apply preceded_quietly_app;
    [ apply optional_call_silent; intro x;
      apply (Hf _ FW_deleteWhitelistPorts x) | ].
  cbn [app].
  apply preceded_quietly_app; [ apply Hrestore | ].
  apply preceded_quietly_app;
    [ apply optional_call_silent; intro x;
      apply (Hf _ DnsInfo_win_outputDebugDnsInfo x) | ].
  apply preceded_quietly_refl.
Qed.

Lemma preceded_quietly_weaken (f g : Event -> bool) tr tail :
  (forall e, g e = true -> f e = true) ->
  preceded_quietly f tr tail -> preceded_quietly g tr tail.
Proof.
  intros Hgf (pre & -> & Hpre). exists pre. split; [ reflexivity | ].
  now apply (count_zero_weaken f g).
Qed.

Lemma control_in_controlOrFirewallOff e :
  is_connectionControl e = true -> is_controlOrFirewallOff e = true.
Proof. unfold is_controlOrFirewallOff. now intros ->. Qed.

Lemma firewallOff_in_controlOrFirewallOff e :
  is_firewallOff e = true -> is_controlOrFirewallOff e = true.
Proof. unfold is_controlOrFirewallOff. intros ->. apply orb_true_r. Qed.

Lemma restore_no_controlOrFirewallOff :
  silent is_controlOrFirewallOff (doDisconnectRestoreStuff platform).
Proof. unfold doDisconnectRestoreStuff. walk_silent. Qed.

Lemma followUp_signOut reason (keepFirewallOn : bool) :
  onDisconnected_followUp platform reason
    (if keepFirewallOn then "signOutImplKeepFirewallOn" else "signOutImpl") =
  (signOutImplAfterDisconnect platform keepFirewallOn ;;
   modify (set_connectionSettingsOverride_ ConnectionSettings_noOverride) ;;
   call (CSC_setDisconnectedState Primary reason NO_CONNECT_ERROR)).
Proof. destruct keepFirewallOn; reflexivity. Qed.

Lemma signOutAfter_no_control keepFirewallOn :
  silent is_connectionControl
    (signOutImplAfterDisconnect platform keepFirewallOn).
Proof. unfold signOutImplAfterDisconnect. walk_silent. Qed.

Lemma signOutAfter_firewallOff W (h : Oracle W) s w keepFirewallOn :
  count is_firewallOff
    (trace h (signOutImplAfterDisconnect platform keepFirewallOn) s w) =
  (if keepFirewallOn then 0 else 1)%nat.
Proof.
  unfold signOutImplAfterDisconnect.
  destruct s as [init hasHelper settings packet loc name override protocol
                 blocked need ignore api conns signOut source prevInit prev
                 channel].
  destruct platform, api, keepFirewallOn; reflexivity.
Qed.

Lemma signOutAfter_keeps_senderSource keepFirewallOn tag :
  keeps (fun e => senderSource e = tag)
        (signOutImplAfterDisconnect platform keepFirewallOn).
Proof.
  unfold signOutImplAfterDisconnect. walk_keeps ltac:(intros ? H; exact H).
Qed.

Lemma signOutAfter_forgets_api W (h : Oracle W) s w keepFirewallOn :
  apiResourcesManager_
    (after h (signOutImplAfterDisconnect platform keepFirewallOn) s w) = false.
Proof.
  unfold signOutImplAfterDisconnect.
  destruct s as [init hasHelper settings packet loc name override protocol
                 blocked need ignore api conns signOut source prevInit prev
                 channel].
  destruct platform, api, keepFirewallOn; reflexivity.
Qed.

(** X5.  A sign-out that finds the ConnectionManager not disconnected
    only tags the disconnect and asks for it.  The disconnected event that
    follows restores the disconnect side, runs the second part of the
    sign-out with the same [keepFirewallOn], resets the one-time settings
    override and sets the primary state to Disconnected.  Over the whole
    event the ConnectionManager gets no command, the firewall is switched
    off exactly when it was not to be kept, and no tag and no
    ApiResourcesManager are left. *)
Theorem signOut_goes_through_disconnect :
  forall W1 W2 (h1 : Oracle W1) (h2 : Oracle W2) (s : Engine)
         (w1 : W1) (w2 : W2) (keepFirewallOn : bool)
         (reason : DISCONNECT_REASON),
    answers h1 CM_isDisconnected false ->
    let request := trace h1 (signOutImpl platform keepFirewallOn) s w1 in
    let tagged := after h1 (signOutImpl platform keepFirewallOn) s w1 in
    let completion :=
      trace h2 (onConnectionManagerDisconnected platform reason) tagged w2 in
    let settled :=
      after h2 (onConnectionManagerDisconnected platform reason) tagged w2 in
    request = [Ev CM_isDisconnected false; Ev CM_clickDisconnect tt] /\
    (exists s' w',
        preceded_quietly is_controlOrFirewallOff completion
          (trace h2 (signOutImplAfterDisconnect platform keepFirewallOn) s' w'
           ++ [Ev (CSC_setDisconnectedState Primary reason NO_CONNECT_ERROR)
                 tt])) /\
    count is_connectionControl completion = 0%nat /\
    count is_firewallOff completion = (if keepFirewallOn then 0 else 1)%nat /\
    senderSource settled = None /\
    connectionSettingsOverride_ settled = ConnectionSettings_noOverride /\
    apiResourcesManager_ settled = false.
Proof.
  intros W1 W2 h1 h2 s w1 w2 keepFirewallOn reason Hbusy
    request tagged completion settled.
  set (tag := if keepFirewallOn then "signOutImplKeepFirewallOn"
              else "signOutImpl").
  assert (Hrequest :
    request = [Ev CM_isDisconnected false; Ev CM_clickDisconnect tt]).
  { subst request. unfold signOutImpl. step. rewrite Hbusy. step.
    units. reflexivity. }
  assert (Htagged : tagged = set_senderSource (Some tag) s).
  { subst tagged. unfold signOutImpl. step. rewrite Hbusy. reflexivity. }
  assert (Htag : senderSource tagged = Some tag) by now rewrite Htagged.
  destruct (onDisconnected_split W2 h2 tagged w2 reason
              is_controlOrFirewallOff tag (or_introl Htag)
              restore_no_controlOrFirewallOff)
    as (s' & w' & Hpq & Hafter & Hs').
  { intros X c x. destruct c; trivial. }
  fold completion settled in Hpq, Hafter.
  subst tag. rewrite followUp_signOut in Hpq, Hafter.
  assert (Htail :
    trace h2
      (signOutImplAfterDisconnect platform keepFirewallOn ;;
       modify (set_connectionSettingsOverride_ ConnectionSettings_noOverride) ;;
       call (CSC_setDisconnectedState Primary reason NO_CONNECT_ERROR)) s' w' =
    trace h2 (signOutImplAfterDisconnect platform keepFirewallOn) s' w'
    ++ [Ev (CSC_setDisconnectedState Primary reason NO_CONNECT_ERROR) tt]).
  { rewrite trace_bind. f_equal. step. units. reflexivity. }
  rewrite Htail in Hpq.
  assert (Hsettled :
    settled =
    set_connectionSettingsOverride_ ConnectionSettings_noOverride
      (after h2 (signOutImplAfterDisconnect platform keepFirewallOn) s' w')).
  { rewrite Hafter, after_bind. reflexivity. }
  split; [ exact Hrequest | ].
  split; [ now exists s', w' | ].
  split; [ | split; [ | split; [ | split ] ] ].
  - rewrite (preceded_quietly_count _ _ _
               (preceded_quietly_weaken _ _ _ _
                  control_in_controlOrFirewallOff Hpq)).
    rewrite count_app, silent_count by apply signOutAfter_no_control.
    reflexivity.
  - rewrite (preceded_quietly_count _ _ _
               (preceded_quietly_weaken _ _ _ _
                  firewallOff_in_controlOrFirewallOff Hpq)).
    rewrite count_app, signOutAfter_firewallOff.
    destruct keepFirewallOn; reflexivity.
  - rewrite Hsettled. cbn.
    apply signOutAfter_keeps_senderSource. rewrite Hs'.
    now apply restore_keeps_senderSource.
  - now rewrite Hsettled.
  - rewrite Hsettled. cbn. apply signOutAfter_forgets_api.
Qed.
End AfterDisconnect.

(** ** A disconnect without a follow-up *)

Section PlainDisconnect.
Variable platform : Platform.

Lemma preceded_quietly_trans f tr mid tail :
  preceded_quietly f tr mid -> preceded_quietly f mid tail ->
  preceded_quietly f tr tail.
Proof.
  intros (pre1 & -> & H1) (pre2 & -> & H2). exists (pre1 ++ pre2).
  split; [ now rewrite app_assoc | ].
  now rewrite count_app, H1, H2.
Qed.

Lemma followUp_plain reason :
  onDisconnected_followUp platform reason "" =
  (call (MyIp_getIP 1) ;;
   automatic <- get (fun e =>
     is_automatic (mode (firewallSettings (engineSettings_ e)))) ;;
   (ifM (DISCONNECT_REASON_eqb reason DISCONNECTED_BY_USER && automatic)
    then
      (on <- call FW_firewallActualState ;;
       ifM on then
         (call FW_firewallOff ;;
          emit (firewallStateChanged false)))) ;;
   modify (set_connectionSettingsOverride_ ConnectionSettings_noOverride) ;;
   call (CSC_setDisconnectedState Primary reason NO_CONNECT_ERROR)).
Proof. reflexivity. Qed.

Lemma plain_tail W (h : Oracle W) s w reason on :
  answers h FW_firewallActualState on ->
  let tr := trace h (onDisconnected_followUp platform reason "") s w in
  preceded_quietly is_primaryTransition tr
    [Ev (CSC_setDisconnectedState Primary reason NO_CONNECT_ERROR) tt] /\
  count is_firewallOff tr =
    (if DISCONNECT_REASON_eqb reason DISCONNECTED_BY_USER
        && is_automatic (mode (firewallSettings (engineSettings_ s)))
        && on
     then 1 else 0)%nat /\
  count is_firewallSignal tr = count is_firewallOff tr /\
  after h (onDisconnected_followUp platform reason "") s w =
    set_connectionSettingsOverride_ ConnectionSettings_noOverride s.
Proof.
  intros Hon tr. subst tr. unfold answers in *. rewrite followUp_plain.
  by_run.
  destruct (DISCONNECT_REASON_eqb reason DISCONNECTED_BY_USER
            && is_automatic (mode (firewallSettings (engineSettings_ s))));
    cbn; rewrite ?Hon; [ destruct on; cbn | ]; units;
    (split; [ | now repeat split ]);
    repeat (apply preceded_quietly_cons; [ reflexivity | ]);
    apply preceded_quietly_refl.
Qed.

(** X6.  A disconnected event that carries no tag restores the disconnect
    side, asks for the external IP, and ends by setting the primary state
    to Disconnected with the reason of the event and no error; that is the
    only transition it requests.  It switches the firewall off, and
    reports it, exactly when the user disconnected, the firewall mode is
    automatic and the firewall is on.  The one-time settings override is
    reset and the ConnectionManager gets no command. *)
Theorem plain_disconnect_settles :
  forall W (h : Oracle W) (s : Engine) (w : W) (reason : DISCONNECT_REASON)
         (on : bool),
    senderSource s = None ->
    answers h FW_firewallActualState on ->
    let tr := trace h (onConnectionManagerDisconnected platform reason) s w in
    let settled := after h (onConnectionManagerDisconnected platform reason) s w in
    preceded_quietly is_primaryTransition tr
      [Ev (CSC_setDisconnectedState Primary reason NO_CONNECT_ERROR) tt] /\
    count is_firewallOff tr =
      (if DISCONNECT_REASON_eqb reason DISCONNECTED_BY_USER
          && is_automatic (mode (firewallSettings (engineSettings_ s)))
          && on
       then 1 else 0)%nat /\
    count is_firewallSignal tr = count is_firewallOff tr /\
    connectionSettingsOverride_ settled = ConnectionSettings_noOverride /\
    senderSource settled = None /\
    count is_connectionControl tr = 0%nat.
Proof.
  intros W h s w reason on Htag Hon tr settled.
  assert (Huntagged : senderSource s = Some "" \/ (senderSource s = None /\ "" = ""))
    by (right; now split).
  destruct (onDisconnected_split platform W h s w reason is_primaryTransition
              "" Huntagged (restore_no_primaryTransition platform))
    as (s1 & w1 & Hpq1 & Hafter & Hs1);
    [ intros X c x; destruct c; trivial | ].
  destruct (onDisconnected_split platform W h s w reason is_firewallOff
              "" Huntagged (restore_no_firewallOff platform))
    as (s2 & w2 & Hpq2 & _ & Hs2);
    [ intros X c x; destruct c; trivial | ].
  assert (Hsignal : silent is_firewallSignal (doDisconnectRestoreStuff platform))
    by (unfold doDisconnectRestoreStuff; walk_silent).
  destruct (onDisconnected_split platform W h s w reason is_firewallSignal
              "" Huntagged Hsignal)
    as (s3 & w3 & Hpq3 & _ & Hs3);
    [ intros X c x; destruct c; trivial | ].
  fold tr settled in Hpq1, Hpq2, Hpq3, Hafter.
  destruct (plain_tail W h s1 w1 reason on Hon) as (Hlast & _ & _ & Hover).
  destruct (plain_tail W h s2 w2 reason on Hon) as (_ & Hoff & _ & _).
  destruct (plain_tail W h s3 w3 reason on Hon) as (_ & Hoff3 & Hsig & _).
  assert (Hset : forall s', 
    s' = after h (doDisconnectRestoreStuff platform) (set_senderSource None s)
           (world h takeSenderSource s
              (world h (ifM (value h (call CM_isStaticIpsLocation) s
                               (world h (ifM (is_win platform)
                                         then enableDohSettings) s w))
                        then call FW_deleteWhitelistPorts) s
                 (world h (call CM_isStaticIpsLocation) s
                    (world h (ifM (is_win platform) then enableDohSettings)
                       s w)))) ->
    engineSettings_ s' = engineSettings_ s /\ senderSource s' = None).
  { intros s' ->. split.
    - now apply restore_keeps_settings.
    - now apply restore_keeps_senderSource. }
  destruct (Hset s1 Hs1) as (_ & Hsrc1).
  destruct (Hset s2 Hs2) as (Hes2 & _).
  destruct (Hset s3 Hs3) as (Hes3 & _).
  split; [ exact (preceded_quietly_trans _ _ _ _ Hpq1 Hlast) | ].
  split; [ rewrite (preceded_quietly_count _ _ _ Hpq2), Hoff, Hes2;
           reflexivity | ].
  split; [ rewrite (preceded_quietly_count _ _ _ Hpq3), Hsig, Hoff3,
             (preceded_quietly_count _ _ _ Hpq2), Hoff, Hes2, Hes3;
           reflexivity | ].
  split; [ now rewrite Hafter, Hover | ].
  split; [ now rewrite Hafter, Hover | ].
  now apply onDisconnected_untagged.
Qed.

(** X7.  [disconnectClickImpl] asks the ConnectionManager to disconnect
    and drops whatever was to follow: the tag of a pending reconnect or
    sign-out is cleared, so the disconnected event gives the
    ConnectionManager no further command, and the connection to
    [serverCredentialsFetched] is removed, so credentials that arrive later
    start no connect. *)
Theorem disconnect_cancels_follow_up :
  forall W (h : Oracle W) (s : Engine) (w : W),
    let cancelled := after h disconnectClickImpl s w in
    trace h disconnectClickImpl s w = [Ev CM_clickDisconnect tt] /\
    senderSource cancelled = None /\
    locationId_ cancelled = locationId_ s /\
    (forall W2 (h2 : Oracle W2) (w2 : W2) (reason : DISCONNECT_REASON),
        count is_connectionControl
          (trace h2 (onConnectionManagerDisconnected platform reason)
             cancelled w2) = 0%nat) /\
    (apiResourcesManager_ s = true ->
     forall W3 (h3 : Oracle W3) (w3 : W3),
       trace h3 serverCredentialsFetched cancelled w3 = []).
Proof.
  intros W h s w cancelled.
  assert (Hcancelled :
    cancelled =
    set_senderSource None
      (if apiResourcesManager_ s
       then set_apiConnections
              (withoutServerCredentialsFetched (apiConnections s)) s
       else s)).
  { subst cancelled. unfold disconnectClickImpl, stopFetchingServerCredentials.
    by_run. now destruct (apiResourcesManager_ s). }
  assert (Hsrc : senderSource cancelled = None)
    by (rewrite Hcancelled; reflexivity).
  split; [ | split; [ exact Hsrc | split; [ | split ] ] ].
  - unfold disconnectClickImpl, stopFetchingServerCredentials. by_run.
    destruct (apiResourcesManager_ s); cbn; units; reflexivity.
  - rewrite Hcancelled. now destruct (apiResourcesManager_ s).
  - intros W2 h2 w2 reason. now apply onDisconnected_untagged.
  - intros Hapi W3 h3 w3. rewrite Hcancelled, Hapi.
    unfold serverCredentialsFetched. by_run.
    now rewrite disconnected_signal_gone.
Qed.

(** X8.  A connect sequence that goes ahead (ConnectionManager
    disconnected, connection not blocked) removes the connection to
    [serverCredentialsFetched] before it connects: credentials fetched for
    an earlier attempt no longer start a connect of their own. *)
Theorem connect_disarms_credentials_retry :
  forall W (h : Oracle W) (s : Engine) (w : W) (loc : LocationID)
         (cs : ConnectionSettings),
    answers h CM_isDisconnected true ->
    isBlockConnect_ s && negb (isCustomConfigsLocation loc) = false ->
    apiResourcesManager_ s = true ->
    let started := after h (connectClickImpl platform loc cs) s w in
    existsb (ApiSignal_eqb SIG_serverCredentialsFetched)
            (apiConnections started) = false /\
    forall W' (h' : Oracle W') (w' : W'),
      trace h' serverCredentialsFetched started w' = [].
Proof.
  intros W h s w loc cs Hfree Hblock Hapi started.
  assert (Hgone :
    existsb (ApiSignal_eqb SIG_serverCredentialsFetched)
            (apiConnections started) = false).
  { subst started. unfold connectClickImpl. step. rewrite Hfree. step.
    rewrite Hblock. unfold connectClickImpl_proceed.
    assert (Hkeep :
      keeps (fun e => existsb (ApiSignal_eqb SIG_serverCredentialsFetched)
                        (apiConnections e) = false)
            (connectClickImpl_firewallBefore ;; doConnect true)).
    { unfold connectClickImpl_firewallBefore, doConnect.
      walk_keeps ltac:(intros ? H; exact H). }
    do 3 rewrite after_bind. apply Hkeep.
    rewrite addCustomRemoteIp_after.
    unfold stopFetchingServerCredentials.
    destruct platform; by_run; rewrite Hapi; cbn;
      apply disconnected_signal_gone. }
  split; [ exact Hgone | ].
  intros W' h' w'. unfold serverCredentialsFetched. by_run.
  now rewrite Hgone.
Qed.
End PlainDisconnect.

(** ** What [doConnect] hands to the ConnectionManager *)

(** X9.  For a location that exists and has an active node, [doConnect]
    ends with one [clickConnect] for that location and gives the
    ConnectionManager no other connect or disconnect command.  With an
    ApiResourcesManager it first hands the ConnectionManager the last
    known good protocol of the current network
    ([setLastKnownGoodProtocol]) and passes the OpenVPN config, the server
    credentials and the port map of the account, and the one-time override
    unless that is automatic; without one it makes no call on the
    ConnectionManager but [clickConnect], passes an empty config, empty
    credentials and an empty port map, and the override is ignored.  In
    both cases the automatic choice is the setting of the current network,
    [bEmitAuthError] is passed on unchanged and [locationName_] becomes the
    name of the location. *)
Theorem doConnect_connection_settings :
  forall W (h : Oracle W) (s : Engine) (w : W) (bEmitAuthError : bool)
         (bli : BaseLocationInfo) (name ovpn : QString)
         (networkInterface : NetworkInterface)
         (creds : ServerCredentials) (portMap : PortMap)
         (proxy : ProxySettings),
    answers h (LM_getMutableLocationInfoById (locationId_ s)) (Some bli) ->
    answers h (BLI_isExistSelectedNode bli) true ->
    answers h (BLI_getName bli) name ->
    answers h ND_getCurrentNetworkInterface networkInterface ->
    answers h API_ovpnConfig ovpn ->
    answers h API_serverCredentials creds ->
    answers h API_portMap portMap ->
    answers h PSC_getCurrentProxySettings proxy ->
    let settings := engineSettings_ s in
    let perNetwork :=
      connectionSettingsForNetworkInterface settings
        (networkOrSsid networkInterface) in
    let account := apiResourcesManager_ s in
    let override := connectionSettingsOverride_ s in
    let tr := trace h (doConnect bEmitAuthError) s w in
    let connect :=
      Ev (CM_clickConnect
            (if account then ovpn else "")
            (if account then creds else ServerCredentials_empty)
            bli
            (if account && negb (cs_isAutomatic override) then override
             else perNetwork)
            (if account then portMap else PortMap_empty)
            proxy bEmitAuthError (customOvpnConfigsPath settings)) tt in
    preceded_quietly is_connectionControl tr [connect] /\
    filter is_connectionManagerCall tr =
      (if account
       then [Ev (CM_setLastKnownGoodProtocol
                   (networkLastKnownGoodProtocol settings
                      (networkOrSsid networkInterface))) tt]
       else [])
      ++ [connect] /\
    after h (doConnect bEmitAuthError) s w = set_locationName_ name s.
Proof.
  intros W h s w flag bli name ovpn networkInterface creds portMap proxy
    Hfound Hnode Hname Hnet Hovpn Hcreds Hmap Hproxy
    settings perNetwork account override tr connect.
  subst settings perNetwork account override tr connect.
  unfold answers in *. unfold doConnect.
  split; [ | split ].
  - by_run. rewrite Hfound. cbn. rewrite Hnode. cbn. rewrite Hname, Hnet.
    destruct (apiResourcesManager_ s); cbn.
    + match goal with
      | |- context [isCustomConfigsLocation ?l] =>
          destruct (isCustomConfigsLocation l)
      end; cbn; rewrite ?Hovpn, ?Hcreds, ?Hmap, ?Hproxy; units;
        destruct (cs_isAutomatic (connectionSettingsOverride_ s)); cbn;
        repeat (apply preceded_quietly_cons; [ reflexivity | ]);
        apply preceded_quietly_refl.
    + rewrite ?Hproxy. units.
      repeat (apply preceded_quietly_cons; [ reflexivity | ]);
        apply preceded_quietly_refl.
  - by_run. rewrite Hfound. cbn. rewrite Hnode. cbn. rewrite Hname, Hnet.
    destruct (apiResourcesManager_ s); cbn.
    + match goal with
      | |- context [isCustomConfigsLocation ?l] =>
          destruct (isCustomConfigsLocation l)
      end; cbn; rewrite ?Hovpn, ?Hcreds, ?Hmap, ?Hproxy; units;
        destruct (cs_isAutomatic (connectionSettingsOverride_ s));
        reflexivity.
    + rewrite ?Hproxy. units. reflexivity.
  - by_run. rewrite Hfound. cbn. rewrite Hnode. cbn. rewrite Hname.
    destruct (apiResourcesManager_ s); cbn; [ | reflexivity ].
    match goal with
    | |- context [isCustomConfigsLocation ?l] =>
        destruct (isCustomConfigsLocation l)
    end; reflexivity.
Qed.

(** ** The private-key password *)

Section PrivKeyPassword.
Variable platform : Platform.

(** X10.  On [PRIV_KEY_PASSWORD_ERROR] the Engine restores the
    disconnect side (the run of [doDisconnectRestoreStuff], which starts
    by giving the proxy settings back to the network manager, resetting
    the DNS configuration and the interface the firewall skips, and
    clearing the connecting IP and the DNS servers of the firewall
    exceptions), removes the stored private-key password of the current
    custom config and emits [requestPrivKeyPassword]; it requests no
    transition of the primary state and gives the ConnectionManager no
    command.  [isNeedReconnectAfterRequestAuth_] is set, so the password
    the user then enters is handed to the ConnectionManager with
    [bNeedReconnect] true. *)
Theorem privKeyPassword_error_asks_again :
  forall W (h : Oracle W) (s : Engine) (w : W) (file : QString),
    answers h CM_getCustomOvpnConfigFileName file ->
    let handler := onConnectionManagerError platform PRIV_KEY_PASSWORD_ERROR in
    let asked := after h handler s w in
    trace h handler s w =
      trace h (doDisconnectRestoreStuff platform) s w
      ++ [Ev CM_getCustomOvpnConfigFileName file;
          Ev (CRED_removePrivKeyPassword file) tt;
          Ev (Emit requestPrivKeyPassword) tt] /\
    (forall proxy,
        answers h PSC_getCurrentProxySettings proxy ->
        exists changedIp changedDns tail,
          trace h (doDisconnectRestoreStuff platform) s w =
            [Ev VS_onDisconnectedFromVPNEvent tt;
             Ev PSC_getCurrentProxySettings proxy;
             Ev (WSNet_setProxySettings (curlAddress proxy)
                   (getUsername proxy) (getPassword proxy)) tt;
             Ev DNS_setDisconnectedState tt]
            ++ (if is_posix platform
                then [Ev (FW_setInterfaceToSkip_posix "") tt] else [])
            ++ [Ev (FE_setConnectingIp "") changedIp;
                Ev (FE_setDNSServers []) changedDns]
            ++ tail) /\
    count is_primaryTransition (trace h handler s w) = 0%nat /\
    count is_connectionControl (trace h handler s w) = 0%nat /\
    isNeedReconnectAfterRequestAuth_ asked = true /\
    forall W' (h' : Oracle W') (w' : W') (password : QString) (bSave : bool),
      isEmpty password = false ->
      preceded_quietly is_connectionControl
        (trace h' (continueWithPrivKeyPasswordImpl password bSave) asked w')
        [Ev (CM_continueWithPrivKeyPassword password true) tt].
Proof.
  intros W h s w file Hfile handler asked.
  assert (Htrace :
    trace h handler s w =
      trace h (doDisconnectRestoreStuff platform) s w
      ++ [Ev CM_getCustomOvpnConfigFileName file;
          Ev (CRED_removePrivKeyPassword file) tt;
          Ev (Emit requestPrivKeyPassword) tt]).
  { subst handler. unfold onConnectionManagerError.
    rewrite !trace_bind. step. unfold answers in Hfile. rewrite Hfile.
    units. reflexivity. }
  assert (Hneed : isNeedReconnectAfterRequestAuth_ asked = true).
  { subst asked handler. unfold onConnectionManagerError.
    rewrite !after_bind. step. reflexivity. }
  split; [ exact Htrace | ].
  split; [ intros proxy Hproxy; now apply restore_resets | ].
  split; [ rewrite Htrace, count_app,
             (silent_count _ _ h s w (restore_no_primaryTransition platform));
           reflexivity | ].
  split; [ rewrite Htrace, count_app,
             (silent_count _ _ h s w (restore_no_control platform));
           reflexivity | ].
  split; [ exact Hneed | ].
  clearbody asked.
  intros W' h' w' password bSave Hpassword.
  unfold continueWithPrivKeyPasswordImpl. rewrite Hpassword.
  destruct bSave; by_run; rewrite Hneed; cbn; units;
    repeat (apply preceded_quietly_cons; [ reflexivity | ]);
    apply preceded_quietly_refl.
Qed.
End PrivKeyPassword.

(** ** The current network interface *)

Lemma NetworkInterface_eqb_eq a b :
  NetworkInterface_eqb a b = true <-> a = b.
Proof.
  unfold NetworkInterface_eqb. destruct a as [n1 i1 x1], b as [n2 i2 x2]. cbn.
  rewrite !andb_true_iff, !String.eqb_eq, Z.eqb_eq. split.
  - intros [[-> ->] ->]. reflexivity.
  - intros H. injection H as -> -> ->. repeat split.
Qed.

(** X11.  [updateCurrentNetworkInterfaceImpl] reports an interface once:
    it emits [networkChanged] with the current interface, as its last
    call, when no interface was recorded before or the recorded one
    differs, and it records that interface.  Run again while the network
    detection still answers the same interface, it only asks the network
    detection and emits nothing. *)
Theorem network_interface_reported_once :
  forall W (h : Oracle W) (s : Engine) (w : W)
         (networkInterface : NetworkInterface),
    answers h ND_getCurrentNetworkInterface networkInterface ->
    let tr := trace h updateCurrentNetworkInterfaceImpl s w in
    let recorded := after h updateCurrentNetworkInterfaceImpl s w in
    let changed :=
      negb (bPrevNetworkInterfaceInitialized_ s)
      || negb (NetworkInterface_eqb networkInterface (prevNetworkInterface_ s)) in
    (if changed
     then preceded_quietly is_networkChanged tr
            [Ev (Emit (networkChanged networkInterface)) tt]
     else tr = [Ev ND_getCurrentNetworkInterface networkInterface]) /\
    bPrevNetworkInterfaceInitialized_ recorded = true /\
    prevNetworkInterface_ recorded = networkInterface /\
    forall W' (h' : Oracle W') (w' : W'),
      answers h' ND_getCurrentNetworkInterface networkInterface ->
      trace h' updateCurrentNetworkInterfaceImpl recorded w' =
        [Ev ND_getCurrentNetworkInterface networkInterface].
Proof.
  intros W h s w n Hnet tr recorded changed.
  assert (Hrecorded :
    recorded = if changed then set_prevNetworkInterface_ n s else s).
  { subst recorded changed. unfold updateCurrentNetworkInterfaceImpl.
    unfold answers in Hnet. by_run. rewrite Hnet.
    destruct (negb (bPrevNetworkInterfaceInitialized_ s)
              || negb (NetworkInterface_eqb n (prevNetworkInterface_ s)));
      cbn; [ | reflexivity ].
    destruct (helper_ s); cbn; [ | reflexivity ].
    match goal with
    | |- context [CONNECT_STATE_eqb ?st CONNECT_STATE_DISCONNECTED] =>
        destruct (CONNECT_STATE_eqb st CONNECT_STATE_DISCONNECTED)
    end; reflexivity. }
  assert (Hinit : bPrevNetworkInterfaceInitialized_ recorded = true).
  { rewrite Hrecorded. subst changed.
    destruct (bPrevNetworkInterfaceInitialized_ s) eqn:E; cbn;
      [ | reflexivity ].
    destruct (NetworkInterface_eqb n (prevNetworkInterface_ s)); cbn;
      [ exact E | reflexivity ]. }
  assert (Hprev : prevNetworkInterface_ recorded = n).
  { rewrite Hrecorded. subst changed.
    destruct (bPrevNetworkInterfaceInitialized_ s); cbn; [ | reflexivity ].
    destruct (NetworkInterface_eqb n (prevNetworkInterface_ s)) eqn:E; cbn;
      [ | reflexivity ].
    symmetry. now apply NetworkInterface_eqb_eq. }
  split; [ | split; [ exact Hinit | split; [ exact Hprev | ] ] ].
  - subst tr changed. unfold updateCurrentNetworkInterfaceImpl.
    unfold answers in Hnet. by_run. rewrite Hnet.
    destruct (negb (bPrevNetworkInterfaceInitialized_ s)
              || negb (NetworkInterface_eqb n (prevNetworkInterface_ s)));
      cbn; [ | reflexivity ].
    destruct (helper_ s); cbn;
      [ match goal with
        | |- context [CONNECT_STATE_eqb ?st CONNECT_STATE_DISCONNECTED] =>
            destruct (CONNECT_STATE_eqb st CONNECT_STATE_DISCONNECTED)
        end; cbn | ];
      units;
      repeat (apply preceded_quietly_cons; [ reflexivity | ]);
      apply preceded_quietly_refl.
  - clear Hrecorded. clearbody recorded.
    intros W' h' w' Hnet'. unfold updateCurrentNetworkInterfaceImpl.
    unfold answers in Hnet'. by_run. rewrite Hnet', Hinit, Hprev.
    assert (Hsame : NetworkInterface_eqb n n = true)
      by now apply NetworkInterface_eqb_eq.
    rewrite Hsame. reflexivity.
Qed.

(** ** Login *)

Ltac login_blocks :=
  unfold finishEmergencyConnection, updateServerLocations,
    checkForceDisconnectNode, doCheckUpdate,
    updateCurrentNetworkInterfaceImpl, sendConnectStatus_disconnected.

(** Splits the run of [m ;; k] at a block [m] that makes no call seen by
    the classifier of the goal. *)
Ltac quiet_prefix :=
  rewrite trace_bind; apply preceded_quietly_app;
  [ match goal with
    | |- filter ?f (trace ?h ?m ?s ?w) = [] =>
        let H := fresh in
        assert (H : silent f m) by (login_blocks; walk_silent);
        apply H
    end
  | ].

Ltac quiet_tail :=
  repeat (apply preceded_quietly_cons; [ reflexivity | ]);
  apply preceded_quietly_refl.

Lemma count_cons_true f e tr :
  f e = true -> count f (e :: tr) = S (count f tr).
Proof. intros He. unfold count. cbn. now rewrite He. Qed.

Lemma loginImpl_saved_session_tail W (h : Oracle W) s w authHash portMap :
  answers h API_authHash authHash ->
  answers h API_portMap portMap ->
  let m :=
    finishEmergencyConnection ;;
    status <- call API_sessionStatus ;;
    emit (sessionStatusUpdated status) ;;
    updateServerLocations ;;
    call (MyIp_getIP 1) ;;
    doCheckUpdate ;;
    updateCurrentNetworkInterfaceImpl ;;
    authHash <- call API_authHash ;;
    portMap <- call API_portMap ;;
    emit (loginFinished true authHash portMap) in
  preceded_quietly is_loginFinished (trace h m s w)
    [Ev (Emit (loginFinished true authHash portMap)) tt] /\
  count is_apiCreate (trace h m s w) = 0%nat /\
  count is_apiLogin (trace h m s w) = 0%nat /\
  count is_connectionControl (trace h m s w) = 0%nat /\
  apiResourcesManager_ (after h m s w) = apiResourcesManager_ s /\
  signOutHelper_ (after h m s w) = signOutHelper_ s /\
  apiConnections (after h m s w) = apiConnections s.
Proof.
  intros Hhash Hmap m. unfold answers in *.
  assert (Hcreate : silent is_apiCreate m)
    by (subst m; login_blocks; walk_silent).
  assert (Hlogin : silent is_apiLogin m)
    by (subst m; login_blocks; walk_silent).
  assert (Hcontrol : silent is_connectionControl m)
    by (subst m; login_blocks; walk_silent).
  assert (Hapi : forall v, keeps (fun e => apiResourcesManager_ e = v) m)
    by (intros v; subst m; login_blocks;
        walk_keeps ltac:(intros ? H; exact H)).
  assert (Hhelper : forall v, keeps (fun e => signOutHelper_ e = v) m)
    by (intros v; subst m; login_blocks;
        walk_keeps ltac:(intros ? H; exact H)).
  assert (Hconns : forall v, keeps (fun e => apiConnections e = v) m)
    by (intros v; subst m; login_blocks;
        walk_keeps ltac:(intros ? H; exact H)).
  split; [ | now repeat split;
               first [ apply silent_count | apply Hapi | apply Hhelper
                     | apply Hconns ] ].
  subst m. do 7 quiet_prefix.
  by_run. rewrite Hhash, Hmap. units. quiet_tail.
Qed.

(** X12.  [loginImpl] drops the sign-out helper, creates one
    ApiResourcesManager and connects its six update signals; it gives the
    ConnectionManager no command.  With an auth hash whose resources load
    from the settings it finishes the login at once: [loginFinished(true,
    ...)] with the manager's auth hash and port map is its last call and
    [readyForLogin] stays unconnected.  Otherwise it emits no
    [loginFinished], connects [readyForLogin] once, and calls [login] with
    the credentials exactly when no auth hash is used. *)
Theorem loginImpl_finishes_or_waits :
  forall W (h : Oracle W) (s : Engine) (w : W) (isUseAuthHash loaded : bool)
         (username password code2fa authHash : QString) (portMap : PortMap),
    answers h API_loadFromSettings loaded ->
    answers h API_authHash authHash ->
    answers h API_portMap portMap ->
    let tr := trace h (loginImpl isUseAuthHash username password code2fa) s w in
    let s1 := after h (loginImpl isUseAuthHash username password code2fa) s w in
    let updates :=
      [SIG_loginFailed; SIG_sessionDeleted; SIG_sessionUpdated;
       SIG_locationsUpdated; SIG_staticIpsUpdated; SIG_notificationsUpdated] in
    apiResourcesManager_ s1 = true /\
    signOutHelper_ s1 = false /\
    count is_apiCreate tr = 1%nat /\
    count is_connectionControl tr = 0%nat /\
    (if isUseAuthHash then count is_apiLogin tr = 0%nat
     else preceded_quietly is_apiLogin tr
            [Ev (API_login username password code2fa) tt]) /\
    (if isUseAuthHash && loaded
     then preceded_quietly is_loginFinished tr
            [Ev (Emit (loginFinished true authHash portMap)) tt] /\
          apiConnections s1 = updates
     else count is_loginFinished tr = 0%nat /\
          apiConnections s1 = updates ++ [SIG_readyForLogin]).
Proof.
  intros W h s w flag loaded username password code2fa authHash portMap
    Hloaded Hhash Hmap tr s1 updates.
  subst tr s1 updates.
  destruct flag; [ destruct loaded | ]; cbn [andb].
  - (* an auth hash, and the resources load from the settings *)
    unfold loginImpl. unfold answers in Hloaded. step. rewrite Hloaded. step.
    match goal with
    | |- context [trace h ?m ?s0 ?w0] =>
        destruct (loginImpl_saved_session_tail W h s0 w0 authHash portMap
                    Hhash Hmap)
          as (Hlast & Hcreate & Hlogin & Hcontrol & Hapi & Hhelper & Hconns)
    end.
    cbv zeta in *.
    rewrite Hapi, Hhelper, Hconns.
    repeat split.
    + rewrite count_cons_true by reflexivity.
      rewrite !(count_cons_false is_apiCreate) by reflexivity.
      now rewrite Hcreate.
    + rewrite !(count_cons_false is_connectionControl) by reflexivity. exact Hcontrol.
    + now rewrite !(count_cons_false is_apiLogin) by reflexivity.
    + do 3 (apply preceded_quietly_cons; [ reflexivity | ]). exact Hlast.
  - unfold loginImpl. unfold answers in Hloaded. by_run. rewrite Hloaded.
    cbn. now repeat split.
  - unfold loginImpl. by_run. units.
    repeat split. quiet_tail.
Qed.

(** X13.  When [readyForLogin] arrives the Engine finishes the login
    once: the slot removes its connection to the signal, and its last
    call is [loginFinished(false, ...)] with the manager's auth hash and
    port map; it gives the ConnectionManager no command and keeps the
    other connections.  A second [readyForLogin] finds no connection and
    does nothing. *)
Theorem readyForLogin_finishes_once :
  forall W (h : Oracle W) (s : Engine) (w : W) (authHash : QString)
         (portMap : PortMap),
    existsb (ApiSignal_eqb SIG_readyForLogin) (apiConnections s) = true ->
    answers h API_authHash authHash ->
    answers h API_portMap portMap ->
    let tr := trace h readyForLogin s w in
    let s1 := after h readyForLogin s w in
    preceded_quietly is_loginFinished tr
      [Ev (Emit (loginFinished false authHash portMap)) tt] /\
    count is_connectionControl tr = 0%nat /\
    count is_apiCreate tr = 0%nat /\
    apiConnections s1 = withoutReadyForLogin (apiConnections s) /\
    forall W' (h' : Oracle W') (w' : W'),
      trace h' readyForLogin s1 w' = [].
Proof.
  intros W h s w authHash portMap Hconnected Hhash Hmap tr s1.
  assert (Hcontrol : silent is_connectionControl readyForLogin)
    by (unfold readyForLogin, onApiResourcesManagerReadyForLogin;
        login_blocks; walk_silent).
  assert (Hcreate : silent is_apiCreate readyForLogin)
    by (unfold readyForLogin, onApiResourcesManagerReadyForLogin;
        login_blocks; walk_silent).
  assert (Hconns :
    apiConnections s1 = withoutReadyForLogin (apiConnections s)).
  { subst s1. unfold readyForLogin. step. rewrite Hconnected.
    unfold onApiResourcesManagerReadyForLogin. rewrite after_bind. step.
    assert (Hkeep :
      forall v, keeps (fun e => apiConnections e = v)
        (finishEmergencyConnection ;;
         call (MyIp_getIP 1) ;;
         doCheckUpdate ;;
         updateCurrentNetworkInterfaceImpl ;;
         authHash <- call API_authHash ;;
         portMap <- call API_portMap ;;
         emit (loginFinished false authHash portMap)))
      by (intros v; login_blocks; walk_keeps ltac:(intros ? H; exact H)).
    now apply Hkeep. }
  split; [ | split; [ now apply silent_count
                    | split; [ now apply silent_count
                             | split; [ exact Hconns | ] ] ] ].
  - subst tr. unfold readyForLogin. step. rewrite Hconnected.
    unfold onApiResourcesManagerReadyForLogin. unfold answers in *.
    rewrite trace_bind. step.
    do 4 quiet_prefix.
    by_run. rewrite Hhash, Hmap. units. quiet_tail.
  - clearbody s1. intros W' h' w'. unfold readyForLogin. by_run.
    rewrite Hconns.
    assert (Hgone : forall l,
      existsb (ApiSignal_eqb SIG_readyForLogin) (withoutReadyForLogin l)
      = false).
    { induction l as [ | g l IH ]; [ reflexivity | ].
      destruct g; cbn; exact IH. }
    now rewrite Hgone.
Qed.

(** ** The connected event *)

Lemma surrounded_quietly_app f tr0 tr mid :
  filter f tr0 = [] ->
  surrounded_quietly f tr mid -> surrounded_quietly f (tr0 ++ tr) mid.
Proof.
  intros H0 (pre & post & -> & Hpre & Hpost). exists (tr0 ++ pre), post.
  split; [ now rewrite app_assoc | ].
  split; [ | exact Hpost ].
  rewrite count_app, Hpre. unfold count. now rewrite H0.
Qed.

Lemma surrounded_quietly_cons f e tr mid :
  f e = false ->
  surrounded_quietly f tr mid -> surrounded_quietly f (e :: tr) mid.
Proof.
  intros He H. apply (surrounded_quietly_app f [e] tr mid); [ | exact H ].
  cbn. now rewrite He.
Qed.

Lemma surrounded_quietly_here f mid post :
  filter f post = [] -> surrounded_quietly f (mid ++ post) mid.
Proof.
  intros Hpost. exists [], post. repeat split. unfold count. now rewrite Hpost.
Qed.

Section ConnectedEvent.
Variable platform : Platform.
Variables MTU_OFFSET_WG MTU_OFFSET_IKEV2 : Z.

Ltac connected_blocks :=
  unfold onConnected_adapter, onConnected_firewallAfter,
    onConnected_sendConnectStatus, onConnected_refreshFirewall,
    onConnected_customDns, onConnected_mtu, onConnected_finish,
    firewallOn_connected, loginImpl; login_blocks.

Lemma firewallAfter_rules W (h : Oracle W) s w :
  count is_firewallOn (trace h onConnected_firewallAfter s w) =
  (if value h onConnected_firewallAfter s w then 1 else 0)%nat.
Proof.
  unfold onConnected_firewallAfter, firewallOn_connected. by_run.
  destruct (is_automatic (mode (firewallSettings (engineSettings_ s))));
    cbn; [ | reflexivity ].
  destruct (fst (h bool CM_isAllowFirewallAfterConnection w)); cbn;
    destruct (is_after (when (firewallSettings (engineSettings_ s))));
    destruct (is_before (when (firewallSettings (engineSettings_ s))));
    cbn; trivial;
    match goal with
    | |- context [fst (h bool FW_firewallActualState ?w0)] =>
        destruct (fst (h bool FW_firewallActualState w0))
    end; reflexivity.
Qed.

Lemma refreshFirewall_rules W (h : Oracle W) s w flag :
  count is_firewallOn (trace h (onConnected_refreshFirewall flag) s w) =
  (if fst (h _ FW_firewallActualState w) && negb flag then 1 else 0)%nat.
Proof.
  unfold onConnected_refreshFirewall, firewallOn_connected. by_run.
  destruct (fst (h bool FW_firewallActualState w)), flag; reflexivity.
Qed.

(** X14.  The connected event writes the firewall rules at most once,
    whatever the collaborators answer: the rewrite of the rules of a
    firewall that is on is skipped when the automatic policy has just
    switched the firewall on.  When the firewall is reported on throughout,
    the rules are written exactly once. *)
Theorem connected_writes_firewall_rules_once :
  forall W (h : Oracle W) (s : Engine) (w : W),
    let tr := trace h (onConnectionManagerConnected platform MTU_OFFSET_WG
                         MTU_OFFSET_IKEV2) s w in
    (count is_firewallOn tr <= 1)%nat /\
    (answers h FW_firewallActualState true -> count is_firewallOn tr = 1%nat).
Proof.
  intros W h s w tr.
  assert (Hadapter : forall name,
    silent is_firewallOn (onConnected_adapter platform name))
    by (intros name; connected_blocks; walk_silent).
  assert (Hstatus : silent is_firewallOn onConnected_sendConnectStatus)
    by (connected_blocks; walk_silent).
  assert (Hrest : forall name,
    silent is_firewallOn
      (onConnected_customDns platform ;;
       onConnected_mtu MTU_OFFSET_WG MTU_OFFSET_IKEV2 name ;;
       onConnected_finish platform name))
    by (intros name; connected_blocks; walk_silent).
  assert (Hcount : exists w1 w2,
    count is_firewallOn tr =
    ((if value h onConnected_firewallAfter s w1 then 1 else 0)
     + (if fst (h _ FW_firewallActualState w2)
           && negb (value h onConnected_firewallAfter s w1)
        then 1 else 0))%nat).
  { subst tr. unfold onConnectionManagerConnected.
    rewrite trace_bind. cbv zeta. rewrite trace_bind.
    rewrite (trace_bind h onConnected_firewallAfter).
    rewrite (trace_bind h onConnected_sendConnectStatus).
    rewrite (trace_bind h (onConnected_refreshFirewall _)).
    rewrite ?after_bind.
    rewrite !count_app.
    rewrite after_call, onConnected_adapter_after.
    rewrite onConnected_firewallAfter_after,
      onConnected_sendConnectStatus_after.
    rewrite (silent_count _ _ h _ _ (Hadapter _)).
    rewrite (silent_count _ _ h _ _ Hstatus).
    rewrite (silent_count _ _ h _ _ (Hrest _)).
    rewrite firewallAfter_rules, refreshFirewall_rules.
    rewrite trace_call. cbn [count filter is_firewallOn List.length Nat.add].
    do 2 eexists. rewrite Nat.add_0_r. reflexivity. }
  destruct Hcount as (w1 & w2 & Hcount).
  split.
  - rewrite Hcount.
    destruct (value h onConnected_firewallAfter s w1);
      destruct (fst (h bool FW_firewallActualState w2)); cbn; lia.
  - intros Hon. rewrite Hcount. unfold answers in Hon. rewrite Hon.
    destruct (value h onConnected_firewallAfter s w1); reflexivity.
Qed.

Ltac surrounded_prefix :=
  rewrite trace_bind; apply surrounded_quietly_app;
  [ match goal with
    | |- filter ?f (trace ?h ?m ?s ?w) = [] =>
        let H := fresh in
        assert (H : silent f m) by (connected_blocks; walk_silent);
        apply H
    end
  | ].

Ltac quiet_connected :=
  rewrite trace_bind; apply preceded_quietly_app;
  [ match goal with
    | |- filter ?f (trace ?h ?m ?s ?w) = [] =>
        let H := fresh in
        assert (H : silent f m) by (connected_blocks; walk_silent);
        apply H
    end
  | ].

Ltac settle_after :=
  repeat match goal with
  | |- context [after ?h ?m ?s0 ?w0] =>
      let H := fresh in
      assert (H : after h m s0 w0 = s0)
        by (apply keeps_eq_after; intro; connected_blocks; walk_keeps fail);
      rewrite H; clear H
  end.

Lemma onConnected_mtu_after W (h : Oracle W) name s w :
  after h (onConnected_mtu MTU_OFFSET_WG MTU_OFFSET_IKEV2 name) s w = s.
Proof.
  apply keeps_eq_after. intro s0. unfold onConnected_mtu.
  walk_keeps fail.
Qed.

(** X15.  The connected event sets the primary state to Connected once,
    with the location the Engine holds, and starts the tunnel tests right
    after it; no other transition of the primary state and no other start
    of the tests is requested, and the ConnectionManager gets no connect or
    disconnect command.  Without an ApiResourcesManager the start of the
    tests is the last call of the slot. *)
Theorem connected_announces_then_tests :
  forall W (h : Oracle W) (s : Engine) (w : W),
    let tr := trace h (onConnectionManagerConnected platform MTU_OFFSET_WG
                         MTU_OFFSET_IKEV2) s w in
    let announce :=
      [Ev (CSC_setConnectedState Primary (locationId_ s)) tt;
       Ev CM_startTunnelTests tt] in
    surrounded_quietly is_primaryOrTests tr announce /\
    count is_connectionControl tr = 0%nat /\
    (apiResourcesManager_ s = false ->
     preceded_quietly is_primaryOrTests tr announce).
Proof.
  intros W h s w tr announce.
  assert (Hcontrol :
    silent is_connectionControl
      (onConnectionManagerConnected platform MTU_OFFSET_WG MTU_OFFSET_IKEV2))
    by (unfold onConnectionManagerConnected; connected_blocks; walk_silent).
  split; [ | split; [ now apply silent_count | ] ].
  - subst tr announce. unfold onConnectionManagerConnected.
    surrounded_prefix. cbv zeta.
    do 6 surrounded_prefix.
    rewrite after_call, onConnected_adapter_after,
      onConnected_firewallAfter_after, onConnected_sendConnectStatus_after,
      onConnected_refreshFirewall_after, onConnected_customDns_after,
      onConnected_mtu_after.
    unfold onConnected_finish.
    do 8 surrounded_prefix.
    settle_after.
    rewrite (trace_bind h (get locationId_)).
    rewrite (trace_bind h (call (CSC_setConnectedState _ _))).
    rewrite (trace_bind h (call CM_startTunnelTests)).
    run_cbn. units.
    match goal with
    | |- surrounded_quietly ?f (?a :: ?b :: ?post) _ =>
        apply (surrounded_quietly_here f [a; b] post)
    end.
    match goal with
    | |- filter ?f (trace ?h ?m ?s ?w) = [] =>
        let H := fresh in
        assert (H : silent f m) by (connected_blocks; walk_silent);
        apply H
    end.
  - intros Hnone. subst tr announce. unfold onConnectionManagerConnected.
    quiet_connected. cbv zeta.
    do 6 quiet_connected.
    rewrite after_call, onConnected_adapter_after,
      onConnected_firewallAfter_after, onConnected_sendConnectStatus_after,
      onConnected_refreshFirewall_after, onConnected_customDns_after,
      onConnected_mtu_after.
    unfold onConnected_finish.
    do 8 quiet_connected.
    settle_after.
    rewrite (trace_bind h (get locationId_)).
    rewrite (trace_bind h (call (CSC_setConnectedState _ _))).
    rewrite (trace_bind h (call CM_startTunnelTests)).
    by_run. rewrite Hnone. cbn. units.
    apply preceded_quietly_refl.
Qed.

Ltac disconnected_blocks :=
  unfold enableDohSettings, takeSenderSource, doDisconnectRestoreStuff,
    onDisconnected_followUp, signOutImplAfterDisconnect, connectClickImpl,
    connectClickImpl_proceed, addCustomRemoteIpToFirewallIfNeed,
    updateFirewallSettings, stopFetchingServerCredentials,
    connectClickImpl_firewallBefore, doConnect, firewallOn_connecting,
    firewallOn_connected, loginImpl; login_blocks.

(** Removes from a count the runs of the blocks that make no call the
    classifier selects. *)
Ltac drop_silent blocks :=
  repeat match goal with
  | |- context [count ?f (trace ?h ?m ?s0 ?w0)] =>
      let H := fresh in
      assert (H : silent f m) by (blocks; walk_silent);
      rewrite (silent_count f m h s0 w0 H); clear H
  end.

(** X16.  The firewall ports of a static-IP location follow the
    connection: the connected event whitelists the ports the
    ConnectionManager reports exactly when the location is a static-IP
    location, and the disconnected event deletes the whitelisted ports
    exactly then, whatever follows the disconnect. *)
Theorem static_ip_ports_follow_the_connection :
  forall W (h : Oracle W) (s : Engine) (w : W) (static : bool)
         (ports : StaticIpPortsVector) (reason : DISCONNECT_REASON),
    answers h CM_isStaticIpsLocation static ->
    answers h CM_getStatisIps ports ->
    filter is_whitelistPorts
      (trace h (onConnectionManagerConnected platform MTU_OFFSET_WG
                  MTU_OFFSET_IKEV2) s w) =
      (if static then [Ev (FW_whitelistPorts ports) tt] else []) /\
    count is_deleteWhitelistPorts
      (trace h (onConnectionManagerConnected platform MTU_OFFSET_WG
                  MTU_OFFSET_IKEV2) s w) = 0%nat /\
    count is_deleteWhitelistPorts
      (trace h (onConnectionManagerDisconnected platform reason) s w) =
      (if static then 1 else 0)%nat /\
    count is_whitelistPorts
      (trace h (onConnectionManagerDisconnected platform reason) s w) = 0%nat.
Proof.
  intros W h s w static ports reason Hstatic Hports.
  unfold answers in *.
  split; [ | split; [ | split ] ].
  - unfold onConnectionManagerConnected.
    rewrite trace_bind. cbv zeta. rewrite !trace_bind.
    unfold onConnected_finish. do 2 rewrite trace_bind.
    rewrite !filter_app.
    repeat match goal with
    | |- context [filter is_whitelistPorts (trace ?h ?m ?s0 ?w0)] =>
        let H := fresh in
        assert (H : silent is_whitelistPorts m)
          by (connected_blocks; walk_silent);
        rewrite (H _ h s0 w0); clear H
    end.
    rewrite !value_call, Hstatic. cbn [app]. rewrite app_nil_r.
    match goal with
    | |- context [trace h ?m ?s0 ?w0] => generalize s0 w0
    end.
    intros s0 w0.
    destruct static; by_run; rewrite ?Hports; units; reflexivity.
  - apply silent_count. unfold onConnectionManagerConnected.
    connected_blocks. walk_silent.
  - unfold onConnectionManagerDisconnected.
    rewrite !trace_bind, !count_app.
    drop_silent disconnected_blocks.
    rewrite !value_call, Hstatic.
    destruct static; by_run; units; reflexivity.
  - apply silent_count. unfold onConnectionManagerDisconnected.
    disconnected_blocks. walk_silent.
Qed.
End ConnectedEvent.

(** ** The emergency connection *)

(** X17.  The emergency connection has a path of its own.  Once the
    Engine is initialised, a click sets the emergency state and queues
    the matching slot, and that slot gives the EmergencyController its one
    command.  Neither the clicks, nor the slots, nor the end of the
    emergency connection request a transition of the primary state,
    command the ConnectionManager or touch the firewall, and none writes a
    member. *)
Theorem emergency_path_is_separate :
  forall (platform : Platform) W (h : Oracle W) (s : Engine) (w : W)
         (proxy : ProxySettings) (reason : DISCONNECT_REASON),
    bInitialized_ s = true ->
    answers h PSC_getCurrentProxySettings proxy ->
    let separate (m : M unit) :=
      count is_primaryTransition (trace h m s w) = 0%nat /\
      count is_connectionControl (trace h m s w) = 0%nat /\
      count is_firewallMutation (trace h m s w) = 0%nat /\
      after h m s w = s in
    trace h emergencyConnectClick s w =
      [Ev (CSC_setConnectingState Emergency LocationID_default) tt;
       Ev (Q_invokeMethod Slot_emergencyConnectClickImpl) tt] /\
    trace h (invoke platform Slot_emergencyConnectClickImpl) s w =
      [Ev PSC_getCurrentProxySettings proxy; Ev (EM_clickConnect proxy) tt] /\
    trace h emergencyDisconnectClick s w =
      [Ev (CSC_setDisconnectingState Emergency) tt;
       Ev (Q_invokeMethod Slot_emergencyDisconnectClickImpl) tt] /\
    trace h (invoke platform Slot_emergencyDisconnectClickImpl) s w =
      [Ev EM_clickDisconnect tt] /\
    preceded_quietly is_stateTransition
      (trace h (onEmergencyControllerDisconnected reason) s w)
      [Ev (CSC_setDisconnectedState Emergency reason NO_CONNECT_ERROR) tt;
       Ev (Emit emergencyDisconnected) tt] /\
    separate emergencyConnectClick /\
    separate (invoke platform Slot_emergencyConnectClickImpl) /\
    separate emergencyDisconnectClick /\
    separate (invoke platform Slot_emergencyDisconnectClickImpl) /\
    separate (onEmergencyControllerDisconnected reason).
Proof.
  intros platform W h s w proxy reason Hinit Hproxy separate.
  subst separate. unfold answers in *.
  unfold emergencyConnectClick, emergencyDisconnectClick, invoke,
    emergencyConnectClickImpl, emergencyDisconnectClickImpl,
    onEmergencyControllerDisconnected.
  repeat split; by_run; rewrite ?Hinit; cbn; rewrite ?Hproxy; units;
    try reflexivity.
  repeat (apply preceded_quietly_cons; [ reflexivity | ]).
  apply preceded_quietly_refl.
Qed.

(** ** Restoring the disconnect side *)

Lemma loginImpl_creates_once W (h : Oracle W) s w flag username password code :
  count is_apiCreate (trace h (loginImpl flag username password code) s w)
  = 1%nat.
Proof.
  unfold loginImpl.
  rewrite (trace_bind h (modify _)).
  rewrite (trace_bind h (call API_create)).
  rewrite !count_app.
  match goal with
  | |- context [count is_apiCreate (trace h ?m ?s0 ?w0)] =>
      match m with
      | bind _ _ =>
          let H := fresh in
          assert (H : silent is_apiCreate m) by (login_blocks; walk_silent);
          rewrite (silent_count is_apiCreate m h s0 w0 H)
      end
  end.
  reflexivity.
Qed.

(** X18.  [doDisconnectRestoreStuff] rewrites the rules of the firewall
    exactly when the firewall is on; it never switches the firewall off,
    reports no firewall change, requests no transition of the primary
    state and gives the ConnectionManager no command.  It logs in again
    with the stored auth hash exactly when [isIgnoreNoApiConnectivity_] is
    not set, an ApiResourcesManager exists and that manager is not logged
    in; otherwise the members stay as they are. *)
Theorem restore_rewrites_rules_and_logs_in_again :
  forall (platform : Platform) W (h : Oracle W) (s : Engine) (w : W)
         (on loggedIn : bool),
    answers h FW_firewallActualState on ->
    answers h API_isLoggedIn loggedIn ->
    let tr := trace h (doDisconnectRestoreStuff platform) s w in
    let again :=
      negb (isIgnoreNoApiConnectivity_ s) && apiResourcesManager_ s
      && negb loggedIn in
    count is_firewallOn tr = (if on then 1 else 0)%nat /\
    count is_firewallOff tr = 0%nat /\
    count is_firewallSignal tr = 0%nat /\
    count is_primaryTransition tr = 0%nat /\
    count is_connectionControl tr = 0%nat /\
    count is_apiCreate tr = (if again then 1 else 0)%nat /\
    (again = false -> after h (doDisconnectRestoreStuff platform) s w = s).
Proof.
  intros platform W h s w on loggedIn Hon Hlogged tr again.
  assert (Hsignal : silent is_firewallSignal (doDisconnectRestoreStuff platform))
    by (unfold doDisconnectRestoreStuff; walk_silent).
  split; [ | split; [ apply silent_count, restore_no_firewallOff
         | split; [ now apply silent_count
         | split; [ apply silent_count, restore_no_primaryTransition
         | split; [ apply silent_count, restore_no_control | ] ] ] ] ].
  - subst tr. unfold answers in *.
    unfold doDisconnectRestoreStuff, firewallOn_connecting.
    destruct platform; cbn [is_posix is_win is_mac]; step; rewrite Hon; destruct on; step; units;
      repeat (rewrite count_cons_false by reflexivity);
      rewrite ?count_cons_true by reflexivity;
      repeat (rewrite count_cons_false by reflexivity);
      match goal with
      | |- context [count is_firewallOn (trace h ?m ?s0 ?w0)] =>
          let H := fresh in
          assert (H : silent is_firewallOn m)
            by (login_blocks; unfold loginImpl; login_blocks; walk_silent);
          rewrite (silent_count is_firewallOn m h s0 w0 H)
      end; reflexivity.
  - subst tr again. unfold answers in *.
    unfold doDisconnectRestoreStuff, firewallOn_connecting.
    split.
    + destruct platform; cbn [is_posix is_win is_mac]; step; rewrite Hon; destruct on; step; units;
        repeat (rewrite count_cons_false by reflexivity);
        destruct (isIgnoreNoApiConnectivity_ s), (apiResourcesManager_ s);
        cbn [negb andb]; try reflexivity;
        step; rewrite Hlogged; destruct loggedIn; cbn [negb];
        try reflexivity;
        rewrite count_cons_false by reflexivity;
        apply loginImpl_creates_once.
    + intros Hnot.
      destruct platform; cbn [is_posix is_win is_mac]; step; rewrite Hon; destruct on; step;
        destruct (isIgnoreNoApiConnectivity_ s), (apiResourcesManager_ s);
        cbn [negb andb] in *; try reflexivity;
        step; rewrite Hlogged; rewrite Hnot; reflexivity.
Qed.

(** ** The clicks *)

Section Clicks.
Variable platform : Platform.

Lemma connectClickImpl_sets_location W (h : Oracle W) s w loc cs :
  locationId_ (after h (connectClickImpl platform loc cs) s w) = loc.
Proof.
  unfold connectClickImpl. rewrite after_bind.
  assert (Hkeep :
    keeps (fun e => locationId_ e = loc)
      (modify (set_connectionSettingsOverride_ cs) ;;
       disconnected <- call CM_isDisconnected ;;
       if negb disconnected then
         modify (set_senderSource (Some "reconnect")) ;;
         call CM_clickDisconnect
       else
         blocked <- get isBlockConnect_ ;;
         loc <- get locationId_ ;;
         if blocked && negb (isCustomConfigsLocation loc) then
           call (CSC_setDisconnectedState Primary DISCONNECTED_WITH_ERROR
                   CONNECTION_BLOCKED) ;;
           call (MyIp_getIP 1)
         else
           connectClickImpl_proceed platform)).
  { unfold connectClickImpl_proceed, connectClickImpl_firewallBefore,
      addCustomRemoteIpToFirewallIfNeed, updateFirewallSettings,
      stopFetchingServerCredentials, doConnect, firewallOn_connecting,
      firewallOn_connected.
    walk_keeps ltac:(intros ? H; exact H). }
  now apply Hkeep.
Qed.

(** X19.  [connectClick] and [disconnectClick] do nothing before the
    Engine is initialised.  Afterwards [connectClick] records the location,
    announces Connecting for it and queues [connectClickImpl] with its own
    arguments, and gives the ConnectionManager no command itself.  The
    queued slot writes its location again when it runs, so after it the
    Engine holds the location of that click, whatever was recorded in
    between. *)
Theorem connectClick_records_then_queues :
  forall W (h : Oracle W) (s : Engine) (w : W) (loc : LocationID)
         (cs : ConnectionSettings),
    (bInitialized_ s = false ->
     trace h (connectClick loc cs) s w = [] /\
     after h (connectClick loc cs) s w = s /\
     trace h disconnectClick s w = [] /\
     after h disconnectClick s w = s) /\
    (bInitialized_ s = true ->
     trace h (connectClick loc cs) s w =
       [Ev (CSC_setConnectingState Primary loc) tt;
        Ev (Q_invokeMethod (Slot_connectClickImpl loc cs)) tt] /\
     after h (connectClick loc cs) s w = set_locationId_ loc s) /\
    (forall W' (h' : Oracle W') (s' : Engine) (w' : W'),
        locationId_
          (after h' (invoke platform (Slot_connectClickImpl loc cs)) s' w')
        = loc).
Proof.
  intros W h s w loc cs. split; [ | split ].
  - intros Hinit. unfold connectClick, disconnectClick.
    repeat split; by_run; rewrite Hinit; reflexivity.
  - intros Hinit. unfold connectClick.
    split; by_run; rewrite Hinit; cbn; units; reflexivity.
  - intros W' h' s' w'. unfold invoke.
    apply connectClickImpl_sets_location.
Qed.
End Clicks.

(** ** The remote host of the extra config *)

(** X20.  [addCustomRemoteIpToFirewallIfNeed] never gives the firewall
    exceptions an empty address and sets the custom remote IP at most once;
    it makes a DNS lookup only for a host that is not an IP address; it
    never switches the firewall off, reports no firewall change and leaves
    the members as they are.  When the host is a domain name whose lookup
    fails or yields no address, the detected IP is cleared and nothing is
    whitelisted. *)
Theorem custom_remote_ip_is_never_empty :
  forall W (h : Oracle W) (s : Engine) (w : W),
    let tr := trace h addCustomRemoteIpToFirewallIfNeed s w in
    count is_setCustomRemoteIpEmpty tr = 0%nat /\
    (count is_setCustomRemoteIp tr <= 1)%nat /\
    count is_firewallOff tr = 0%nat /\
    count is_firewallSignal tr = 0%nat /\
    count is_connectionControl tr = 0%nat /\
    after h addCustomRemoteIpToFirewallIfNeed s w = s /\
    (forall host,
        answers h EC_getRemoteIpFromExtraConfig host ->
        answers h (IpValidation_isIp host) true ->
        count is_dnsLookup tr = 0%nat) /\
    (forall host res,
        answers h EC_getRemoteIpFromExtraConfig host ->
        isEmpty host = false ->
        answers h (IpValidation_isIp host) false ->
        answers h (IpValidation_isDomain host) true ->
        answers h (WSNet_lookupBlocked host) res ->
        isError res = true \/ ips res = [] ->
        tr = [Ev EC_getRemoteIpFromExtraConfig host;
              Ev (IpValidation_isIp host) false;
              Ev (IpValidation_isDomain host) true;
              Ev (WSNet_lookupBlocked host) res;
              Ev (EC_setDetectedIp "") tt]).
Proof.
  intros W h s w tr.
  assert (Hoff : silent is_firewallOff addCustomRemoteIpToFirewallIfNeed)
    by (unfold addCustomRemoteIpToFirewallIfNeed, updateFirewallSettings,
          firewallOn_connecting, firewallOn_connected; walk_silent).
  assert (Hsignal : silent is_firewallSignal addCustomRemoteIpToFirewallIfNeed)
    by (unfold addCustomRemoteIpToFirewallIfNeed, updateFirewallSettings,
          firewallOn_connecting, firewallOn_connected; walk_silent).
  assert (Hcontrol :
    silent is_connectionControl addCustomRemoteIpToFirewallIfNeed)
    by (unfold addCustomRemoteIpToFirewallIfNeed, updateFirewallSettings,
          firewallOn_connecting, firewallOn_connected; walk_silent).
  assert (Hupdate_empty : silent is_setCustomRemoteIpEmpty updateFirewallSettings)
    by (unfold updateFirewallSettings, firewallOn_connecting,
          firewallOn_connected; walk_silent).
  assert (Hupdate_set : silent is_setCustomRemoteIp updateFirewallSettings)
    by (unfold updateFirewallSettings, firewallOn_connecting,
          firewallOn_connected; walk_silent).
  split; [ | split; [ | split; [ now apply silent_count
         | split; [ now apply silent_count
         | split; [ now apply silent_count
         | split; [ apply addCustomRemoteIp_after | split ] ] ] ] ] ].
  - subst tr. unfold addCustomRemoteIpToFirewallIfNeed. step.
    destruct (isEmpty (fst (h QString EC_getRemoteIpFromExtraConfig w)))
      eqn:Hhost; step; [ reflexivity | ].
    repeat match goal with
    | |- context [if fst (h bool ?c ?w0) then _ else _] =>
        destruct (fst (h bool c w0)) eqn:?; step
    | |- context [match isError ?r with _ => _ end] =>
        destruct (isError r) eqn:?; step
    | |- context [match ips ?r with _ => _ end] =>
        destruct (ips r) eqn:?; step
    | |- context [if negb (isEmpty ?x) then _ else _] =>
        destruct (isEmpty x) eqn:?; step
    end;
    unfold count; cbn [filter is_setCustomRemoteIpEmpty List.length];
    rewrite ?filter_app, ?Hupdate_empty;
    try match goal with
    | H : isEmpty ?x = false |- context [isEmpty ?x] => rewrite H
    end; try reflexivity.
  - subst tr. unfold addCustomRemoteIpToFirewallIfNeed. step.
    destruct (isEmpty (fst (h QString EC_getRemoteIpFromExtraConfig w)))
      eqn:Hhost; step; [ cbn; lia | ].
    repeat match goal with
    | |- context [if fst (h bool ?c ?w0) then _ else _] =>
        destruct (fst (h bool c w0)) eqn:?; step
    | |- context [match isError ?r with _ => _ end] =>
        destruct (isError r) eqn:?; step
    | |- context [match ips ?r with _ => _ end] =>
        destruct (ips r) eqn:?; step
    | |- context [if negb (isEmpty ?x) then _ else _] =>
        destruct (isEmpty x) eqn:?; step
    end;
    unfold count; cbn [filter is_setCustomRemoteIp List.length];
    rewrite ?filter_app, ?Hupdate_set; cbn; lia.
  - intros host Hhost Hip. subst tr. unfold answers in *.
    assert (Hupdate : silent is_dnsLookup updateFirewallSettings)
      by (unfold updateFirewallSettings, firewallOn_connecting,
            firewallOn_connected; walk_silent).
    unfold addCustomRemoteIpToFirewallIfNeed. step. rewrite Hhost.
    destruct (isEmpty host) eqn:Hempty; step; [ reflexivity | ].
    rewrite Hip. step. rewrite Hempty. step.
    match goal with
    | |- context [if fst (h bool ?c ?w0) then _ else _] =>
        destruct (fst (h bool c w0)); step
    end;
    unfold count; cbn [filter is_dnsLookup List.length];
    rewrite ?Hupdate; reflexivity.
  - intros host res Hhost Hempty Hip Hdomain Hres Hfailed. subst tr.
    unfold answers in *.
    unfold addCustomRemoteIpToFirewallIfNeed. by_run.
    rewrite Hhost, Hempty. cbn. rewrite Hip. cbn. rewrite Hdomain. cbn.
    rewrite Hres.
    destruct Hfailed as [Herror | Hnone].
    + rewrite Herror. cbn. units. reflexivity.
    + rewrite Hnone. destruct (isError res); cbn; units; reflexivity.
Qed.

(** ** Updates of the server locations *)

(** X21.  An update of the server locations never touches the connection:
    [updateServerLocations], and with it the slots for new static IPs and
    for changed custom configs, request no transition of the primary state,
    give the ConnectionManager no command and write no member.  The custom
    config locations are set on every update, the API locations before
    them exactly when an ApiResourcesManager exists.
    [checkForceDisconnectNode] only asks whether the ConnectionManager is
    disconnected, whatever nodes it is given. *)
Theorem location_updates_keep_the_connection :
  forall W (h : Oracle W) (s : Engine) (w : W) (nodes : QStringList)
         (locations : ApiLocations) (staticIps : StaticIps)
         (configs : CustomConfigList),
    answers h API_locations locations ->
    answers h API_staticIps staticIps ->
    answers h CC_getConfigs configs ->
    let tr := trace h updateServerLocations s w in
    trace h onApiResourcesManagerStaticIpsUpdated s w = tr /\
    trace h onCustomConfigsChanged s w = tr /\
    count is_primaryTransition tr = 0%nat /\
    count is_connectionControl tr = 0%nat /\
    after h updateServerLocations s w = s /\
    filter is_setLocations tr =
      (if apiResourcesManager_ s
       then [Ev (LM_setApiLocations locations staticIps) tt]
       else [])
      ++ [Ev (LM_setCustomConfigLocations configs) tt] /\
    trace h (checkForceDisconnectNode nodes) s w =
      [Ev CM_isDisconnected (fst (h _ CM_isDisconnected w))].
Proof.
  intros W h s w nodes locations staticIps configs Hlocations Hstatic Hconfigs
    tr.
  subst tr. unfold answers in *.
  assert (Hprimary : silent is_primaryTransition updateServerLocations)
    by (login_blocks; walk_silent).
  assert (Hcontrol : silent is_connectionControl updateServerLocations)
    by (login_blocks; walk_silent).
  split; [ reflexivity | ].
  split; [ reflexivity | ].
  split; [ now apply silent_count | ].
  split; [ now apply silent_count | ].
  split; [ apply keeps_eq_after; intro; login_blocks; walk_keeps fail | ].
  split.
  - unfold updateServerLocations, checkForceDisconnectNode. by_run.
    destruct (apiResourcesManager_ s); cbn;
      rewrite ?Hlocations, ?Hstatic, ?Hconfigs; units;
      cbn [filter is_setLocations];
      repeat match goal with
      | |- context [if negb ?b then _ else _] => destruct b; cbn
      end; reflexivity.
  - unfold checkForceDisconnectNode. by_run.
    destruct (fst (h bool CM_isDisconnected w)); reflexivity.
Qed.

(** ** The manual firewall switch *)

(** X22.  The manual switch does not depend on the firewall policy or on
    the state of the firewall: [firewallOnImpl] never asks for the state
    of the firewall, and its run is the same for any two states of the
    Engine that agree on the LAN-traffic setting and the location, so the
    firewall mode and timing do not matter.  It writes the rules once,
    those of the connected state exactly when the primary state is
    Connected, and reports the firewall on as its last call;
    [firewallOffImpl] switches the firewall off and reports that.  The
    rules [firewallOnImpl] writes are the rules [updateFirewallSettings]
    writes for a firewall that is on.  Neither slot gives the
    ConnectionManager a command or writes a member. *)
Theorem manual_firewall_switch :
  forall W (h : Oracle W) (s : Engine) (w : W)
         (st : CONNECT_STATE) (ip ipConnected : QString)
         (allowed allowedConnected : QStringList),
    answers h (CSC_currentState Primary) st ->
    answers h FE_connectingIp ip ->
    answers h FE_getIPAddressesForFirewall allowed ->
    answers h CM_getLastConnectedIp ipConnected ->
    answers h FE_getIPAddressesForFirewallForConnectedState allowedConnected ->
    let lan := isAllowLanTraffic (engineSettings_ s) in
    let custom := isCustomConfigsLocation (locationId_ s) in
    let rules :=
      if CONNECT_STATE_eqb st CONNECT_STATE_CONNECTED
      then Ev (FW_firewallOn ipConnected allowedConnected lan custom) tt
      else Ev (FW_firewallOn ip allowed lan custom) tt in
    filter is_firewallMutation (trace h firewallOnImpl s w) = [rules] /\
    preceded_quietly is_firewallSignal (trace h firewallOnImpl s w)
      [Ev (Emit (firewallStateChanged true)) tt] /\
    count is_firewallStateQuery (trace h firewallOnImpl s w) = 0%nat /\
    (forall s' : Engine,
        isAllowLanTraffic (engineSettings_ s') =
          isAllowLanTraffic (engineSettings_ s) ->
        locationId_ s' = locationId_ s ->
        trace h firewallOnImpl s' w = trace h firewallOnImpl s w) /\
    (answers h FW_firewallActualState true ->
     filter is_firewallMutation (trace h updateFirewallSettings s w) = [rules]) /\
    trace h firewallOffImpl s w =
      [Ev FW_firewallOff tt; Ev (Emit (firewallStateChanged false)) tt] /\
    count is_connectionControl (trace h firewallOnImpl s w) = 0%nat /\
    after h firewallOnImpl s w = s /\
    after h firewallOffImpl s w = s.
Proof.
  intros W h s w st ip ipConnected allowed allowedConnected
    Hst Hip Hallowed HipC HallowedC lan custom rules.
  subst lan custom rules. unfold answers in *.
  unfold firewallOnImpl, firewallOffImpl, updateFirewallSettings,
    firewallOn_connecting, firewallOn_connected.
  repeat split; first [ intros s' Hlan Hloc | intros Hon | idtac ]; by_run;
    rewrite ?Hon; cbn; rewrite ?Hst;
    destruct (CONNECT_STATE_eqb st CONNECT_STATE_CONNECTED); cbn;
    rewrite ?Hip, ?Hallowed, ?HipC, ?HallowedC, ?Hlan, ?Hloc; units;
    try reflexivity;
    repeat (apply preceded_quietly_cons; [ reflexivity | ]);
    apply preceded_quietly_refl.
Qed.

(** ** The further properties at concrete inputs *)

(** The firewall is on and the tunnel is up: the rules of the connected
    state are written once. *)
Lemma updateFirewallSettings_only_refreshes_witness :
  trace (stateless connectedFirewalled) updateFirewallSettings engine0 tt =
    [Ev FW_firewallActualState true;
     Ev (CSC_currentState Primary) CONNECT_STATE_CONNECTED;
     Ev CM_getLastConnectedIp "185.232.22.58";
     Ev FE_getIPAddressesForFirewallForConnectedState [];
     Ev (FW_firewallOn "185.232.22.58" [] false false) tt] /\
  after (stateless connectedFirewalled) updateFirewallSettings engine0 tt
  = engine0.
Proof.
  destruct (updateFirewallSettings_only_refreshes unit
              (stateless connectedFirewalled) engine0 tt true
              CONNECT_STATE_CONNECTED "" "185.232.22.58" [] [])
    as (Htrace & Hafter & _).
  - intro w. reflexivity.
  - intro w. reflexivity.
  - intro w. reflexivity.
  - intro w. reflexivity.
  - intro w. reflexivity.
  - intro w. reflexivity.
  - split; [ exact Htrace | exact Hafter ].
Defined.

(** The tunnel drops and the ConnectionManager reconnects while the
    firewall is on. *)
Lemma reconnecting_keeps_firewall_state_witness :
  count is_firewallOff
    (trace (stateless connectedFirewalled) onConnectionManagerReconnecting
       engine0 tt) = 0%nat /\
  count is_connectionControl
    (trace (stateless connectedFirewalled) onConnectionManagerReconnecting
       engine0 tt) = 0%nat.
Proof.
  destruct (reconnecting_keeps_firewall_state unit
              (stateless connectedFirewalled) engine0 tt true "" [])
    as (_ & _ & _ & Hoff & Hcontrol).
  - intro w. reflexivity.
  - intro w. reflexivity.
  - intro w. reflexivity.
  - split; [ exact Hoff | exact Hcontrol ].
Defined.

(** No tunnel adapter is installed on Windows. *)
Lemma other_errors_are_terminal_witness :
  trace (stateless idle) (onConnectionManagerError Q_OS_WIN NO_INSTALLED_TUN_TAP)
    engine0 tt =
    [Ev (CSC_setDisconnectedState Primary DISCONNECTED_WITH_ERROR
           WINTUN_FATAL_ERROR) tt].
Proof.
  destruct (other_errors_are_terminal Q_OS_WIN unit (stateless idle) engine0 tt
              NO_INSTALLED_TUN_TAP) as (_ & _ & _ & _ & _ & Hwin).
  - discriminate.
  - discriminate.
  - exact (Hwin eq_refl).
Defined.

(** A sign-out that keeps the firewall on. *)
Lemma signOut_keeps_firewall_when_asked_witness :
  count is_firewallOff
    (trace (stateless account) (signOutImplAfterDisconnect Q_OS_LINUX true)
       engine0 tt) = 0%nat /\
  apiResourcesManager_
    (after (stateless account) (signOutImplAfterDisconnect Q_OS_LINUX true)
       engine0 tt) = false.
Proof.
  destruct (signOut_keeps_firewall_when_asked Q_OS_LINUX unit
              (stateless account) engine0 tt true "")
    as (_ & Hnone & _ & Hoff & _).
  - intro w. reflexivity.
  - split; [ exact Hoff | exact Hnone ].
Defined.

(** A sign-out while connected, then the disconnected event. *)
Lemma signOut_goes_through_disconnect_witness :
  trace (stateless idle) (signOutImpl Q_OS_LINUX false) engine0 tt =
    [Ev CM_isDisconnected false; Ev CM_clickDisconnect tt] /\
  count is_firewallOff
    (trace (stateless account)
       (onConnectionManagerDisconnected Q_OS_LINUX DISCONNECTED_BY_USER)
       (after (stateless idle) (signOutImpl Q_OS_LINUX false) engine0 tt) tt)
  = 1%nat.
Proof.
  destruct (signOut_goes_through_disconnect Q_OS_LINUX unit unit
              (stateless idle) (stateless account) engine0 tt tt false
              DISCONNECTED_BY_USER)
    as (Hrequest & _ & _ & Hoff & _).
  - intro w. reflexivity.
  - split; [ exact Hrequest | exact Hoff ].
Defined.

(** The user disconnects with the automatic firewall on. *)
Lemma plain_disconnect_settles_witness :
  count is_firewallOff
    (trace (stateless connectedFirewalled)
       (onConnectionManagerDisconnected Q_OS_LINUX DISCONNECTED_BY_USER)
       engine0 tt) = 1%nat /\
  count is_connectionControl
    (trace (stateless connectedFirewalled)
       (onConnectionManagerDisconnected Q_OS_LINUX DISCONNECTED_BY_USER)
       engine0 tt) = 0%nat.
Proof.
  destruct (plain_disconnect_settles Q_OS_LINUX unit
              (stateless connectedFirewalled) engine0 tt DISCONNECTED_BY_USER
              true)
    as (_ & Hoff & _ & _ & _ & Hcontrol).
  - reflexivity.
  - intro w. reflexivity.
  - split; [ exact Hoff | exact Hcontrol ].
Defined.

(** A disconnect while a reconnect is pending. *)
Lemma disconnect_cancels_follow_up_witness :
  trace (stateless idle) disconnectClickImpl
    (set_senderSource (Some "reconnect") engine0) tt =
    [Ev CM_clickDisconnect tt] /\
  trace (stateless ready) serverCredentialsFetched
    (after (stateless idle) disconnectClickImpl
       (set_senderSource (Some "reconnect") engine0) tt) tt = [].
Proof.
  destruct (disconnect_cancels_follow_up Q_OS_LINUX unit (stateless idle)
              (set_senderSource (Some "reconnect") engine0) tt)
    as (Htrace & _ & _ & _ & Hquiet).
  split; [ exact Htrace | ].
  exact (Hquiet eq_refl unit (stateless ready) tt).
Defined.

(** A connect to Zurich while the retry of an authentication error is
    armed. *)
Lemma connect_disarms_credentials_retry_witness :
  trace (stateless ready) serverCredentialsFetched
    (after (stateless ready) (connectClickImpl Q_OS_LINUX zurich wireGuard443)
       (set_apiConnections [SIG_serverCredentialsFetched] engine0) tt) tt
  = [].
Proof.
  destruct (connect_disarms_credentials_retry Q_OS_LINUX unit (stateless ready)
              (set_apiConnections [SIG_serverCredentialsFetched] engine0) tt
              zurich wireGuard443)
    as (_ & Hquiet).
  - intro w. reflexivity.
  - reflexivity.
  - reflexivity.
  - exact (Hquiet unit (stateless ready) tt).
Defined.

(** A connect with the one-time override WireGuard on port 443. *)
Lemma doConnect_connection_settings_witness :
  filter is_connectionManagerCall
    (trace (stateless ready) (doConnect true)
       (set_connectionSettingsOverride_ wireGuard443 engine0) tt) =
    [Ev (CM_setLastKnownGoodProtocol WIREGUARD) tt;
     Ev (CM_clickConnect "" ServerCredentials_empty (LocationInfo 7)
           wireGuard443 PortMap_empty noProxy true "") tt] /\
  after (stateless ready) (doConnect true)
    (set_connectionSettingsOverride_ wireGuard443 engine0) tt =
  set_locationName_ ""
    (set_connectionSettingsOverride_ wireGuard443 engine0).
Proof.
  destruct (doConnect_connection_settings unit (stateless ready)
              (set_connectionSettingsOverride_ wireGuard443 engine0) tt true
              (LocationInfo 7) "" "" NetworkInterface_default
              ServerCredentials_empty PortMap_empty noProxy)
    as (_ & Hcalls & Hafter).
  - intro w. reflexivity.
  - intro w. reflexivity.
  - intro w. reflexivity.
  - intro w. reflexivity.
  - intro w. reflexivity.
  - intro w. reflexivity.
  - intro w. reflexivity.
  - intro w. reflexivity.
  - split; [ exact Hcalls | exact Hafter ].
Defined.

(** The private key of the custom config office.ovpn needs a password. *)
Lemma privKeyPassword_error_asks_again_witness :
  isNeedReconnectAfterRequestAuth_
    (after (stateless customConfig)
       (onConnectionManagerError Q_OS_LINUX PRIV_KEY_PASSWORD_ERROR)
       engine0 tt) = true /\
  count is_connectionControl
    (trace (stateless customConfig)
       (onConnectionManagerError Q_OS_LINUX PRIV_KEY_PASSWORD_ERROR)
       engine0 tt) = 0%nat /\
  exists changedIp changedDns tail,
    trace (stateless customConfig) (doDisconnectRestoreStuff Q_OS_LINUX)
      engine0 tt =
      [Ev VS_onDisconnectedFromVPNEvent tt;
       Ev PSC_getCurrentProxySettings noProxy;
       Ev (WSNet_setProxySettings "" "" "") tt;
       Ev DNS_setDisconnectedState tt;
       Ev (FW_setInterfaceToSkip_posix "") tt;
       Ev (FE_setConnectingIp "") changedIp;
       Ev (FE_setDNSServers []) changedDns]
      ++ tail.
Proof.
  destruct (privKeyPassword_error_asks_again Q_OS_LINUX unit
              (stateless customConfig) engine0 tt "office.ovpn")
    as (_ & Hrestore & _ & Hcontrol & Hneed & _).
  - intro w. reflexivity.
  - split; [ exact Hneed | split; [ exact Hcontrol | ] ].
    apply (Hrestore noProxy). intro w. reflexivity.
Defined.

(** The first report of the network interface, and the next one. *)
Lemma network_interface_reported_once_witness :
  trace (stateless idle) updateCurrentNetworkInterfaceImpl
    (after (stateless idle) updateCurrentNetworkInterfaceImpl engine0 tt) tt =
    [Ev ND_getCurrentNetworkInterface NetworkInterface_default].
Proof.
  destruct (network_interface_reported_once unit (stateless idle) engine0 tt
              NetworkInterface_default)
    as (_ & _ & _ & Hagain).
  - intro w. reflexivity.
  - apply Hagain. intro w. reflexivity.
Defined.

(** A login with user name and password. *)
Lemma loginImpl_finishes_or_waits_witness :
  count is_loginFinished
    (trace (stateless idle) (loginImpl false "alice" "hunter2" "")
       engineCreated tt) = 0%nat /\
  apiConnections
    (after (stateless idle) (loginImpl false "alice" "hunter2" "")
       engineCreated tt) =
    [SIG_loginFailed; SIG_sessionDeleted; SIG_sessionUpdated;
     SIG_locationsUpdated; SIG_staticIpsUpdated; SIG_notificationsUpdated;
     SIG_readyForLogin].
Proof.
  destruct (loginImpl_finishes_or_waits unit (stateless idle) engineCreated tt
              false false "alice" "hunter2" "" "" PortMap_empty)
    as (_ & _ & _ & _ & _ & Hquiet & Hconnections).
  - intro w. reflexivity.
  - intro w. reflexivity.
  - intro w. reflexivity.
  - split; [ exact Hquiet | exact Hconnections ].
Defined.

(** The API resources arrive after that login. *)
Lemma readyForLogin_finishes_once_witness :
  apiConnections
    (after (stateless idle) readyForLogin
       (set_apiConnections [SIG_loginFailed; SIG_readyForLogin] engine0) tt)
  = [SIG_loginFailed].
Proof.
  destruct (readyForLogin_finishes_once unit (stateless idle)
              (set_apiConnections [SIG_loginFailed; SIG_readyForLogin] engine0)
              tt "" PortMap_empty)
    as (_ & _ & _ & Hconnections & _).
  - reflexivity.
  - intro w. reflexivity.
  - intro w. reflexivity.
  - exact Hconnections.
Defined.

(** The tunnel comes up while the firewall is on. *)
Lemma connected_writes_firewall_rules_once_witness :
  count is_firewallOn
    (trace (stateless connectedFirewalled)
       (onConnectionManagerConnected Q_OS_LINUX 80 80) engine0 tt) = 1%nat.
Proof.
  destruct (connected_writes_firewall_rules_once Q_OS_LINUX 80 80 unit
              (stateless connectedFirewalled) engine0 tt) as (_ & Honce).
  apply Honce. intro w. reflexivity.
Defined.

(** The tunnel of a custom config comes up without a login. *)
Lemma connected_announces_then_tests_witness :
  preceded_quietly is_primaryOrTests
    (trace (stateless ready) (onConnectionManagerConnected Q_OS_LINUX 80 80)
       engineCreated tt)
    [Ev (CSC_setConnectedState Primary LocationID_default) tt;
     Ev CM_startTunnelTests tt].
Proof.
  destruct (connected_announces_then_tests Q_OS_LINUX 80 80 unit
              (stateless ready) engineCreated tt) as (_ & _ & Hlast).
  exact (Hlast eq_refl).
Defined.

(** A static-IP location with three ports. *)
Lemma static_ip_ports_follow_the_connection_witness :
  filter is_whitelistPorts
    (trace (stateless staticIpLocation)
       (onConnectionManagerConnected Q_OS_LINUX 80 80) engine0 tt) =
    [Ev (FW_whitelistPorts (StaticIpPorts 3)) tt] /\
  count is_deleteWhitelistPorts
    (trace (stateless staticIpLocation)
       (onConnectionManagerDisconnected Q_OS_LINUX DISCONNECTED_BY_USER)
       engine0 tt) = 1%nat.
Proof.
  destruct (static_ip_ports_follow_the_connection Q_OS_LINUX 80 80 unit
              (stateless staticIpLocation) engine0 tt true (StaticIpPorts 3)
              DISCONNECTED_BY_USER)
    as (Hadded & _ & Hdeleted & _).
  - intro w. reflexivity.
  - intro w. reflexivity.
  - split; [ exact Hadded | exact Hdeleted ].
Defined.

(** An emergency connect on the initialised Engine. *)
Lemma emergency_path_is_separate_witness :
  trace (stateless idle) emergencyConnectClick engine0 tt =
    [Ev (CSC_setConnectingState Emergency LocationID_default) tt;
     Ev (Q_invokeMethod Slot_emergencyConnectClickImpl) tt] /\
  trace (stateless idle) (invoke Q_OS_LINUX Slot_emergencyConnectClickImpl)
    engine0 tt =
    [Ev PSC_getCurrentProxySettings noProxy; Ev (EM_clickConnect noProxy) tt].
Proof.
  destruct (emergency_path_is_separate Q_OS_LINUX unit (stateless idle) engine0
              tt noProxy DISCONNECTED_ITSELF)
    as (Hclick & Hslot & _).
  - reflexivity.
  - intro w. reflexivity.
  - split; [ exact Hclick | exact Hslot ].
Defined.

(** The disconnect side is restored while the firewall is on and the
    session is logged in. *)
Lemma restore_rewrites_rules_and_logs_in_again_witness :
  count is_firewallOn
    (trace (stateless connectedFirewalled) (doDisconnectRestoreStuff Q_OS_LINUX)
       engine0 tt) = 1%nat /\
  after (stateless connectedFirewalled) (doDisconnectRestoreStuff Q_OS_LINUX)
    engine0 tt = engine0.
Proof.
  destruct (restore_rewrites_rules_and_logs_in_again Q_OS_LINUX unit
              (stateless connectedFirewalled) engine0 tt true true)
    as (Hrules & _ & _ & _ & _ & _ & Hafter).
  - intro w. reflexivity.
  - intro w. reflexivity.
  - split; [ exact Hrules | exact (Hafter eq_refl) ].
Defined.

(** A connect click before and after initialisation. *)
Lemma connectClick_records_then_queues_witness :
  trace (stateless idle) (connectClick zurich wireGuard443) engineCreated tt
  = [] /\
  trace (stateless idle) (connectClick zurich wireGuard443) engine0 tt =
    [Ev (CSC_setConnectingState Primary zurich) tt;
     Ev (Q_invokeMethod (Slot_connectClickImpl zurich wireGuard443)) tt].
Proof.
  split.
  - destruct (connectClick_records_then_queues Q_OS_LINUX unit (stateless idle)
                engineCreated tt zurich wireGuard443) as (Hbefore & _).
    destruct (Hbefore eq_refl) as (Htrace & _). exact Htrace.
  - destruct (connectClick_records_then_queues Q_OS_LINUX unit (stateless idle)
                engine0 tt zurich wireGuard443) as (_ & Hafter & _).
    destruct (Hafter eq_refl) as (Htrace & _). exact Htrace.
Defined.

(** The remote host of the extra config does not resolve. *)
Lemma custom_remote_ip_is_never_empty_witness :
  trace (stateless unresolvedHost) addCustomRemoteIpToFirewallIfNeed engine0 tt
  = [Ev EC_getRemoteIpFromExtraConfig "vpn.example.org";
     Ev (IpValidation_isIp "vpn.example.org") false;
     Ev (IpValidation_isDomain "vpn.example.org") true;
     Ev (WSNet_lookupBlocked "vpn.example.org")
        {| isError := true; ips := [] |};
     Ev (EC_setDetectedIp "") tt].
Proof.
  destruct (custom_remote_ip_is_never_empty unit (stateless unresolvedHost)
              engine0 tt) as (_ & _ & _ & _ & _ & _ & _ & Hfailed).
  apply Hfailed.
  - intro w. reflexivity.
  - reflexivity.
  - intro w. reflexivity.
  - intro w. reflexivity.
  - intro w. reflexivity.
  - left. reflexivity.
Defined.

(** New locations arrive while logged in. *)
Lemma location_updates_keep_the_connection_witness :
  count is_connectionControl
    (trace (stateless idle) updateServerLocations engine0 tt) = 0%nat /\
  after (stateless idle) updateServerLocations engine0 tt = engine0.
Proof.
  destruct (location_updates_keep_the_connection unit (stateless idle) engine0
              tt [] (idle _ API_locations) (idle _ API_staticIps)
              (idle _ CC_getConfigs))
    as (_ & _ & _ & Hcontrol & Hafter & _).
  - intro w. reflexivity.
  - intro w. reflexivity.
  - intro w. reflexivity.
  - split; [ exact Hcontrol | exact Hafter ].
Defined.

(** The user switches the firewall on while connected. *)
Lemma manual_firewall_switch_witness :
  filter is_firewallMutation
    (trace (stateless connectedFirewalled) firewallOnImpl engine0 tt) =
    [Ev (FW_firewallOn "185.232.22.58" [] false false) tt] /\
  count is_firewallStateQuery
    (trace (stateless connectedFirewalled) firewallOnImpl engine0 tt) = 0%nat /\
  trace (stateless connectedFirewalled) firewallOnImpl engineAfter tt =
    trace (stateless connectedFirewalled) firewallOnImpl engine0 tt /\
  filter is_firewallMutation
    (trace (stateless connectedFirewalled) updateFirewallSettings engine0 tt) =
    [Ev (FW_firewallOn "185.232.22.58" [] false false) tt].
Proof.
  destruct (manual_firewall_switch unit (stateless connectedFirewalled) engine0
              tt CONNECT_STATE_CONNECTED "" "185.232.22.58" [] [])
    as (Hswitch & _ & Hquery & Hframe & Hrefresh & _).
  - intro w. reflexivity.
  - intro w. reflexivity.
  - intro w. reflexivity.
  - intro w. reflexivity.
  - intro w. reflexivity.
  - split; [ exact Hswitch | split; [ exact Hquery | split ] ].
    + apply Hframe; reflexivity.
    + apply Hrefresh. intro w. reflexivity.
Defined.
